(** * The Xapian backend of Haystack ([xapian_backend.py]), embedded in Rocq

    The first part is the model: Python's built-in conversions used by the
    backend, dates and times, the value marshaller, the query compiler
    ([SearchQuery.build_query]), the schema and its value columns, the
    value range processor, the facets, and the calls that go through the
    index engine ([clear], [more_like_this], [search]).  The second part
    states and proves the properties of the backend, numbered C1 to C10
    and X1 to X8.

    Python byte strings and unicode strings are both [string]; Python's
    [int] and [long] are both [Z]; a Python [float] is a binary64
    [PrimFloat.float].  An exception is a value of [exn], carried by [res]. *)

From Stdlib Require Import ZArith String Ascii List Lia Floats.
From stdpp Require Import gmap strings list fin_maps.

Set Warnings "-register-all".

Local Open Scope string_scope.

(** ** Exceptions and results *)

Inductive exn : Type :=
| ValueError
| TypeError
| KeyError
| IndexError
| NameError
| AttributeError
| OverflowError
| DatabaseOpeningError.

Inductive res (A : Type) : Type :=
| Val (a : A)
| Exc (e : exn).

Arguments Val {A} a.
Arguments Exc {A} e.

#[global] Instance res_ret : MRet res := fun A a => Val a.
#[global] Instance res_bind : MBind res :=
  fun A B k m => match m with Val a => k a | Exc e => Exc e end.

(** [for x in xs: acc = body(acc, x)], stopping at the first exception. *)
Fixpoint for_each {A S : Type} (body : S -> A -> res S) (xs : list A) (acc : S)
  : res S :=
  match xs with
  | [] => Val acc
  | x :: rest => acc' ← body acc x; for_each body rest acc'
  end.

(** ** Python built-ins on strings and integers *)

Module Py.

Definition dquote : string := String "034"%char EmptyString.

(** The decimal digit [d]. *)
Definition digit_char (d : N) : ascii := ascii_of_N (48 + d).

(** The last [w] decimal digits of [n], the most significant first. *)
Fixpoint fixed (w : nat) (n : N) : string :=
  match w with
  | O => EmptyString
  | S k =>
      String (digit_char (n / 10 ^ N.of_nat k)) (fixed k (n mod 10 ^ N.of_nat k))
  end.

(** The number of decimal digits of [n]: the first [d], from 1 on, with
    [n < 10 ^ d]; [fuel] bounds the further tries. *)
Fixpoint ndigits_from (fuel d : nat) (n : N) : nat :=
  match fuel with
  | O => d
  | S fuel => if (n <? 10 ^ N.of_nat d)%N then d else ndigits_from fuel (S d) n
  end.

Definition ndigits (n : N) : nat := ndigits_from (N.to_nat (N.log2 n)) 1 n.

(** [str(n)] of a non-negative integer. *)
Definition decimal (n : N) : string := fixed (ndigits n) n.

Fixpoint zeros (n : nat) : string :=
  match n with
  | O => EmptyString
  | S k => String "0"%char (zeros k)
  end.

(** ['%0<width>d' % z]: the sign, then zeros up to [width], then the
    digits; a number wider than [width] is not cut. *)
Definition fmt_0d (width : nat) (z : Z) : string :=
  let digits := decimal (Z.abs_N z) in
  let sign := if (z <? 0)%Z then "-" else EmptyString in
  sign +:+ zeros (width - String.length sign - String.length digits) +:+ digits.

(** ['%s' % z] for an integer. *)
Definition str_int (z : Z) : string :=
  (if (z <? 0)%Z then "-" else EmptyString) +:+ decimal (Z.abs_N z).

(** [sep.join(items)]. *)
Definition join (sep : string) (items : list string) : string :=
  String.concat sep items.

(** [c in s] for a character. *)
Fixpoint contains (c : ascii) (s : string) : bool :=
  match s with
  | EmptyString => false
  | String a rest => Ascii.eqb a c || contains c rest
  end.

(** The items a [for] loop over a string visits: its characters. *)
Fixpoint chars (s : string) : list string :=
  match s with
  | EmptyString => []
  | String a rest => String a EmptyString :: chars rest
  end.

(** [s.startswith(p)]. *)
Definition startswith (p s : string) : bool := String.prefix p s.

(** [s.find(':')]: the first index of the character, or -1. *)
Fixpoint find_from (c : ascii) (s : string) (i : Z) : Z :=
  match s with
  | EmptyString => (-1)%Z
  | String a rest => if Ascii.eqb a c then i else find_from c rest (i + 1)%Z
  end.

Definition find (c : ascii) (s : string) : Z := find_from c s 0%Z.

(** An index of a slice, as Python clips it: a negative one counts from
    the end, and the result stays within [0, len]. *)
Definition clip (len i : Z) : nat :=
  Z.to_nat (Z.min len (Z.max 0 (if (i <? 0)%Z then len + i else i)%Z)).

(** [s[lo:hi]]. *)
Definition slice (s : string) (lo hi : Z) : string :=
  let len := Z.of_nat (String.length s) in
  let a := clip len lo in
  let b := clip len hi in
  String.substring a (b - a) s.

(** [sub in s] for a string. *)
Fixpoint contains_str (sub s : string) : bool :=
  String.prefix sub s
  || match s with
     | EmptyString => false
     | String _ rest => contains_str sub rest
     end.

(** [s.upper()], on the letters a to z. *)
Definition upper_char (c : ascii) : ascii :=
  let n := nat_of_ascii c in
  if (97 <=? n)%nat && (n <=? 122)%nat then ascii_of_nat (n - 32) else c.

Fixpoint upper (s : string) : string :=
  match s with
  | EmptyString => EmptyString
  | String c rest => String (upper_char c) (upper rest)
  end.

(** [s.replace(c, '')] for a character. *)
Fixpoint remove_char (c : ascii) (s : string) : string :=
  match s with
  | EmptyString => EmptyString
  | String a rest =>
      if Ascii.eqb a c then remove_char c rest else String a (remove_char c rest)
  end.

(** [s.split()]: the runs of characters between white space. *)
Definition is_space_char (c : ascii) : bool :=
  let n := nat_of_ascii c in
  (n =? 32)%nat || ((9 <=? n)%nat && (n <=? 13)%nat).

Fixpoint split_from (s word : string) : list string :=
  match s with
  | EmptyString =>
      match word with EmptyString => [] | _ => [word] end
  | String c rest =>
      if is_space_char c
      then match word with
           | EmptyString => split_from rest EmptyString
           | _ => word :: split_from rest EmptyString
           end
      else split_from rest (word +:+ String c EmptyString)
  end.

Definition split (s : string) : list string := split_from s EmptyString.

End Py.

(** ** Dates and times ([datetime.date], [datetime.datetime]) *)

Record date : Type := Date {
  d_year : Z;
  d_month : Z;
  d_day : Z
}.

Record datetime : Type := DateTime {
  year : Z;
  month : Z;
  day : Z;
  hour : Z;
  minute : Z;
  second : Z;
  microsecond : Z
}.

Module DT.

Local Open Scope Z_scope.

(** [date.isoformat()], also [str(date)]. *)
Definition date_isoformat (d : date) : string :=
  Py.fmt_0d 4 (d_year d) +:+ "-" +:+ Py.fmt_0d 2 (d_month d) +:+ "-"
  +:+ Py.fmt_0d 2 (d_day d).

(** [datetime.isoformat(sep)]: the microseconds are written only when
    they are not zero. *)
Definition isoformat_sep (sep : string) (t : datetime) : string :=
  Py.fmt_0d 4 (year t) +:+ "-" +:+ Py.fmt_0d 2 (month t) +:+ "-"
  +:+ Py.fmt_0d 2 (day t) +:+ sep
  +:+ Py.fmt_0d 2 (hour t) +:+ ":" +:+ Py.fmt_0d 2 (minute t) +:+ ":"
  +:+ Py.fmt_0d 2 (second t)
  +:+ (if microsecond t =? 0 then EmptyString
       else "." +:+ Py.fmt_0d 6 (microsecond t)).

Definition isoformat (t : datetime) : string := isoformat_sep "T" t.

(** [a < b] on datetimes: field by field, most significant first. *)
Definition key (t : datetime) : list Z :=
  [year t; month t; day t; hour t; minute t; second t; microsecond t].

Fixpoint lex_ltb (a b : list Z) : bool :=
  match a, b with
  | x :: a', y :: b' => (x <? y) || ((x =? y) && lex_ltb a' b')
  | [], _ :: _ => true
  | _, [] => false
  end.

Definition ltb (a b : datetime) : bool := lex_ltb (key a) (key b).
Definition gtb (a b : datetime) : bool := ltb b a.

(** The calendar of [datetime]: the proleptic Gregorian one, years 1 to
    9999. *)
Definition is_leap (y : Z) : bool :=
  (y mod 4 =? 0) && (negb (y mod 100 =? 0) || (y mod 400 =? 0)).

Definition month_lengths (y : Z) : list Z :=
  [31; if is_leap y then 29 else 28; 31; 30; 31; 30; 31; 31; 30; 31; 30; 31].

Definition days_in_month (y m : Z) : Z :=
  nth (Z.to_nat (m - 1)) (month_lengths y) 0.

(** The checks of the constructor; [replace] runs them again. *)
Definition valid (t : datetime) : bool :=
  (1 <=? year t) && (year t <=? 9999)
  && (1 <=? month t) && (month t <=? 12)
  && (1 <=? day t) && (day t <=? days_in_month (year t) (month t))
  && (0 <=? hour t) && (hour t <? 24)
  && (0 <=? minute t) && (minute t <? 60)
  && (0 <=? second t) && (second t <? 60)
  && (0 <=? microsecond t) && (microsecond t <? 1000000).

Definition checked (t : datetime) : res datetime :=
  if valid t then Val t else Exc ValueError.

(** [t.replace(year=y)], [t.replace(month=m)] and
    [t.replace(month=m, year=y)]. *)
Definition replace_month_year (t : datetime) (m y : Z) : res datetime :=
  checked (DateTime y m (day t) (hour t) (minute t) (second t) (microsecond t)).

Definition replace_year (t : datetime) (y : Z) : res datetime :=
  replace_month_year t (month t) y.

Definition replace_month (t : datetime) (m : Z) : res datetime :=
  replace_month_year t m (year t).

(** The day number of a date, 0001-01-01 being day 1, and back. *)
Definition days_before_year (y : Z) : Z :=
  let p := y - 1 in p * 365 + p / 4 - p / 100 + p / 400.

Definition days_before_month (y m : Z) : Z :=
  fold_right Z.add 0 (firstn (Z.to_nat (m - 1)) (month_lengths y)).

Definition toordinal (y m d : Z) : Z :=
  days_before_year y + days_before_month y m + d.

Fixpoint month_day (lengths : list Z) (m n : Z) : Z * Z :=
  match lengths with
  | [] => (m, n)
  | len :: rest => if n <=? len then (m, n) else month_day rest (m + 1) (n - len)
  end.

(** The cycles of 400, 100 and 4 years hold 146097, 36524 and 1461 days;
    the last day of a leap year closes a cycle of 4 or of 400 years. *)
Definition fromordinal (n : Z) : Z * Z * Z :=
  let n := n - 1 in
  let n400 := n / 146097 in
  let n := n mod 146097 in
  let n100 := n / 36524 in
  let n := n mod 36524 in
  let n4 := n / 1461 in
  let n := n mod 1461 in
  let n1 := n / 365 in
  let n := n mod 365 in
  let y := n400 * 400 + n100 * 100 + n4 * 4 + n1 + 1 in
  if (n1 =? 4) || (n100 =? 4) then (y - 1, 12, 31)
  else
    let '(m, d) := month_day (month_lengths y) 1 (n + 1) in
    (y, m, d).

Definition max_ordinal : Z := 3652059.

(** [t + datetime.timedelta(days=days, seconds=seconds)]. *)
Definition add (t : datetime) (days seconds : Z) : res datetime :=
  let s := hour t * 3600 + minute t * 60 + second t + seconds in
  let n := toordinal (year t) (month t) (day t) + days + s / 86400 in
  let s := s mod 86400 in
  if (1 <=? n) && (n <=? max_ordinal)
  then
    let '(y, m, d) := fromordinal n in
    Val (DateTime y m d (s / 3600) (s mod 3600 / 60) (s mod 60) (microsecond t))
  else Exc OverflowError.

(** Reading back the decimal digits [fmt_0d] writes. *)
Definition digit (c : ascii) : option Z :=
  let n := Z.of_nat (nat_of_ascii c) in
  if (48 <=? n) && (n <=? 57) then Some (n - 48) else None.

Fixpoint number_from (s : string) (acc : Z) : option Z :=
  match s with
  | EmptyString => Some acc
  | String c rest =>
      match digit c with
      | Some d => number_from rest (acc * 10 + d)
      | None => None
      end
  end.

Definition number (s : string) : option Z :=
  match s with
  | EmptyString => None
  | _ => number_from s 0
  end.

(** [datetime.strptime(s, '%Y-%m-%dT%H:%M:%S')] on the texts [isoformat]
    writes: four digits of year and two of every other field, nothing
    after the seconds. *)
Definition strptime (s : string) : res datetime :=
  let part i n := number (String.substring i n s) in
  let sep i c := String.eqb (String.substring i 1 s) c in
  match part 0%nat 4%nat, part 5%nat 2%nat, part 8%nat 2%nat,
        part 11%nat 2%nat, part 14%nat 2%nat, part 17%nat 2%nat with
  | Some y, Some m, Some d, Some hh, Some mm, Some ss =>
      if (String.length s =? 19)%nat
         && sep 4%nat "-" && sep 7%nat "-" && sep 10%nat "T"
         && sep 13%nat ":" && sep 16%nat ":"
      then checked (DateTime y m d hh mm ss 0)
      else Exc ValueError
  | _, _, _, _, _, _ => Exc ValueError
  end.

End DT.

(** ** Values handed to the backend *)

(** The values of the supported field types.  [isinstance] is tested in
    the source in the order of the constructors: a [datetime] is also a
    [date], a [bool] is also an [int]. *)
Inductive scalar : Type :=
| VDateTime (t : datetime)
| VDate (d : date)
| VBool (b : bool)
| VFloat (x : float)
| VInt (z : Z)
| VText (s : string).

(** What the backend takes from outside this file: Xapian's
    [sortable_serialise], the interpreter's [sys.maxint], and Python's
    [str(x)] of a float, [float(s)] and [long(s)] of a string, [repr], and
    [re.compile(re.escape(term), re.IGNORECASE).sub(repl, content)]. *)
Class Host : Type := {
  sortable_serialise : float -> string;
  maxint : Z;
  float_str : float -> string;
  float_of_str : string -> res float;
  long_of_str : string -> res Z;
  repr : scalar -> string;
  re_sub_ignorecase : string -> string -> string -> string
}.

(** ** The value marshaller and the query compiler *)

Inductive pyvalue : Type :=
| Scalar (v : scalar)
| PyList (items : list scalar)
| PyTuple (items : list scalar).

Inductive FilterType : Type :=
| op_exact
| op_gt
| op_gte
| op_lt
| op_lte
| op_startswith
| op_in.

(** A filter of the query, as [build_query] reads it: its [field],
    [filter_type] and [value], and the answers of its methods
    [is_and()], [is_or()] and [is_not()]. *)
Record QueryFilter : Type := {
  field : string;
  filter_type : FilterType;
  value : pyvalue;
  is_and : bool;
  is_or : bool;
  is_not : bool
}.

(** [model._meta.app_label] and [model._meta.module_name]. *)
Record Model : Type := {
  app_label : string;
  module_name : string
}.

(** An item of [query_chunks]: a string, or a list or tuple that was
    appended as it is. *)
Inductive chunk : Type :=
| CStr (s : string)
| CSeq (v : pyvalue).

Section Compiler.

Context `{Host}.

(** [SearchBackend._marshal_value]. *)
Definition _marshal_value (value : scalar) : string :=
  match value with
  | VDateTime t =>
      if (microsecond t =? 0)%Z
      then Py.fmt_0d 4 (year t) +:+ Py.fmt_0d 2 (month t) +:+ Py.fmt_0d 2 (day t)
           +:+ Py.fmt_0d 2 (hour t) +:+ Py.fmt_0d 2 (minute t)
           +:+ Py.fmt_0d 2 (second t)
      else Py.fmt_0d 4 (year t) +:+ Py.fmt_0d 2 (month t) +:+ Py.fmt_0d 2 (day t)
           +:+ Py.fmt_0d 2 (hour t) +:+ Py.fmt_0d 2 (minute t)
           +:+ Py.fmt_0d 2 (second t) +:+ Py.fmt_0d 6 (microsecond t)
  | VDate d =>
      Py.fmt_0d 4 (d_year d) +:+ Py.fmt_0d 2 (d_month d) +:+ Py.fmt_0d 2 (d_day d)
      +:+ "000000"
  | VBool b => if b then "t" else "f"
  | VFloat x => sortable_serialise x
  | VInt z => Py.fmt_0d 12 z
  | VText s => s
  end.

(** ['%s' % v] for a scalar. *)
Definition str (v : scalar) : string :=
  match v with
  | VDateTime t => DT.isoformat_sep " " t
  | VDate d => DT.date_isoformat d
  | VBool b => if b then "True" else "False"
  | VFloat x => float_str x
  | VInt z => Py.str_int z
  | VText s => s
  end.

(** ['%s' % v] for a list or a tuple: the [repr] of its items. *)
Definition seq_str (is_tuple : bool) (items : list scalar) : string :=
  let inner := Py.join ", " (map repr items) in
  if is_tuple
  then "(" +:+ inner +:+ (if (length items =? 1)%nat then "," else EmptyString)
       +:+ ")"
  else "[" +:+ inner +:+ "]".

(** The value of a filter once [build_query] has marshalled it: a string,
    or the list or tuple left as it was. *)
Inductive qvalue : Type :=
| QStr (s : string)
| QSeq (is_tuple : bool) (items : list scalar).

(** [if not isinstance(value, (list, tuple)): value = _marshal_value(value)]. *)
Definition marshal_filter_value (v : pyvalue) : qvalue :=
  match v with
  | Scalar s => QStr (_marshal_value s)
  | PyList items => QSeq false items
  | PyTuple items => QSeq true items
  end.

(** [' ' == item]. *)
Definition is_space (item : scalar) : bool :=
  match item with
  | VText s => s =? " "
  | _ => false
  end.

(** [' ' in value]. *)
Definition has_space (v : qvalue) : bool :=
  match v with
  | QStr s => Py.contains " "%char s
  | QSeq _ items => existsb is_space items
  end.

(** [value = '"%s"' % value]: a tuple is spread over the format's one
    place, and fits only when it has one item. *)
Definition quote (v : qvalue) : res qvalue :=
  match v with
  | QStr s => Val (QStr (Py.dquote +:+ s +:+ Py.dquote))
  | QSeq false items => Val (QStr (Py.dquote +:+ seq_str false items +:+ Py.dquote))
  | QSeq true [item] => Val (QStr (Py.dquote +:+ str item +:+ Py.dquote))
  | QSeq true _ => Exc TypeError
  end.

(** A value substituted for a [%s] that stands beside the field. *)
Definition qvalue_str (v : qvalue) : string :=
  match v with
  | QStr s => s
  | QSeq is_tuple items => seq_str is_tuple items
  end.

(** [filter_types[filter_type] % (field, value)], for the table chosen by
    [is_not()]; the tables have no entry for ['in']. *)
Definition filter_types (negated : bool) (ft : FilterType) (f v : string)
  : res string :=
  match negated, ft with
  | true, op_exact => Val ("NOT " +:+ f +:+ ":" +:+ v)
  | true, op_gte => Val ("NOT " +:+ f +:+ ":" +:+ v +:+ "..*")
  | true, op_gt => Val (f +:+ ":.." +:+ v)
  | true, op_lte => Val ("NOT " +:+ f +:+ ":.." +:+ v)
  | true, op_lt => Val (f +:+ ":" +:+ v +:+ "..*")
  | true, op_startswith => Val ("NOT " +:+ f +:+ ":" +:+ v +:+ "*")
  | false, op_exact => Val (f +:+ ":" +:+ v)
  | false, op_gte => Val (f +:+ ":" +:+ v +:+ "..*")
  | false, op_gt => Val ("NOT " +:+ f +:+ ":.." +:+ v)
  | false, op_lte => Val (f +:+ ":.." +:+ v)
  | false, op_lt => Val ("NOT " +:+ f +:+ ":" +:+ v +:+ "..*")
  | false, op_startswith => Val (f +:+ ":" +:+ v +:+ "*")
  | _, op_in => Exc KeyError
  end.

(** The texts [possible_value] takes in [for possible_value in value]:
    the characters of a string, the items of a list or tuple. *)
Definition possible_values (v : qvalue) : list string :=
  match v with
  | QStr s => Py.chars s
  | QSeq _ items => map str items
  end.

(** [in_options]: ['%s:%s' % (field, possible_value)] for each of them. *)
Definition in_options (f : string) (v : qvalue) : list string :=
  map (fun possible_value => f +:+ ":" +:+ possible_value) (possible_values v).

(** The body of the loop over [query_filters]: the chunks one filter
    appends to [query_chunks]. *)
Definition filter_chunks (the_filter : QueryFilter) : res (list chunk) :=
  let connectors :=
    ((if is_and the_filter then [CStr "AND"] else [])
     ++ (if is_or the_filter then [CStr "OR"] else [])
     ++ (if is_not the_filter && (field the_filter =? "content")
         then [CStr "NOT"] else []))%list in
  let value := marshal_filter_value (value the_filter) in
  value ← (if has_space value then quote value else Val value);
  if field the_filter =? "content"
  then Val (connectors
            ++ [match value with
                | QStr s => CStr s
                | QSeq false items => CSeq (PyList items)
                | QSeq true items => CSeq (PyTuple items)
                end])%list
  else
    let negation := if is_not the_filter then [CStr "AND"] else [] in
    match filter_type the_filter with
    | op_in =>
        let options := in_options (field the_filter) value in
        Val (connectors ++ negation
             ++ [CStr (if is_not the_filter
                       then "NOT " +:+ Py.join " NOT " options
                       else "(" +:+ Py.join " OR " options +:+ ")")])%list
    | ft =>
        text ← filter_types (is_not the_filter) ft (field the_filter)
                 (qvalue_str value);
        Val (connectors ++ negation ++ [CStr text])%list
    end.

(** [query_chunks[0] in ('AND', 'OR')]. *)
Definition is_connector (c : chunk) : bool :=
  match c with
  | CStr s => (s =? "AND") || (s =? "OR")
  | CSeq _ => false
  end.

(** [' '.join(query_chunks)]: every item has to be a string. *)
Fixpoint chunk_strings (chunks : list chunk) : res (list string) :=
  match chunks with
  | [] => Val []
  | CStr s :: rest => strings ← chunk_strings rest; Val (s :: strings)
  | CSeq _ :: _ => Exc TypeError
  end.

(** [SearchQuery.build_query], for the filters [query_filters] and the
    models [models] of the query. *)
Definition build_query (query_filters : list QueryFilter) (models : list Model)
  : res string :=
  query ←
    match query_filters with
    | [] => Val "*"
    | _ =>
        query_chunks ←
          for_each (fun chunks the_filter =>
                      new ← filter_chunks the_filter; Val (chunks ++ new)%list)
                   query_filters [];
        query_chunks ←
          match query_chunks with
          | [] => Exc IndexError
          | first :: rest =>
              Val (if is_connector first then rest else first :: rest)
          end;
        strings ← chunk_strings query_chunks;
        Val (Py.join " " strings)
    end;
  match models with
  | [] => Val query
  | _ =>
      let models_clause :=
        Py.join " "
          (map (fun model =>
                  "django_ct:" +:+ app_label model +:+ "." +:+ module_name model)
               models) in
      Val ("(" +:+ query +:+ ") " +:+ models_clause)
  end.

End Compiler.

(** ** The schema and its value columns *)

Inductive FieldType : Type :=
| TText
| TLong
| TFloat
| TDate
| TDateTime
| TBoolean.

(** An entry of [self.schema]. *)
Record field_dict : Type := {
  field_name : string;
  type : FieldType;
  multi_valued : bool;
  column : nat
}.

(** The classes [build_schema] tells apart with [isinstance]; any other
    field class is [CharField]. *)
Inductive FieldClass : Type :=
| DateField
| DateTimeField
| IntegerField
| FloatField
| BooleanField
| MultiValueField
| CharField.

(** A field declaration of the index. *)
Record field_class : Type := {
  document : bool;
  indexed : bool;
  class : FieldClass
}.

(** [SearchBackend.build_schema], over [fields.items()]. *)
Fixpoint build_schema_from (fields : list (string * field_class))
  (content_field_name : string) (column : nat) : string * list field_dict :=
  match fields with
  | [] => (content_field_name, [])
  | (name, fc) :: rest =>
      let content_field_name :=
        if document fc then name else content_field_name in
      if indexed fc
      then
        let field_data := {|
          field_name := name;
          type := match class fc with
                  | DateField | DateTimeField => TDate
                  | IntegerField => TLong
                  | FloatField => TFloat
                  | BooleanField => TBoolean
                  | MultiValueField | CharField => TText
                  end;
          multi_valued := match class fc with
                          | MultiValueField => true
                          | _ => false
                          end;
          column := column |} in
        let '(content, schema_fields) :=
          build_schema_from rest content_field_name (S column) in
        (content, field_data :: schema_fields)
      else build_schema_from rest content_field_name column
  end.

Definition build_schema (fields : list (string * field_class))
  : string * list field_dict :=
  build_schema_from fields EmptyString 0.

(** [SearchBackend._value_column]. *)
Fixpoint _value_column (schema : list field_dict) (field : string) : nat :=
  match schema with
  | [] => 0
  | fd :: rest =>
      if field_name fd =? field then column fd else _value_column rest field
  end.

(** [SearchBackend._sorter]: the keys added to the [MultiValueSorter], each
    a value column and its [reverse] flag. *)
Definition _sorter (schema : list field_dict) (sort_by : list string)
  : list (nat * bool) :=
  map (fun sort_field =>
         if Py.startswith "-" sort_field
         then (_value_column schema
                 (Py.slice sort_field 1 (Z.of_nat (String.length sort_field))),
               true)
         else (_value_column schema sort_field, false))
      sort_by.

(** ** The value range processor *)

(** What [begin] and [end] hold while [__call__] runs: the text cut from
    the query, or the number put in its place. *)
Inductive bound : Type :=
| BStr (s : string)
| BInt (z : Z)
| BFloat (x : float).

Section RangeProcessor.

Context `{Host}.

(** [long(x)] of a float: towards zero. *)
Definition long_of_float (x : float) : res Z :=
  match Prim2SF x with
  | SpecFloat.S754_zero _ => Val 0%Z
  | SpecFloat.S754_infinity _ => Exc OverflowError
  | SpecFloat.S754_nan => Exc ValueError
  | SpecFloat.S754_finite s m e =>
      let magnitude :=
        if (0 <=? e)%Z then (Z.pos m * 2 ^ e)%Z else (Z.pos m / 2 ^ (- e))%Z in
      Val (if s then (- magnitude)%Z else magnitude)
  end.

(** [float(begin)], [long(begin)] and [str(begin)]. *)
Definition py_float (b : bound) : res float :=
  match b with
  | BStr s => float_of_str s
  | BInt z => float_of_str (Py.str_int z)
  | BFloat x => Val x
  end.

Definition py_long (b : bound) : res Z :=
  match b with
  | BStr s => long_of_str s
  | BInt z => Val z
  | BFloat x => long_of_float x
  end.

Definition py_str (b : bound) : string :=
  match b with
  | BStr s => s
  | BInt z => Py.str_int z
  | BFloat x => float_str x
  end.

(** [u'z' * 100]. *)
Fixpoint repeat_char (c : ascii) (n : nat) : string :=
  match n with
  | O => EmptyString
  | S k => String c (repeat_char c k)
  end.

(** The lowest and the highest value of a type; a boolean field has none,
    and the bound stays as it was. *)
Definition lowest (t : FieldType) (begin : bound) : bound :=
  match t with
  | TText => BStr "a"
  | TLong => BInt (- maxint - 1)%Z
  | TFloat => BFloat neg_infinity
  | TDate | TDateTime => BStr "00010101000000"
  | TBoolean => begin
  end.

Definition highest (t : FieldType) (end_ : bound) : bound :=
  match t with
  | TText => BStr (repeat_char "z" 100)
  | TLong => BInt maxint
  | TFloat => BFloat infinity
  | TDate | TDateTime => BStr "99990101000000"
  | TBoolean => end_
  end.

(** The body of the loop of [__call__] for the entry whose name is the
    field's. *)
Definition range_of (fd : field_dict) (begin end_ : string)
  : res (nat * string * string) :=
  let '(begin, end_) :=
    if begin =? EmptyString then (lowest (type fd) (BStr begin), BStr end_)
    else if end_ =? "*" then (BStr begin, highest (type fd) (BStr end_))
    else (BStr begin, BStr end_) in
  '(begin, end_) ←
    match type fd with
    | TFloat =>
        b ← py_float begin;
        e ← py_float end_;
        Val (BStr (_marshal_value (VFloat b)), BStr (_marshal_value (VFloat e)))
    | TLong =>
        b ← py_long begin;
        e ← py_long end_;
        Val (BStr (_marshal_value (VInt b)), BStr (_marshal_value (VInt e)))
    | _ => Val (begin, end_)
    end;
  Val (column fd, py_str begin, py_str end_).

Fixpoint range_lookup (schema : list field_dict) (name begin end_ : string)
  : res (option (nat * string * string)) :=
  match schema with
  | [] => Val None
  | fd :: rest =>
      if field_name fd =? name
      then r ← range_of fd begin end_; Val (Some r)
      else range_lookup rest name begin end_
  end.

(** [XHValueRangeProcessor.__call__]: [None] when the loop ends without a
    [return]. *)
Definition XHValueRangeProcessor_call (schema : list field_dict)
  (begin end_ : string) : res (option (nat * string * string)) :=
  let colon := Py.find ":" begin in
  let name := Py.slice begin 0 colon in
  let begin :=
    Py.slice begin (colon + 1) (Z.of_nat (String.length begin)) in
  range_lookup schema name begin end_.

End RangeProcessor.

(** ** Search results *)

(** A value of [model_data]: [None], a scalar, a list of scalars, or the
    [highlighted] entry [search] adds ([{content_field_name: text}]). *)
Inductive attr : Type :=
| PyNone
| AVal (v : scalar)
| ASeq (items : list scalar)
| AHighlighted (content_field_name : string) (text : attr).

(** [SearchResult(app_label, module_name, pk, weight, **model_data)]. *)
Record SearchResult : Type := {
  sr_app_label : string;
  sr_module_name : string;
  sr_pk : Z;
  sr_weight : float;
  sr_model_data : gmap string attr
}.

(** [getattr(result, name)] for a name of [model_data]. *)
Definition getattr (result : SearchResult) (name : string) : res attr :=
  match sr_model_data result !! name with
  | Some a => Val a
  | None => Exc AttributeError
  end.

(** [if a:]. *)
Definition truthy (a : attr) : bool :=
  match a with
  | PyNone => false
  | AVal (VDateTime _) | AVal (VDate _) => true
  | AVal (VBool b) => b
  | AVal (VFloat x) => negb (PrimFloat.eqb x 0%float)
  | AVal (VInt z) => negb (z =? 0)%Z
  | AVal (VText s) => negb (s =? EmptyString)
  | ASeq items => match items with [] => false | _ => true end
  | AHighlighted _ _ => true
  end.

(** ** Date facets *)

(** [gap_by]: one of the six units, or anything else (also no [gap_by]
    at all), which no branch of the loop handles. *)
Inductive GapType : Type :=
| gap_year
| gap_month
| gap_day
| gap_hour
| gap_minute
| gap_second
| gap_other.

(** The parameters of one date facet; [gap_amount] may be left out. *)
Record facet_params : Type := {
  start_date : datetime;
  end_date : datetime;
  gap_by : GapType;
  gap_amount : option Z
}.

Section DateFacets.

Local Open Scope Z_scope.

(** One step of the [while] loop: the start of the next range. *)
Definition next_range (gap_type : GapType) (gap_value : Z)
  (date_range : datetime) : res datetime :=
  match gap_type with
  | gap_year => DT.replace_year date_range (year date_range + gap_value)
  | gap_month =>
      if month date_range =? 12
      then DT.replace_month_year date_range 1 (year date_range + gap_value)
      else DT.replace_month date_range (month date_range + gap_value)
  | gap_day => DT.add date_range gap_value 0
  | gap_hour => DT.add date_range 0 (gap_value * 3600)
  | gap_minute => DT.add date_range 0 (gap_value * 60)
  | gap_second => DT.add date_range 0 gap_value
  | gap_other => Val date_range
  end.

(** [while date_range < end_date: ...], for at most [fuel] rounds: [None]
    when the loop has not ended by then. *)
Fixpoint date_ranges (fuel : nat) (gap_type : GapType) (gap_value : Z)
  (date_range end_date : datetime) (facet_list : list (string * Z))
  : option (res (list (string * Z))) :=
  match fuel with
  | O => None
  | S fuel =>
      if DT.ltb date_range end_date
      then
        let facet_list := (facet_list ++ [(DT.isoformat date_range, 0)])%list in
        match next_range gap_type gap_value date_range with
        | Val date_range =>
            date_ranges fuel gap_type gap_value date_range end_date facet_list
        | Exc e => Some (Exc e)
        end
      else Some (Val facet_list)
  end.

(** [sorted(facet_list, key=lambda n: n[0], reverse=True)]: descending by
    the text of the date, entries of equal text in their first order. *)
Fixpoint insert_desc (x : string * Z) (sorted : list (string * Z))
  : list (string * Z) :=
  match sorted with
  | [] => [x]
  | y :: rest =>
      if String.ltb (fst y) (fst x) then x :: y :: rest
      else y :: insert_desc x rest
  end.

Definition sorted_desc (facet_list : list (string * Z)) : list (string * Z) :=
  fold_left (fun sorted x => insert_desc x sorted) facet_list [].

(** The value of the field as a [datetime]: a date is taken at midnight;
    anything else has no [year]. *)
Definition as_datetime (a : attr) : res datetime :=
  match a with
  | AVal (VDateTime t) => Val t
  | AVal (VDate d) => Val (DateTime (d_year d) (d_month d) (d_day d) 0 0 0 0)
  | _ => Exc AttributeError
  end.

(** [for n, facet_date in enumerate(facet_list)], up to the [break]: the
    index of the first entry that starts before [result_date]. *)
Fixpoint first_before (result_date : datetime) (facet_list : list (string * Z))
  (n : nat) : res (option nat) :=
  match facet_list with
  | [] => Val None
  | facet_date :: rest =>
      start ← DT.strptime (fst facet_date);
      if DT.gtb result_date start then Val (Some n)
      else first_before result_date rest (S n)
  end.

(** The body of the loop over [results]. *)
Definition tally (date_facet : string) (facet_list : list (string * Z))
  (result : SearchResult) : res (list (string * Z)) :=
  result_date ← getattr result date_facet;
  if truthy result_date
  then
    result_date ← as_datetime result_date;
    found ← first_before result_date facet_list 0%nat;
    match found with
    | Some n =>
        match facet_list !! n with
        | Some (label, count) => Val (<[n := (label, count + 1)]> facet_list)
        | None => Exc IndexError
        end
    | None => Val facet_list
    end
  else Val facet_list.

(** The facet list of one entry of [date_facets]. *)
Definition date_facet_list (fuel : nat) (results : list SearchResult)
  (date_facet : string) (params : facet_params)
  : option (res (list (string * Z))) :=
  let gap_value := default 1 (gap_amount params) in
  match date_ranges fuel (gap_by params) gap_value (start_date params)
          (end_date params) [] with
  | None => None
  | Some (Exc e) => Some (Exc e)
  | Some (Val facet_list) =>
      Some (for_each (tally date_facet) results (sorted_desc facet_list))
  end.

(** [SearchBackend._do_date_facets], over [date_facets.iteritems()]. *)
Fixpoint date_facets_from (fuel : nat) (results : list SearchResult)
  (items : list (string * facet_params))
  (facet_dict : gmap string (list (string * Z)))
  : option (res (gmap string (list (string * Z)))) :=
  match items with
  | [] => Some (Val facet_dict)
  | (date_facet, params) :: rest =>
      match date_facet_list fuel results date_facet params with
      | None => None
      | Some (Exc e) => Some (Exc e)
      | Some (Val facet_list) =>
          date_facets_from fuel results rest (<[date_facet := facet_list]> facet_dict)
      end
  end.

Definition _do_date_facets (fuel : nat) (results : list SearchResult)
  (date_facets : gmap string facet_params)
  : option (res (gmap string (list (string * Z)))) :=
  date_facets_from fuel results (map_to_list date_facets) ∅.

End DateFacets.

(** ** The index engine *)

Definition DEFAULT_MAX_RESULTS : N := 100000.
Definition DOCUMENT_ID_TERM_PREFIX : string := "Q".
Definition DOCUMENT_CUSTOM_TERM_PREFIX : string := "X".
Definition DOCUMENT_CT_TERM_PREFIX : string :=
  DOCUMENT_CUSTOM_TERM_PREFIX +:+ "CONTENTTYPE".

(** A document of the store: its terms, its value slots, and the pickled
    [(app_label, module_name, pk, model_data)] of its data. *)
Record Document : Type := {
  terms : gset string;
  values : gmap nat string;
  data_app_label : string;
  data_module_name : string;
  data_pk : Z;
  data_model_data : gmap string attr
}.

(** An open database: the documents by document id, and the two metadata
    entries [_database] reads into [self.schema] and
    [self.content_field_name]. *)
Record Database : Type := {
  documents : gmap positive Document;
  schema : list field_dict;
  content_field_name : string
}.

(** The store at [HAYSTACK_XAPIAN_PATH]; [None] when there is none yet. *)
Definition Store : Type := option Database.

Inductive Flag : Type :=
| FLAG_PARTIAL
| FLAG_PHRASE
| FLAG_BOOLEAN
| FLAG_LOVEHATE
| FLAG_WILDCARD
| FLAG_PURE_NOT
| FLAG_SPELLING_CORRECTION.

Inductive Op : Type :=
| OP_AND
| OP_OR
| OP_AND_NOT
| OP_FILTER.

(** A [xapian.Query]: a term ([Query('')] matches every document), an
    operator over sub-queries, a sub-query with its weight scaled, or what
    the query parser made of a query string. *)
Inductive Query : Type :=
| Q_term (term : string)
| Q_op (op : Op) (subqueries : list Query)
| Q_scale_weight (subquery : Query) (factor : float)
| Q_parsed (query_string : string) (flags : list Flag).

(** An item of a match set. *)
Record Match : Type := {
  m_docid : positive;
  m_weight : float;
  m_document : Document
}.

(** What the engine decides: which documents a parsed query string matches
    (with the prefixes of the schema and the range processor installed),
    the corrected query string, the weight of a match, the order of a match
    set (under a sorter, if one is set), the size it estimates for a match
    set given all its matches, and the terms it proposes from a relevance
    set. *)
Class Engine : Type := {
  parsed_matches : Database -> string -> list Flag -> Document -> bool;
  corrected_query_string : Database -> string -> string;
  match_weight : Database -> Query -> positive -> float;
  ranked : Database -> Query -> option (list (nat * bool)) -> list Match -> list Match;
  ranked_perm : forall db q sorter ms, ranked db q sorter ms ≡ₚ ms;
  matches_estimated : Database -> Query -> list Match -> Z;
  expand : Database -> Query -> list positive -> list string
}.

Section Matching.

Context `{Engine}.

(** Whether a document matches a query.  An operator without sub-queries
    is the empty query, which matches nothing. *)
Fixpoint query_matches (db : Database) (d : Document) (q : Query) : bool :=
  match q with
  | Q_term term => (term =? EmptyString) || bool_decide (term ∈ terms d)
  | Q_op op subqueries =>
      match op, subqueries with
      | _, [] => false
      | OP_OR, _ => existsb (query_matches db d) subqueries
      | OP_AND, _ | OP_FILTER, _ => forallb (query_matches db d) subqueries
      | OP_AND_NOT, first :: rest =>
          query_matches db d first && negb (existsb (query_matches db d) rest)
      end
  | Q_scale_weight subquery _ => query_matches db d subquery
  | Q_parsed query_string flags => parsed_matches db query_string flags d
  end.

(** All the matches of a query, in the order of the engine. *)
Definition all_matches (db : Database) (q : Query)
  (sorter : option (list (nat * bool))) : list Match :=
  ranked db q sorter
    (map (fun '(i, d) =>
            {| m_docid := i; m_weight := match_weight db q i; m_document := d |})
         (List.filter (fun '(_, d) => query_matches db d q)
            (map_to_list (documents db)))).

(** [enquire.get_mset(first, maxitems)]. *)
Definition get_mset (db : Database) (q : Query)
  (sorter : option (list (nat * bool))) (first maxitems : N) : list Match :=
  take (N.to_nat maxitems) (drop (N.to_nat first) (all_matches db q sorter)).

(** [matches.get_matches_estimated()]. *)
Definition get_matches_estimated (db : Database) (q : Query)
  (sorter : option (list (nat * bool))) : Z :=
  matches_estimated db q (all_matches db q sorter).

(** [enquire.get_eset(maxitems, rset, decider)]: the proposed terms the
    decider lets through. *)
Definition get_eset (db : Database) (q : Query) (maxitems : N)
  (rset : list positive) (decider : string -> bool) : list string :=
  take (N.to_nat maxitems) (List.filter decider (expand db q rset)).

(** [database.delete_document(docid)] and [database.delete_document(term)]. *)
Definition delete_document (i : positive) (db : Database) : Database :=
  {| documents := delete i (documents db);
     schema := schema db;
     content_field_name := content_field_name db |}.

Definition delete_document_term (term : string) (db : Database) : Database :=
  {| documents := filter (fun kv => term ∉ terms kv.2) (documents db);
     schema := schema db;
     content_field_name := content_field_name db |}.

End Matching.

(** ** The backend: [clear], [document_count], [more_like_this] *)

(** The model instance handed to [more_like_this], read through
    [obj._meta] and [obj.pk]. *)
Record Instance : Type := {
  obj_app_label : string;
  obj_module_name : string;
  obj_pk : Z
}.

Record facets_dict : Type := {
  fields : gmap string (list (attr * Z));
  dates : gmap string (list (string * Z));
  queries : gmap string (string * Z)
}.

(** The dictionary a search returns; the keys ['facets'] and
    ['spelling_suggestion'] may be missing. *)
Record response : Type := {
  results : list SearchResult;
  hits : Z;
  facets : option facets_dict;
  spelling_suggestion : option (option string)
}.

Definition no_facets : facets_dict :=
  {| fields := ∅; dates := ∅; queries := ∅ |}.

(** [XHExpandDecider.__call__]. *)
Definition XHExpandDecider (term : string) : bool :=
  if Py.startswith DOCUMENT_CT_TERM_PREFIX term then false else true.

(** [SearchBackend.get_identifier]: ['Q<app_label>.<module_name>.<pk>']. *)
Definition get_identifier (app module : string) (pk : Z) : string :=
  DOCUMENT_ID_TERM_PREFIX +:+ app +:+ "." +:+ module +:+ "." +:+ Py.str_int pk.

(** The term [update] gives every document of a model. *)
Definition content_type_term (app module : string) : string :=
  DOCUMENT_CT_TERM_PREFIX +:+ app +:+ "." +:+ module.

Section Backend.

Context `{Host} `{Engine}.

(** [settings.HAYSTACK_INCLUDE_SPELLING is True], and
    [self.site.all_searchfields().items()]. *)
Variable include_spelling : bool.
Variable site_fields : list (string * field_class).

(** [SearchBackend._database]: in write mode the store is created when
    missing and the schema of the site is written to it; in read mode the
    store has to be there. *)
Definition _database_writable (store : Store) : Database :=
  let '(content, schema_fields) := build_schema site_fields in
  {| documents := match store with Some db => documents db | None => ∅ end;
     schema := schema_fields;
     content_field_name := content |}.

Definition _database (store : Store) : res Database :=
  match store with
  | Some db => Val db
  | None => Exc DatabaseOpeningError
  end.

(** [SearchBackend._flags]. *)
Definition _flags (query_string : string) : list Flag :=
  ([FLAG_PARTIAL; FLAG_PHRASE; FLAG_BOOLEAN; FLAG_LOVEHATE]
   ++ (if Py.contains "*"%char query_string then [FLAG_WILDCARD] else [])
   ++ (if Py.contains_str "NOT" (Py.upper query_string) then [FLAG_PURE_NOT]
       else [])
   ++ (if include_spelling then [FLAG_SPELLING_CORRECTION] else []))%list.

(** [SearchBackend._query]: the parser [qp] exists only when the query
    string is not ['*']. *)
Definition _query (database : Database) (query_string : string)
  (narrow_queries : option (list string)) (boost : option (gmap string float))
  : res (Query * option string) :=
  let qp_bound := negb (query_string =? "*") in
  let query :=
    if query_string =? "*" then Q_term EmptyString
    else Q_parsed query_string (_flags query_string) in
  let spelling_suggestion :=
    if qp_bound && include_spelling
    then Some (corrected_query_string database query_string)
    else None in
  query ←
    match narrow_queries with
    | None | Some [] => Val query
    | Some narrow =>
        if qp_bound
        then
          let subqueries :=
            map (fun narrow_query => Q_parsed narrow_query (_flags narrow_query))
                narrow in
          Val (Q_op OP_FILTER [query; Q_op OP_AND subqueries])
        else Exc NameError
    end;
  let query :=
    match boost with
    | None => query
    | Some terms =>
        if decide (terms = ∅) then query
        else
          let subqueries :=
            map (fun '(term, value) => Q_scale_weight (Q_term term) value)
                (map_to_list terms) in
          Q_op OP_OR [query; Q_op OP_AND subqueries]
    end in
  Val (query, spelling_suggestion).

(** [SearchBackend.clear]: the store it leaves. *)
Definition clear (store : Store) (models : list Model) : res Database :=
  let database := _database_writable store in
  match models with
  | [] =>
      '(query, _) ← _query database "*" None None;
      Val (fold_left (fun db m => delete_document (m_docid m) db)
             (get_mset database query None 0 DEFAULT_MAX_RESULTS) database)
  | _ =>
      Val (fold_left
             (fun db model =>
                delete_document_term
                  (content_type_term (app_label model) (module_name model)) db)
             models database)
  end.

(** [SearchBackend.document_count]. *)
Definition document_count (store : Store) : nat :=
  match _database store with
  | Val database => size (documents database)
  | Exc _ => 0
  end.

(** The result built from a match: its pickled data and its weight. *)
Definition result_of (m : Match) (model_data : gmap string attr) : SearchResult :=
  {| sr_app_label := data_app_label (m_document m);
     sr_module_name := data_module_name (m_document m);
     sr_pk := data_pk (m_document m);
     sr_weight := m_weight m;
     sr_model_data := model_data |}.

(** The terms [more_like_this] joins with [OP_OR]: what the engine
    proposes from the documents of the seed, less what the decider
    rejects. *)
Definition expansion_terms (database : Database) (identifier : string)
  : list string :=
  let query := Q_term identifier in
  let rset := map m_docid (get_mset database query None 0 DEFAULT_MAX_RESULTS) in
  get_eset database query DEFAULT_MAX_RESULTS rset XHExpandDecider.

(** The query [more_like_this] runs. *)
Definition more_like_this_query (database : Database) (identifier : string)
  (additional_query_string : option string) : res Query :=
  let query := Q_op OP_OR (map Q_term (expansion_terms database identifier)) in
  let query := Q_op OP_AND_NOT [query; Q_term identifier] in
  match additional_query_string with
  | None => Val query
  | Some s =>
      if s =? EmptyString then Val query
      else
        '(additional_query, _) ← _query database s None None;
        Val (Q_op OP_AND [query; additional_query])
  end.

(** [SearchBackend.more_like_this]. *)
Definition more_like_this (store : Store) (model_instance : Instance)
  (additional_query_string : option string) (start_offset end_offset : N)
  : res response :=
  database ← _database store;
  let identifier :=
    get_identifier (obj_app_label model_instance) (obj_module_name model_instance)
      (obj_pk model_instance) in
  query ← more_like_this_query database identifier additional_query_string;
  let matches := get_mset database query None start_offset end_offset in
  Val {| results :=
           map (fun m => result_of m (data_model_data (m_document m))) matches;
         hits := get_matches_estimated database query None;
         facets := Some no_facets;
         spelling_suggestion := Some None |}.

End Backend.

(** ** Field facets *)

(** The integer a float is equal to, if it is equal to one. *)
Definition float_integer (x : float) : option Z :=
  match Prim2SF x with
  | SpecFloat.S754_zero _ => Some 0%Z
  | SpecFloat.S754_finite s m e =>
      let sign (z : Z) := if s then (- z)%Z else z in
      if (0 <=? e)%Z then Some (sign (Z.pos m * 2 ^ e)%Z)
      else if (Z.pos m mod 2 ^ (- e) =? 0)%Z
           then Some (sign (Z.pos m / 2 ^ (- e))%Z)
           else None
  | _ => None
  end.

Definition date_eqb (a b : date) : bool :=
  (d_year a =? d_year b)%Z && (d_month a =? d_month b)%Z
  && (d_day a =? d_day b)%Z.

Definition datetime_eqb (a b : datetime) : bool :=
  negb (DT.ltb a b) && negb (DT.ltb b a).

(** [a == b] on scalars: booleans, integers and floats compare as
    numbers, everything else within its own type. *)
Definition number (v : scalar) : option (Z + float) :=
  match v with
  | VBool b => Some (inl (if b then 1 else 0)%Z)
  | VInt z => Some (inl z)
  | VFloat x =>
      match float_integer x with
      | Some z => Some (inl z)
      | None => Some (inr x)
      end
  | _ => None
  end.

Definition scalar_eqb (a b : scalar) : bool :=
  match number a, number b with
  | Some (inl x), Some (inl y) => (x =? y)%Z
  | Some (inr x), Some (inr y) => PrimFloat.eqb x y
  | Some _, _ | _, Some _ => false
  | None, None =>
      match a, b with
      | VText s, VText t => s =? t
      | VDate d, VDate e => date_eqb d e
      | VDateTime t, VDateTime u => datetime_eqb t u
      | _, _ => false
      end
  end.

(** The keys of a dictionary: a list or a dictionary cannot be one. *)
Definition key_eqb (a b : attr) : bool :=
  match a, b with
  | PyNone, PyNone => true
  | AVal v, AVal w => scalar_eqb v w
  | _, _ => false
  end.

Definition hashable (a : attr) : bool :=
  match a with
  | PyNone | AVal _ => true
  | ASeq _ | AHighlighted _ _ => false
  end.

(** [facet_list[field_value] = facet_list.get(field_value, 0) + 1], the
    dictionary kept in the order its keys came in. *)
Fixpoint count_value (field_value : attr) (facet_list : list (attr * Z))
  : list (attr * Z) :=
  match facet_list with
  | [] => [(field_value, 1%Z)]
  | (k, n) :: rest =>
      if key_eqb k field_value then (k, (n + 1)%Z) :: rest
      else (k, n) :: count_value field_value rest
  end.

(** [SearchBackend._do_field_facets]. *)
Definition field_facet_list (results : list SearchResult) (field : string)
  : res (list (attr * Z)) :=
  for_each (fun facet_list result =>
              field_value ← getattr result field;
              if hashable field_value
              then Val (count_value field_value facet_list)
              else Exc TypeError)
           results [].

Definition _do_field_facets (results : list SearchResult)
  (field_facets : list string) : res (gmap string (list (attr * Z))) :=
  for_each (fun facet_dict field =>
              facet_list ← field_facet_list results field;
              Val (<[field := facet_list]> facet_dict))
           field_facets ∅.

(** ** [search] *)

(** What a call leaves behind besides its result: the warnings, the
    opening of the store, and the match sets fetched from the engine. *)
Inductive event : Type :=
| Warned (message : string)
| Opened (writable : bool)
| Fetched (q : Query) (sorter : option (list (nat * bool))) (first maxitems : N).

(** A run: the events in their order, and how it ended: with a result,
    with an exception, or not within the fuel it was given ([None]). *)
Definition M (A : Type) : Type := list event * option (res A).

#[global] Instance M_ret : MRet M := fun A a => ([], Some (Val a)).
#[global] Instance M_bind : MBind M :=
  fun A B k m =>
    match m with
    | (log, Some (Val a)) => let '(log', r) := k a in ((log ++ log')%list, r)
    | (log, Some (Exc e)) => (log, Some (Exc e))
    | (log, None) => (log, None)
    end.

Definition emit (e : event) : M unit := ([e], Some (Val tt)).
Definition lift {A : Type} (r : res A) : M A := ([], Some r).
Definition within_fuel {A : Type} (r : option (res A)) : M A := ([], r).
Definition out_of_fuel {A : Type} : M A := ([], None).

Fixpoint for_each_M {A S : Type} (body : S -> A -> M S) (xs : list A) (acc : S)
  : M S :=
  match xs with
  | [] => mret acc
  | x :: rest => acc' ← body acc x; for_each_M body rest acc'
  end.

(** The optional arguments of [search] ([fields] is never read). *)
Module Args.

Record t : Type := {
  sort_by : option (list string);
  start_offset : N;
  end_offset : N;
  highlight : bool;
  facets : option (list string);
  date_facets : option (gmap string facet_params);
  query_facets : option (gmap string string);
  narrow_queries : option (list string);
  boost : option (gmap string float)
}.

Definition defaults : t := {|
  sort_by := None;
  start_offset := 0;
  end_offset := DEFAULT_MAX_RESULTS;
  highlight := false;
  facets := None;
  date_facets := None;
  query_facets := None;
  narrow_queries := None;
  boost := None
|}.

Definition with_query_facets (a : t) (qf : option (gmap string string)) : t := {|
  sort_by := sort_by a;
  start_offset := start_offset a;
  end_offset := end_offset a;
  highlight := highlight a;
  facets := facets a;
  date_facets := date_facets a;
  query_facets := qf;
  narrow_queries := narrow_queries a;
  boost := boost a
|}.

End Args.

Section Search.

Context `{Host} `{Engine}.

Variable include_spelling : bool.

(** [SearchBackend._do_highlight], with the tag ['em']. *)
Definition _do_highlight (content : attr) (text : string) : res attr :=
  for_each (fun content term =>
              if (term =? "AND") || (term =? "OR") then Val content
              else
                match content with
                | AVal (VText s) =>
                    Val (AVal (VText (re_sub_ignorecase term
                                        ("<em>" +:+ term +:+ "</em>") s)))
                | _ => Exc TypeError
                end)
           (map (Py.remove_char "*") (Py.split text)) content.

(** The body of the loop over the matches. *)
Definition result_for (database : Database) (query_string : string)
  (highlight : bool) (m : Match) : res SearchResult :=
  let model_data := data_model_data (m_document m) in
  model_data ←
    (if highlight && (0 <? String.length query_string)%nat
     then
       text ← _do_highlight
                (default PyNone (model_data !! content_field_name database))
                query_string;
       Val (<["highlighted" := AHighlighted (content_field_name database) text]>
              model_data)
     else Val model_data);
  Val (result_of m model_data).

Fixpoint results_for (database : Database) (query_string : string)
  (highlight : bool) (matches : list Match) : res (list SearchResult) :=
  match matches with
  | [] => Val []
  | m :: rest =>
      r ← result_for database query_string highlight m;
      rs ← results_for database query_string highlight rest;
      Val (r :: rs)
  end.

(** [SearchBackend._do_query_facets], [self.search] being [self_search]. *)
Definition _do_query_facets (self_search : string -> M response)
  (query_facets : gmap string string) : M (gmap string (string * Z)) :=
  for_each_M (fun facet_dict '(field, query) =>
                r ← self_search query;
                mret (<[field := (query, hits r)]> facet_dict))
             (map_to_list query_facets) ∅.

(** The body of [SearchBackend.search], [self.search] being
    [self_search]. *)
Definition search_body (self_search : string -> M response) (fuel : nat)
  (store : Store) (query_string : string) (a : Args.t) : M response :=
  if query_string =? EmptyString
  then mret {| results := []; hits := 0; facets := None;
               spelling_suggestion := None |}
  else
    _ ← match Args.query_facets a with
        | Some _ => emit (Warned "Query faceting has not been implemented yet.")
        | None => mret tt
        end;
    _ ← emit (Opened false);
    database ← lift (_database store);
    '(query, spelling) ←
      lift (_query include_spelling database query_string
              (Args.narrow_queries a) (Args.boost a));
    let sorter :=
      match Args.sort_by a with
      | None | Some [] => None
      | Some sort_by => Some (_sorter (schema database) sort_by)
      end in
    _ ← emit (Fetched query sorter (Args.start_offset a) (Args.end_offset a));
    let matches :=
      get_mset database query sorter (Args.start_offset a) (Args.end_offset a) in
    results ← lift (results_for database query_string (Args.highlight a) matches);
    fields ←
      match Args.facets a with
      | None | Some [] => mret ∅
      | Some facets => lift (_do_field_facets results facets)
      end;
    dates ←
      match Args.date_facets a with
      | None => mret ∅
      | Some date_facets =>
          if decide (date_facets = ∅) then mret ∅
          else within_fuel (_do_date_facets fuel results date_facets)
      end;
    queries ←
      match Args.query_facets a with
      | None => mret ∅
      | Some query_facets =>
          if decide (query_facets = ∅) then mret ∅
          else _do_query_facets self_search query_facets
      end;
    mret {| results := results;
            hits := get_matches_estimated database query sorter;
            facets := Some {| fields := fields; dates := dates;
                              queries := queries |};
            spelling_suggestion := Some spelling |}.

(** [SearchBackend.search]: [fuel] bounds the depth of the calls of
    [self.search] and the rounds of the loops of the date facets. *)
Fixpoint search (fuel : nat) (store : Store) (query_string : string)
  (a : Args.t) : M response :=
  search_body
    (match fuel with
     | O => fun _ => out_of_fuel
     | S fuel => fun query => search fuel store query Args.defaults
     end)
    fuel store query_string a.

(** The query a search with no narrowing and no boost runs. *)
Definition plain_query (query_string : string) : Query :=
  if query_string =? "*" then Q_term EmptyString
  else Q_parsed query_string (_flags include_spelling query_string).

End Search.

(** ** Indexing: [update], [remove], [delete_index] *)

(** What [update] takes from outside this file: the terms the term
    generator adds to a document for a text under a prefix
    ([term_generator.index_text(text)] is the call with the empty prefix),
    whether [force_unicode] can decode a text (it raises
    [UnicodeDecodeError] when it cannot), and the id the store gives to a
    document that is new, which is one no document of the store has. *)
Class Indexer : Type := {
  index_text : string -> string -> list string;
  decodes : string -> bool;
  new_docid : Database -> positive;
  new_docid_fresh : forall database, documents database !! new_docid database = None
}.

(** An object of the iterable of [update]: what [obj._meta] and [obj.pk]
    hold, and the data [index.prepare(obj)] returns for it. *)
Record Prepared : Type := {
  obj : Instance;
  model_data : gmap string attr
}.

Section Indexing.

Context `{Host} `{Indexer}.

Variable site_fields : list (string * field_class).

(** [repr] of a value of [model_data]. *)
Fixpoint attr_repr (a : attr) : string :=
  match a with
  | PyNone => "None"
  | AVal v => repr v
  | ASeq items => seq_str false items
  | AHighlighted name text =>
      "{" +:+ repr (VText name) +:+ ": " +:+ attr_repr text +:+ "}"
  end.

(** [force_unicode(value)]: a text as it is when it can be decoded, any
    other value as [str] writes it; [None] stands for the
    [UnicodeDecodeError]. *)
Definition force_unicode (value : attr) : option string :=
  match value with
  | PyNone => Some "None"
  | AVal (VText s) => if decodes s then Some s else None
  | AVal v => Some (str v)
  | ASeq _ | AHighlighted _ _ => Some (attr_repr value)
  end.

(** [self._marshal_value(value)] for a value of [model_data] that
    [force_unicode] has turned into [text]: what is neither a date, a
    boolean nor a number goes through [force_unicode] again. *)
Definition marshalled (value : attr) (text : string) : string :=
  match value with
  | AVal v => _marshal_value v
  | _ => text
  end.

(** The loop over [self.schema] in [update]: the terms and the values the
    fields of [model_data] add to the document. *)
Fixpoint index_fields (schema : list field_dict) (model_data : gmap string attr)
  (document_terms : gset string) (document_values : gmap nat string)
  : option (gset string * gmap nat string) :=
  match schema with
  | [] => Some (document_terms, document_values)
  | field :: rest =>
      match model_data !! field_name field with
      | Some value =>
          let prefix :=
            DOCUMENT_CUSTOM_TERM_PREFIX +:+ Py.upper (field_name field) in
          text ← force_unicode value;
          index_fields rest model_data
            (document_terms ∪ list_to_set (index_text text EmptyString)
             ∪ list_to_set (index_text text prefix))
            (<[column field := marshalled value text]> document_values)
      | None => index_fields rest model_data document_terms document_values
      end
  end.

(** The document [update] builds for an object; [None] when a value of
    its data cannot be decoded. *)
Definition document_for (schema : list field_dict) (p : Prepared)
  : option Document :=
  '(document_terms, document_values) ←
    index_fields schema (model_data p) ∅ ∅;
  let document_id :=
    get_identifier (obj_app_label (obj p)) (obj_module_name (obj p))
      (obj_pk (obj p)) in
  Some {| terms :=
            document_terms ∪ {[ document_id ]}
            ∪ {[ content_type_term (obj_app_label (obj p))
                   (obj_module_name (obj p)) ]};
          values := document_values;
          data_app_label := obj_app_label (obj p);
          data_module_name := obj_module_name (obj p);
          data_pk := obj_pk (obj p);
          data_model_data := model_data p |}.

(** The lowest of the ids of some documents. *)
Definition lowest_docid (ids : list positive) : option positive :=
  match ids with
  | [] => None
  | i :: rest => Some (foldr Pos.min i rest)
  end.

(** [database.replace_document(term, document)]: the document takes the
    place of the documents that carry the term, under the lowest of their
    ids, or under a new id when no document carries the term.  The limit
    of the engine on the length of a term is not modelled. *)
Definition replace_document (term : string) (document : Document)
  (database : Database) : Database :=
  let carrying :=
    filter (fun kv => term ∈ terms kv.2) (documents database) in
  let docid :=
    default (new_docid database) (lowest_docid (map_to_list carrying).*1) in
  {| documents :=
       <[docid := document]>
         (filter (fun kv => term ∉ terms kv.2) (documents database));
     schema := schema database;
     content_field_name := content_field_name database |}.

(** The loop of [update] over the iterable: the store it leaves, and
    whether it ended at a [UnicodeDecodeError], which [update] catches,
    writing [Chunk failed.] to the standard error. *)
Fixpoint update_from (objs : list Prepared) (database : Database)
  : Database * bool :=
  match objs with
  | [] => (database, false)
  | p :: rest =>
      match document_for (schema database) p with
      | Some document =>
          let document_id :=
            get_identifier (obj_app_label (obj p)) (obj_module_name (obj p))
              (obj_pk (obj p)) in
          update_from rest (replace_document document_id document database)
      | None => (database, true)
      end
  end.

(** [SearchBackend.update]. *)
Definition update (store : Store) (iterable : list Prepared) : Database * bool :=
  update_from iterable (_database_writable site_fields store).

(** [SearchBackend.remove]: the store it leaves. *)
Definition remove (store : Store) (o : Instance) : Database :=
  delete_document_term
    (get_identifier (obj_app_label o) (obj_module_name o) (obj_pk o))
    (_database_writable site_fields store).

End Indexing.

(** [SearchBackend.delete_index]: the store is gone, if there was one. *)
Definition delete_index (store : Store) : Store := None.

(** ** [SearchQuery.run] and [SearchQuery.run_mlt] *)

(** An argument of type [Xapian::doccount]: a number of documents.  What
    the engine does with a negative number is not modelled. *)
Definition doccount (n : Z) : option N :=
  if (n <? 0)%Z then None else Some (Z.to_N n).

Module SearchQuery.

(** The attributes of the query [run] and [run_mlt] read. *)
Record t : Type := {
  query_filters : list QueryFilter;
  models : list Model;
  order_by : list string;
  start_offset : Z;
  end_offset : option Z;
  highlight : bool;
  facets : list string;
  date_facets : gmap string facet_params;
  query_facets : gmap string string;
  narrow_queries : list string;
  boost : gmap string float;
  _more_like_this : bool;
  _mlt_instance : option Instance
}.

(** What [run] and [run_mlt] leave in the query: [_results], [_hit_count],
    [_facet_counts] ([None] for the empty dictionary) and
    [_spelling_suggestion]. *)
Record outcome : Type := {
  _results : list SearchResult;
  _hit_count : Z;
  _facet_counts : option facets_dict;
  _spelling_suggestion : option string
}.

(** A list, or a dictionary, when it is not empty. *)
Definition nonempty {A : Type} (l : list A) : option (list A) :=
  match l with
  | [] => None
  | _ => Some l
  end.

Definition nonempty_dict {V : Type} (d : gmap string V) : option (gmap string V) :=
  if decide (d = ∅) then None else Some d.

(** The number of items asked for: [end_offset - start_offset], or the
    default of the callee. *)
Definition items (q : t) : option N :=
  match end_offset q with
  | Some e => doccount (e - start_offset q)
  | None => Some DEFAULT_MAX_RESULTS
  end.

(** The [kwargs] of [run]: an attribute that is empty, or false, leaves
    the argument of [search] at its default. *)
Definition kwargs (q : t) : option Args.t :=
  first ← doccount (start_offset q);
  maxitems ← items q;
  Some {| Args.sort_by := nonempty (order_by q);
          Args.start_offset := first;
          Args.end_offset := maxitems;
          Args.highlight := highlight q;
          Args.facets := nonempty (facets q);
          Args.date_facets := nonempty_dict (date_facets q);
          Args.query_facets := nonempty_dict (query_facets q);
          Args.narrow_queries := nonempty (narrow_queries q);
          Args.boost := nonempty_dict (boost q) |}.

End SearchQuery.

Section Run.

Context `{Host} `{Engine}.

Variable include_spelling : bool.

(** [SearchQuery.run]; [None] when an offset handed to the engine would
    be negative. *)
Definition run (fuel : nat) (store : Store) (q : SearchQuery.t)
  : option (M SearchQuery.outcome) :=
  a ← SearchQuery.kwargs q;
  Some (final_query ←
          lift (build_query (SearchQuery.query_filters q) (SearchQuery.models q));
        r ← search include_spelling fuel store final_query a;
        mret {| SearchQuery._results := results r;
                SearchQuery._hit_count := hits r;
                SearchQuery._facet_counts := facets r;
                SearchQuery._spelling_suggestion :=
                  default None (spelling_suggestion r) |}).

(** [SearchQuery.run_mlt]: the results and the hit count it leaves.  The
    name [MoreLikeThisError] is not bound in the file, so that the [raise]
    ends with [NameError]. *)
Definition run_mlt (store : Store) (q : SearchQuery.t)
  : option (res (list SearchResult * Z)) :=
  match SearchQuery._more_like_this q, SearchQuery._mlt_instance q with
  | true, Some instance =>
      first ← doccount (SearchQuery.start_offset q);
      maxitems ← SearchQuery.items q;
      Some (additional_query_string ←
              build_query (SearchQuery.query_filters q) (SearchQuery.models q);
            r ← more_like_this include_spelling store instance
                  (Some additional_query_string) first maxitems;
            Val (results r, hits r))
  | _, _ => Some (Exc NameError)
  end.

End Run.

(** ** A host and an engine to run the definitions on *)

(** A host of a 64-bit interpreter: [long] reads decimal digits after an
    optional minus sign; floats are neither read nor written, and the
    pattern of a substitution is never found. *)
Definition example_long_of_str (s : string) : res Z :=
  let digits (t : string) :=
    match DT.number t with
    | Some z => Val z
    | None => Exc ValueError
    end in
  match s with
  | String "-" rest => z ← digits rest; Val (- z)%Z
  | _ => digits s
  end.

Definition example_host : Host := {|
  sortable_serialise := fun _ => EmptyString;
  maxint := 9223372036854775807;
  float_str := fun _ => EmptyString;
  float_of_str := fun _ => Exc ValueError;
  long_of_str := example_long_of_str;
  repr := fun _ => EmptyString;
  re_sub_ignorecase := fun _ _ content => content
|}.

(** An engine for which a query string is one term, every weight is zero,
    the matches come in the order of the store, and which proposes the
    terms of the documents of the relevance set. *)
Definition example_engine : Engine := {|
  parsed_matches := fun _ query_string _ d => bool_decide (query_string ∈ terms d);
  corrected_query_string := fun _ query_string => query_string;
  match_weight := fun _ _ _ => 0%float;
  ranked := fun _ _ _ ms => ms;
  ranked_perm := fun _ _ _ ms => Permutation_refl ms;
  matches_estimated := fun _ _ ms => Z.of_nat (length ms);
  expand := fun db _ rset =>
    concat (map (fun i => match documents db !! i with
                          | Some d => elements (terms d)
                          | None => []
                          end) rset)
|}.

(** ** Examples, and the vocabulary of the properties *)

(** The filter [{field: "status", operator: gte, value: 5, negated}], with
    no connector of its own. *)
Definition negated_gte_filter : QueryFilter := {|
  field := "status";
  filter_type := op_gte;
  value := Scalar (VInt 5);
  is_and := false;
  is_or := false;
  is_not := true
|}.

(** An [exact] filter on a scalar and an [in] filter on a list or a tuple,
    neither negated nor connected. *)
Definition exact_filter (f : string) (v : scalar) : QueryFilter := {|
  field := f;
  filter_type := op_exact;
  value := Scalar v;
  is_and := false;
  is_or := false;
  is_not := false
|}.

Definition in_filter (f : string) (v : pyvalue) : QueryFilter := {|
  field := f;
  filter_type := op_in;
  value := v;
  is_and := false;
  is_or := false;
  is_not := false
|}.

(** The phrase rule: a text with a space in it goes between double
    quotes. *)
Definition phrase (s : string) : string :=
  if Py.contains " "%char s then Py.dquote +:+ s +:+ Py.dquote else s.

(** A schema of two fields, as [build_schema] numbers them. *)
Definition example_schema : list field_dict :=
  snd (build_schema
         [("title", {| document := false; indexed := true; class := CharField |});
          ("pub_date",
           {| document := false; indexed := true; class := DateField |})]).

(** A schema with a text field [name] in column 0, a date field
    [pub_date] in column 1 and an integer field [count] in column 2. *)
Definition range_schema : list field_dict :=
  [{| field_name := "name"; type := TText; multi_valued := false; column := 0 |};
   {| field_name := "pub_date"; type := TDate; multi_valued := false;
      column := 1 |};
   {| field_name := "count"; type := TLong; multi_valued := false;
      column := 2 |}].

(** Two months at a time from December 2009 to February 2011, and from
    November 2009 to March 2010. *)
Definition from_december : facet_params := {|
  start_date := DateTime 2009 12 1 0 0 0 0;
  end_date := DateTime 2011 2 1 0 0 0 0;
  gap_by := gap_month;
  gap_amount := Some 2%Z
|}.

Definition from_november : facet_params := {|
  start_date := DateTime 2009 11 1 0 0 0 0;
  end_date := DateTime 2010 3 1 0 0 0 0;
  gap_by := gap_month;
  gap_amount := Some 2%Z
|}.

(** The queries of the match sets a run fetched, in their order. *)
Definition fetched (log : list event) : list Query :=
  omap (fun e => match e with Fetched q _ _ _ => Some q | _ => None end) log.

Definition query_faceting_warning : event :=
  Warned "Query faceting has not been implemented yet.".

(** The hits a run of a sub-query reports. *)
Definition hits_of (run : M response) : Z :=
  match snd run with
  | Some (Val r) => hits r
  | _ => 0%Z
  end.

(** The sentence about query facets, for one run: a warning is in the log,
    the result carries no query facet, and no match set besides the one of
    the query itself was fetched. *)
Definition query_facets_skipped (run : M response) : Prop :=
  query_faceting_warning ∈ fst run
  /\ (forall r f, snd run = Some (Val r) -> facets r = Some f -> queries f = ∅)
  /\ length (fetched (fst run)) <= 1.

(** A store of three blog entries. *)
Definition example_document (document_terms : list string) (pk : Z) : Document := {|
  terms := list_to_set document_terms;
  values := ∅;
  data_app_label := "blog";
  data_module_name := "entry";
  data_pk := pk;
  data_model_data := {[ "title" := AVal (VText "hello") ]}
|}.

Definition example_store : Store :=
  Some {| documents :=
            {[ 1%positive := example_document ["foo"; "Qblog.entry.1"; "XCONTENTTYPEblog.entry"] 1;
               2%positive := example_document ["foo"; "bar"; "Qblog.entry.2"; "XCONTENTTYPEblog.entry"] 2;
               3%positive := example_document ["bar"; "Qblog.entry.3"; "XCONTENTTYPEblog.entry"] 3 ]};
          schema := example_schema;
          content_field_name := "text" |}.

(** The search for [foo] in the store of three entries, with the query
    facet [b] for the sub-query [bar]. *)
Definition example_query_facets : gmap string string := {[ "b" := "bar" ]}.

Definition example_search (query_facets : option (gmap string string))
  : M response :=
  @search example_host example_engine false 1 example_store "foo"
    (Args.with_query_facets Args.defaults query_facets).

(** What [update] leaves in every document: the identifier term of the
    entity its data names. *)
Definition indexed_by_identifier (database : Database) : Prop :=
  forall i d,
    documents database !! i = Some d ->
    get_identifier (data_app_label d) (data_module_name d) (data_pk d) ∈ terms d.

(** A result whose field [pub_date] holds [v]. *)
Definition dated_result (v : scalar) : SearchResult := {|
  sr_app_label := "blog";
  sr_module_name := "entry";
  sr_pk := 1;
  sr_weight := 0%float;
  sr_model_data := {[ "pub_date" := AVal v ]}
|}.

(** One month at a time from January to March 2009. *)
Definition first_months : facet_params := {|
  start_date := DateTime 2009 1 1 0 0 0 0;
  end_date := DateTime 2009 3 1 0 0 0 0;
  gap_by := gap_month;
  gap_amount := Some 1%Z
|}.

(** The starts of the entries of a facet list, as [strptime] reads them. *)
Definition starts_of (facet_list : list (string * Z)) (starts : list datetime)
  : Prop :=
  Forall2 (fun entry start => DT.strptime (fst entry) = Val start)
          facet_list starts.

(** The fields of a date, most significant first. *)
Definition date_key (d : date) : list Z := [d_year d; d_month d; d_day d].

(** [a < b] for two values of one field type; values of two types are not
    compared. *)
Definition scalar_lt (a b : scalar) : Prop :=
  match a, b with
  | VDateTime t, VDateTime u => DT.ltb t u = true
  | VDate d, VDate e => DT.lex_ltb (date_key d) (date_key e) = true
  | VBool x, VBool y => x = false /\ y = true
  | VFloat x, VFloat y => PrimFloat.ltb x y = true
  | VInt x, VInt y => (x < y)%Z
  | VText s, VText t => String.ltb s t = true
  | _, _ => False
  end.

(** The values the marshaller writes at their full width: the dates of
    the calendar, the integers from 0 that have at most twelve digits. *)
Definition written_at_full_width (v : scalar) : Prop :=
  match v with
  | VDateTime t => DT.valid t = true
  | VDate d =>
      DT.valid (DateTime (d_year d) (d_month d) (d_day d) 0 0 0 0) = true
  | VInt z => (0 <= z < 10 ^ 12)%Z
  | _ => True
  end.

(** ** An indexer, and the vocabulary of the properties of the index *)

(** [s.lower()], on the letters A to Z. *)
Definition lower_char (c : ascii) : ascii :=
  let n := nat_of_ascii c in
  if (65 <=? n)%nat && (n <=? 90)%nat then ascii_of_nat (n + 32) else c.

Fixpoint lower (s : string) : string :=
  match s with
  | EmptyString => EmptyString
  | String c rest => String (lower_char c) (lower rest)
  end.

(** An indexer whose terms are the words of the text in lower case, each
    after the prefix; it decodes the texts that are ASCII, and gives a new
    document the id after the highest one of the store. *)
Definition example_indexer : Indexer := {|
  index_text := fun text prefix =>
    map (fun word => prefix +:+ lower word) (Py.split text);
  decodes := fun s =>
    forallb (fun c => (nat_of_ascii c <? 128)%nat) (list_ascii_of_string s);
  new_docid := fun database => fresh (dom (documents database));
  new_docid_fresh := fun database =>
    proj1 (not_elem_of_dom (documents database) _)
          (is_fresh (dom (documents database)))
|}.

(** The fields of a site: a text field [title], which is the content of
    the documents, and a date field [pub_date]. *)
Definition example_fields : list (string * field_class) :=
  [("title", {| document := true; indexed := true; class := CharField |});
   ("pub_date", {| document := false; indexed := true; class := DateField |})].

(** The blog entry [pk] with its title, as [index.prepare] hands it over. *)
Definition example_entry (pk : Z) (title : string) : Prepared := {|
  obj := {| obj_app_label := "blog"; obj_module_name := "entry"; obj_pk := pk |};
  model_data := {[ "title" := AVal (VText title) ]}
|}.

(** A text of one byte that is not ASCII. *)
Definition undecodable_text : string := String (ascii_of_nat 255) EmptyString.

(** The identifier term of an object. *)
Definition identifier_of (o : Instance) : string :=
  get_identifier (obj_app_label o) (obj_module_name o) (obj_pk o).

(** The term generator makes no term that starts like an identifier, for
    the prefixes [update] hands to it: the empty one and those of the
    fields, which start with [X]. *)
Definition no_identifier_terms `{Indexer} : Prop :=
  forall text prefix t,
    prefix = EmptyString
    \/ Py.startswith DOCUMENT_CUSTOM_TERM_PREFIX prefix = true ->
    t ∈ index_text text prefix ->
    Py.startswith DOCUMENT_ID_TERM_PREFIX t = false.

(** Every document carries the content type term of the entity its data
    names. *)
Definition indexed_by_content_type (database : Database) : Prop :=
  forall i d,
    documents database !! i = Some d ->
    content_type_term (data_app_label d) (data_module_name d) ∈ terms d.

(** The documents of a store; a store that is not there has none. *)
Definition documents_of (store : Store) : gmap positive Document :=
  match store with
  | Some database => documents database
  | None => ∅
  end.

(** The texts of the data of an object can be decoded. *)
Definition decodable `{Indexer} (p : Prepared) : Prop :=
  forall f s, model_data p !! f = Some (AVal (VText s)) -> decodes s = true.

(** What [update] writes into the value slot of a field for a value. *)
Definition value_text `{Host} `{Indexer} (value : attr) : option string :=
  marshalled value <$> force_unicode value.

(** ** The vocabulary of the properties of queries and results *)

(** The sum of the counts of a facet list. *)
Definition total_count {K : Type} (facet_list : list (K * Z)) : Z :=
  foldr Z.add 0%Z (snd <$> facet_list).

(** A result whose field [kind] holds [v]. *)
Definition kind_result (v : scalar) : SearchResult := {|
  sr_app_label := "blog";
  sr_module_name := "entry";
  sr_pk := 1;
  sr_weight := 0%float;
  sr_model_data := {[ "kind" := AVal v ]}
|}.

(** A date facet whose [gap_by] is none of the six units. *)
Definition without_unit : facet_params := {|
  start_date := DateTime 2009 1 1 0 0 0 0;
  end_date := DateTime 2009 3 1 0 0 0 0;
  gap_by := gap_other;
  gap_amount := None
|}.

(** The terms [_do_highlight] looks for: the words of the query string
    less their stars, [AND] and [OR] apart. *)
Definition highlighted_terms (text : string) : list string :=
  List.filter (fun term => negb ((term =? "AND") || (term =? "OR")))
    (map (Py.remove_char "*") (Py.split text)).

(** The text [_do_highlight] returns for a text: every term wrapped in
    the tag, one term after the other. *)
Definition highlighted `{Host} (text content : string) : string :=
  fold_left (fun s term => re_sub_ignorecase term ("<em>" +:+ term +:+ "</em>") s)
    (highlighted_terms text) content.

Definition is_text (a : attr) : bool :=
  match a with
  | AVal (VText _) => true
  | _ => false
  end.

(** The content of the document of a match, as [search] hands it to
    [_do_highlight]. *)
Definition content_of (database : Database) (m : Match) : attr :=
  default PyNone (data_model_data (m_document m) !! content_field_name database).

(** [isinstance(value, (list, tuple))]. *)
Definition is_sequence (v : pyvalue) : bool :=
  match v with
  | Scalar _ => false
  | PyList _ | PyTuple _ => true
  end.

(** Chunks that are all strings. *)
Definition all_text (chunks : list chunk) : Prop :=
  Forall (fun c => match c with CStr _ => True | CSeq _ => False end) chunks.

(** A filter [field exact text], joined to what comes before it by [AND]
    or by [OR]. *)
Definition joined_filter (with_or : bool) (f v : string) : QueryFilter := {|
  field := f;
  filter_type := op_exact;
  value := Scalar (VText v);
  is_and := negb with_or;
  is_or := with_or;
  is_not := false
|}.

Definition connector_text (with_or : bool) : string :=
  if with_or then "OR" else "AND".

(** The filters of a chain, and the words they compile to: for each the
    connector, then the field and the text. *)
Definition chain_filters (chain : list (bool * string * string))
  : list QueryFilter :=
  map (fun '(with_or, f, v) => joined_filter with_or f v) chain.

Definition chain_words (chain : list (bool * string * string)) : list string :=
  flat_map (fun '(with_or, f, v) => [connector_text with_or; f +:+ ":" +:+ v])
    chain.

(** A result is the one built from a match: the entity of the data of
    its document, with the weight of the match. *)
Definition result_of_match (result : SearchResult) (m : Match) : Prop :=
  sr_app_label result = data_app_label (m_document m)
  /\ sr_module_name result = data_module_name (m_document m)
  /\ sr_pk result = data_pk (m_document m)
  /\ sr_weight result = m_weight m.

(** The database of the store of three entries. *)
Definition example_database : Database :=
  default {| documents := ∅; schema := []; content_field_name := EmptyString |}
    example_store.

(** A query of the filters [query_filters], from the first result to the
    one before [last], narrowed by the queries [narrow]. *)
Definition example_run_query (query_filters : list QueryFilter) (last : Z)
  (narrow : list string) : SearchQuery.t := {|
  SearchQuery.query_filters := query_filters;
  SearchQuery.models := [];
  SearchQuery.order_by := [];
  SearchQuery.start_offset := 0;
  SearchQuery.end_offset := Some last;
  SearchQuery.highlight := false;
  SearchQuery.facets := [];
  SearchQuery.date_facets := ∅;
  SearchQuery.query_facets := ∅;
  SearchQuery.narrow_queries := narrow;
  SearchQuery.boost := ∅;
  SearchQuery._more_like_this := false;
  SearchQuery._mlt_instance := None
|}.

(** * Properties *)

(** ** The value marshaller *)

Section MarshalFacts.

Context `{Host}.

(** C1: the marshalled texts of integers do not follow the order of the
    integers: -5 is below -3 and 999999999999 is below 1000000000000, and
    in both pairs the text of the smaller number sorts strictly after the
    text of the larger one. *)
Theorem marshal_integers_out_of_order :
  (-5 < -3)%Z
  /\ _marshal_value (VInt (-5)) = "-00000000005"
  /\ _marshal_value (VInt (-3)) = "-00000000003"
  /\ String.leb (_marshal_value (VInt (-5))) (_marshal_value (VInt (-3))) = false
  /\ (999999999999 < 1000000000000)%Z
  /\ String.leb (_marshal_value (VInt 999999999999))
       (_marshal_value (VInt 1000000000000)) = false.
Proof.
  repeat split; try reflexivity.
Qed.

End MarshalFacts.

(** *** The order of the marshalled texts *)

Lemma string_compare_refl s : String.compare s s = Eq.
Proof.
  induction s as [|a s IH]; [reflexivity|]. cbn [String.compare].
  unfold Ascii.compare. rewrite N.compare_refl. exact IH.
Qed.

Lemma string_compare_append s1 s2 t1 t2 :
  String.length s1 = String.length s2 ->
  String.compare (s1 +:+ t1) (s2 +:+ t2)
  = match String.compare s1 s2 with
    | Eq => String.compare t1 t2
    | c => c
    end.
Proof.
  revert s2. induction s1 as [|a s1 IH]; intros [|b s2] Hlen;
    try discriminate Hlen; [reflexivity|].
  injection Hlen as Hlen. simpl.
  destruct (Ascii.compare a b); [apply IH, Hlen | reflexivity | reflexivity].
Qed.

Lemma N_add_compare p n m : (p + n ?= p + m)%N = (n ?= m)%N.
Proof.
  destruct (N.compare_spec n m) as [->|L|G].
  - apply N.compare_refl.
  - apply N.compare_lt_iff. lia.
  - apply N.compare_gt_iff. lia.
Qed.

Lemma digit_char_compare d1 d2 :
  (d1 < 10)%N -> (d2 < 10)%N ->
  Ascii.compare (Py.digit_char d1) (Py.digit_char d2) = (d1 ?= d2)%N.
Proof.
  intros H1 H2. unfold Ascii.compare, Py.digit_char.
  rewrite !N_ascii_embedding by lia. apply N_add_compare.
Qed.

Lemma fixed_length w n : String.length (Py.fixed w n) = w.
Proof.
  revert n. induction w as [|k IH]; intros n; [reflexivity|].
  cbn [Py.fixed String.length]. rewrite IH. reflexivity.
Qed.

(** Texts of [w] digits compare as the numbers they write. *)
Lemma fixed_compare w a b :
  (a < 10 ^ N.of_nat w)%N -> (b < 10 ^ N.of_nat w)%N ->
  String.compare (Py.fixed w a) (Py.fixed w b) = (a ?= b)%N.
Proof.
  revert a b. induction w as [|k IH]; intros a b Ha Hb.
  - cbn in Ha, Hb. assert (a = 0%N) by lia. assert (b = 0%N) by lia.
    subst. reflexivity.
  - rewrite Nat2N.inj_succ, N.pow_succ_r' in Ha, Hb.
    set (p := (10 ^ N.of_nat k)%N) in *.
    assert (Hp : (0 < p)%N) by (subst p; apply N.neq_0_lt_0, N.pow_nonzero; lia).
    cbn [Py.fixed String.compare]. fold p.
    pose proof (N.div_mod a p ltac:(lia)) as Da.
    pose proof (N.div_mod b p ltac:(lia)) as Db.
    pose proof (N.mod_lt a p ltac:(lia)) as Ma.
    pose proof (N.mod_lt b p ltac:(lia)) as Mb.
    assert (Qa : (a / p < 10)%N) by (apply N.Div0.div_lt_upper_bound; lia).
    assert (Qb : (b / p < 10)%N) by (apply N.Div0.div_lt_upper_bound; lia).
    rewrite (digit_char_compare _ _ Qa Qb), (IH _ _ Ma Mb).
    clear IH. set (qa := (a / p)%N) in *. set (qb := (b / p)%N) in *.
    set (ra := (a mod p)%N) in *. set (rb := (b mod p)%N) in *.
    clearbody qa qb ra rb.
    destruct (N.compare_spec qa qb) as [E|L|G].
    + subst qb.
      destruct (N.compare_spec ra rb) as [E'|L'|G']; symmetry.
      * apply N.compare_eq_iff. lia.
      * apply N.compare_lt_iff. lia.
      * apply N.compare_gt_iff. lia.
    + symmetry. apply N.compare_lt_iff. nia.
    + symmetry. apply N.compare_gt_iff. nia.
Qed.

Lemma pow10_pos k : (0 < 10 ^ N.of_nat k)%N.
Proof. apply N.neq_0_lt_0, N.pow_nonzero. lia. Qed.

Lemma pow10_mono j k : j <= k -> (10 ^ N.of_nat j <= 10 ^ N.of_nat k)%N.
Proof. intros Hjk. apply N.pow_le_mono_r; lia. Qed.

(** The digits [ndigits] counts are enough, and no more than needed. *)
Lemma ndigits_from_le fuel d n w :
  (n < 10 ^ N.of_nat w)%N -> d <= w -> Py.ndigits_from fuel d n <= w.
Proof.
  revert d. induction fuel as [|fuel IH]; intros d Hn Hd; [exact Hd|].
  cbn [Py.ndigits_from].
  destruct (N.ltb_spec n (10 ^ N.of_nat d)) as [Hlt|Hge]; [exact Hd|].
  apply IH; [exact Hn|].
  destruct (Nat.eq_dec d w) as [->|Hne]; [lia|lia].
Qed.

Lemma ndigits_from_bound fuel d n :
  (n < 10 ^ N.of_nat (d + fuel))%N ->
  (n < 10 ^ N.of_nat (Py.ndigits_from fuel d n))%N.
Proof.
  revert d. induction fuel as [|fuel IH]; intros d Hn.
  - rewrite Nat.add_0_r in Hn. exact Hn.
  - cbn [Py.ndigits_from].
    destruct (N.ltb_spec n (10 ^ N.of_nat d)) as [Hlt|Hge]; [exact Hlt|].
    apply IH. replace (S d + fuel) with (d + S fuel) by lia. exact Hn.
Qed.

Lemma ndigits_bound n : (n < 10 ^ N.of_nat (Py.ndigits n))%N.
Proof.
  unfold Py.ndigits. apply ndigits_from_bound.
  replace (N.of_nat (1 + N.to_nat (N.log2 n))) with (N.succ (N.log2 n)) by lia.
  destruct (N.eq_dec n 0%N) as [->|Hn]; [reflexivity|].
  apply N.lt_le_trans with (2 ^ N.succ (N.log2 n))%N.
  - apply N.log2_spec. lia.
  - apply N.pow_le_mono_l. lia.
Qed.

Lemma ndigits_le n w :
  (n < 10 ^ N.of_nat w)%N -> 1 <= w -> Py.ndigits n <= w.
Proof. intros Hn Hw. apply ndigits_from_le; assumption. Qed.

(** Zeros in front of the digits of a number are digits of it. *)
Lemma fixed_pad j k n :
  (n < 10 ^ N.of_nat k)%N ->
  Py.fixed (j + k) n = Py.zeros j +:+ Py.fixed k n.
Proof.
  intros Hn. induction j as [|j IH]; [reflexivity|].
  cbn [Nat.add Py.fixed Py.zeros String.append].
  assert (Hlt : (n < 10 ^ N.of_nat (j + k))%N).
  { eapply N.lt_le_trans; [exact Hn|]. apply pow10_mono. lia. }
  rewrite N.div_small, N.mod_small by exact Hlt.
  rewrite IH. reflexivity.
Qed.

(** A number that fits the width is written with exactly [width]
    digits. *)
Lemma fmt_0d_fixed w z :
  (0 <= z < 10 ^ Z.of_nat w)%Z -> 1 <= w ->
  Py.fmt_0d w z = Py.fixed w (Z.to_N z).
Proof.
  intros [Hz0 Hz1] Hw. unfold Py.fmt_0d, Py.decimal.
  replace (z <? 0)%Z with false by (symmetry; apply Z.ltb_ge; exact Hz0).
  replace (Z.abs_N z) with (Z.to_N z)
    by (destruct z; [reflexivity | reflexivity | contradiction Hz0; reflexivity]).
  cbn [String.length String.append]. rewrite Nat.sub_0_r, fixed_length.
  assert (Hn : (Z.to_N z < 10 ^ N.of_nat w)%N).
  { apply N2Z.inj_lt. rewrite Z2N.id by exact Hz0.
    rewrite N2Z.inj_pow, nat_N_Z. exact Hz1. }
  pose proof (ndigits_le _ _ Hn Hw) as Hk.
  rewrite <- fixed_pad by apply ndigits_bound.
  replace (w - Py.ndigits (Z.to_N z) + Py.ndigits (Z.to_N z)) with w
    by (clear - Hk; lia).
  reflexivity.
Qed.

Lemma days_in_month_le y m : (1 <= m <= 12)%Z -> (DT.days_in_month y m <= 31)%Z.
Proof.
  intros Hm. unfold DT.days_in_month, DT.month_lengths.
  assert (Hc : (m = 1 \/ m = 2 \/ m = 3 \/ m = 4 \/ m = 5 \/ m = 6 \/ m = 7
                \/ m = 8 \/ m = 9 \/ m = 10 \/ m = 11 \/ m = 12)%Z) by lia.
  destruct Hc as [->|[->|[->|[->|[->|[->|[->|[->|[->|[->|[->| ->]]]]]]]]]]];
    destruct (DT.is_leap y); apply Z.leb_le; reflexivity.
Qed.

(** What the constructor of [datetime] checked. *)
Lemma valid_bounds t :
  DT.valid t = true ->
  (1 <= year t <= 9999 /\ 1 <= month t <= 12 /\ 1 <= day t <= 31
   /\ 0 <= hour t < 24 /\ 0 <= minute t < 60 /\ 0 <= second t < 60
   /\ 0 <= microsecond t < 1000000)%Z.
Proof.
  unfold DT.valid. rewrite !andb_true_iff, !Z.leb_le, !Z.ltb_lt.
  intros H. pose proof (days_in_month_le (year t) (month t)). lia.
Qed.

Lemma fmt_0d_digits w z (bound : Z) :
  (10 ^ Z.of_nat w)%Z = bound -> 1 <= w -> (0 <= z < bound)%Z ->
  Py.fmt_0d w z = Py.fixed w (Z.to_N z).
Proof. intros <- Hw Hz. apply fmt_0d_fixed; assumption. Qed.

Lemma fixed_compare_Z w x y (bound : Z) :
  (10 ^ Z.of_nat w)%Z = bound -> (0 <= x < bound)%Z -> (0 <= y < bound)%Z ->
  String.compare (Py.fixed w (Z.to_N x)) (Py.fixed w (Z.to_N y)) = (x ?= y)%Z.
Proof.
  intros <- [Hx0 Hx] [Hy0 Hy]. rewrite fixed_compare.
  - rewrite <- (Z2N.id x) at 2 by exact Hx0.
    rewrite <- (Z2N.id y) at 2 by exact Hy0. symmetry. apply N2Z.inj_compare.
  - apply N2Z.inj_lt. rewrite Z2N.id by exact Hx0.
    rewrite N2Z.inj_pow, nat_N_Z. exact Hx.
  - apply N2Z.inj_lt. rewrite Z2N.id by exact Hy0.
    rewrite N2Z.inj_pow, nat_N_Z. exact Hy.
Qed.

Lemma string_leb_compare s t : String.compare s t <> Gt -> String.leb s t = true.
Proof. unfold String.leb. destruct (String.compare s t); congruence. Qed.

Lemma string_append_nil_r s : s +:+ EmptyString = s.
Proof.
  induction s as [|a s IH]; [reflexivity|].
  change (String a s +:+ EmptyString) with (String a (s +:+ EmptyString)).
  rewrite IH. reflexivity.
Qed.

Lemma string_compare_append_l s1 s2 t2 :
  String.length s1 = String.length s2 ->
  String.compare s1 (s2 +:+ t2)
  = match String.compare s1 s2 with
    | Eq => String.compare EmptyString t2
    | c => c
    end.
Proof.
  intros Hlen. rewrite <- (string_compare_append s1 s2 EmptyString t2 Hlen).
  rewrite string_append_nil_r. reflexivity.
Qed.

Lemma string_compare_append_r s1 s2 t1 :
  String.length s1 = String.length s2 ->
  String.compare (s1 +:+ t1) s2
  = match String.compare s1 s2 with
    | Eq => String.compare t1 EmptyString
    | c => c
    end.
Proof.
  intros Hlen. rewrite <- (string_compare_append s1 s2 t1 EmptyString Hlen).
  rewrite string_append_nil_r. reflexivity.
Qed.

(** Splits the comparisons of the fields, most significant first, and
    closes each case by arithmetic. *)
Ltac order_cases Hlt :=
  cbn [DT.ltb DT.key DT.lex_ltb date_key year month day hour minute second
       microsecond d_year d_month d_day] in Hlt;
  rewrite ?andb_false_r, ?orb_false_r in Hlt;
  rewrite ?orb_true_iff, ?andb_true_iff, ?Z.ltb_lt, ?Z.eqb_eq in Hlt;
  repeat match goal with
         | |- context [(?x ?= ?y)%Z] =>
             destruct (Z.compare_spec x y); cbv iota
         end;
  try discriminate; exfalso; lia.

Section MarshalOrder.

Context `{Host}.

(** X1: for two values of the same field type with [a < b], both dates of
    the calendar or both integers from 0 with at most twelve digits, or
    booleans, or texts, the marshalled text of [a] is not after the one of
    [b]; for floats this is the order of [sortable_serialise]. *)
Theorem marshal_keeps_order (a b : scalar) :
  (forall x y,
     PrimFloat.ltb x y = true ->
     String.leb (sortable_serialise x) (sortable_serialise y) = true) ->
  written_at_full_width a ->
  written_at_full_width b ->
  scalar_lt a b ->
  String.leb (_marshal_value a) (_marshal_value b) = true.
Proof.
  intros Hfloat Ha Hb Hlt.
  destruct a as [t|d|x|x|x|s], b as [u|e|y|y|y|s']; try contradiction Hlt.
  - (* datetimes *)
    apply valid_bounds in Ha, Hb. cbn [scalar_lt] in Hlt.
    cbn [_marshal_value].
    rewrite !(fmt_0d_digits 4 _ 10000 eq_refl), !(fmt_0d_digits 2 _ 100 eq_refl)
      by lia.
    apply string_leb_compare.
    destruct (Z.eqb_spec (microsecond t) 0) as [Et|Et],
             (Z.eqb_spec (microsecond u) 0) as [Eu|Eu];
      rewrite ?(fmt_0d_digits 6 _ 1000000 eq_refl) by lia;
      rewrite !string_compare_append by (rewrite !fixed_length; reflexivity);
      rewrite ?string_compare_append_l, ?string_compare_append_r
        by (rewrite !fixed_length; reflexivity);
      rewrite !(fixed_compare_Z 4 _ _ 10000 eq_refl),
              !(fixed_compare_Z 2 _ _ 100 eq_refl),
              ?(fixed_compare_Z 6 _ _ 1000000 eq_refl) by lia;
      cbn [Py.fixed String.compare];
      order_cases Hlt.
  - (* dates *)
    apply valid_bounds in Ha, Hb. cbn [scalar_lt] in Hlt.
    cbn [year month day hour minute second microsecond] in Ha, Hb.
    cbn [_marshal_value].
    rewrite !(fmt_0d_digits 4 _ 10000 eq_refl), !(fmt_0d_digits 2 _ 100 eq_refl)
      by lia.
    apply string_leb_compare.
    rewrite !string_compare_append by (rewrite !fixed_length; reflexivity).
    rewrite !(fixed_compare_Z 4 _ _ 10000 eq_refl),
            !(fixed_compare_Z 2 _ _ 100 eq_refl) by lia.
    change (String.compare "000000" "000000") with Eq.
    order_cases Hlt.
  - (* booleans *)
    destruct Hlt as [-> ->]. reflexivity.
  - (* floats *)
    apply Hfloat, Hlt.
  - (* integers *)
    cbn [written_at_full_width scalar_lt] in Ha, Hb, Hlt. cbn [_marshal_value].
    rewrite !(fmt_0d_digits 12 _ 1000000000000 eq_refl) by lia.
    apply string_leb_compare.
    rewrite (fixed_compare_Z 12 _ _ 1000000000000 eq_refl) by lia.
    rewrite (proj2 (Z.compare_lt_iff x y) Hlt). discriminate.
  - (* texts *)
    cbn [scalar_lt] in Hlt. unfold String.ltb in Hlt. cbn [_marshal_value].
    apply string_leb_compare. destruct (String.compare s s'); congruence.
Qed.

End MarshalOrder.

Lemma marshal_keeps_order_witness :
  String.leb
    (@_marshal_value example_host (VDateTime (DateTime 2009 1 1 0 0 0 500000)))
    (@_marshal_value example_host (VDateTime (DateTime 2009 1 1 0 0 1 0)))
  = true.
Proof.
  apply (@marshal_keeps_order example_host);
    [intros; reflexivity | reflexivity | reflexivity | reflexivity].
Defined.


(** ** The query compiler *)

Lemma contains_append c s t :
  Py.contains c (s +:+ t) = Py.contains c s || Py.contains c t.
Proof.
  induction s as [|a s IH]; simpl; [reflexivity|].
  rewrite IH. apply orb_assoc.
Qed.

(** A text with a colon in it is neither [AND] nor [OR]. *)
Lemma field_text_not_connector f s :
  (f +:+ ":" +:+ s =? "AND") || (f +:+ ":" +:+ s =? "OR") = false.
Proof.
  assert (Hc : Py.contains ":"%char (f +:+ ":" +:+ s) = true).
  { rewrite contains_append. simpl. apply orb_true_r. }
  apply orb_false_intro; apply String.eqb_neq; intros E;
    rewrite E in Hc; discriminate Hc.
Qed.

Lemma not_content_eqb f : f <> "content" -> (f =? "content") = false.
Proof. intros Hf. apply String.eqb_neq. exact Hf. Qed.

Section CompilerFacts.

Context `{Host}.

(** C2: the negated [gte] filter on [status] with the value 5, alone in
    the chain and with no model, compiles to [NOT status:000000000005..*]:
    the value is marshalled to twelve digits, and the [AND] of the negation
    rule, being the first chunk, is taken off. *)
Theorem build_query_negated_gte :
  build_query [negated_gte_filter] [] = Val "NOT status:000000000005..*".
Proof. reflexivity. Qed.

(** Whatever the connectors of the filter, the value is emitted as twelve
    digits. *)
Lemma build_query_negated_gte_connectors (and_ or_ : bool) :
  build_query [{| field := "status"; filter_type := op_gte;
                  value := Scalar (VInt 5);
                  is_and := and_; is_or := or_; is_not := true |}] []
  = Val (match and_, or_ with
         | false, false => "NOT status:000000000005..*"
         | true, true => "OR AND NOT status:000000000005..*"
         | _, _ => "AND NOT status:000000000005..*"
         end).
Proof. destruct and_, or_; reflexivity. Qed.

(** An [exact] filter on a scalar emits the marshalled value. *)
Lemma build_query_exact f v :
  f <> "content" ->
  build_query [exact_filter f v] []
  = Val (f +:+ ":" +:+ phrase (_marshal_value v)).
Proof.
  intros Hf. unfold build_query, for_each, filter_chunks, exact_filter; simpl.
  rewrite (not_content_eqb f Hf). unfold phrase.
  destruct (Py.contains " " (_marshal_value v)); simpl;
    rewrite field_text_not_connector; reflexivity.
Qed.

(** An [in] filter on a list or a tuple emits each item as [str] writes
    it, when no item is the text of one space. *)
Lemma build_query_in_list f (is_tuple : bool) items :
  f <> "content" ->
  existsb is_space items = false ->
  build_query [in_filter f (if is_tuple then PyTuple items else PyList items)] []
  = Val ("(" +:+ Py.join " OR " (map (fun v => f +:+ ":" +:+ str v) items)
         +:+ ")").
Proof.
  intros Hf Hs. unfold build_query, for_each, filter_chunks, in_filter.
  destruct is_tuple; simpl; rewrite (not_content_eqb f Hf), Hs; simpl;
    unfold in_options, possible_values; rewrite !map_map; reflexivity.
Qed.

(** C9: on a field other than [content], an [exact] filter emits its
    scalar value marshalled (an integer as twelve digits), an [in] filter
    emits the items of its list or tuple as [str] writes them, not
    marshalled (no item being the text of one space); for the integer 5 the
    two texts are [f:000000000005] and [(f:5)], [f] being the field. *)
Theorem build_query_in_values_not_marshalled (f : string) :
  f <> "content" ->
  (forall v,
     build_query [exact_filter f v] []
     = Val (f +:+ ":" +:+ phrase (_marshal_value v)))
  /\ (forall (is_tuple : bool) items,
        existsb is_space items = false ->
        build_query
          [in_filter f (if is_tuple then PyTuple items else PyList items)] []
        = Val ("(" +:+ Py.join " OR " (map (fun v => f +:+ ":" +:+ str v) items)
               +:+ ")"))
  /\ build_query [exact_filter f (VInt 5)] [] = Val (f +:+ ":000000000005")
  /\ build_query [in_filter f (PyList [VInt 5])] []
     = Val ("(" +:+ (f +:+ ":5") +:+ ")").
Proof.
  intros Hf. split; [|split; [|split]].
  - intros v. apply build_query_exact, Hf.
  - intros is_tuple items Hs. apply build_query_in_list; assumption.
  - rewrite (build_query_exact f (VInt 5) Hf). reflexivity.
  - exact (build_query_in_list f false [VInt 5] Hf eq_refl).
Qed.


Lemma colon_text_not_connector s :
  Py.contains ":"%char s = true -> (s =? "AND") || (s =? "OR") = false.
Proof.
  intros Hc. apply orb_false_intro; apply String.eqb_neq; intros E;
    rewrite E in Hc; discriminate Hc.
Qed.


End CompilerFacts.


Lemma build_query_in_values_not_marshalled_witness :
  "status" <> "content"
  /\ @build_query example_host [exact_filter "status" (VInt 5)] []
     = Val "status:000000000005"
  /\ @build_query example_host [in_filter "status" (PyList [VInt 5])] []
     = Val "(status:5)".
Proof.
  assert (Hf : "status" <> "content") by discriminate.
  split; [exact Hf|].
  destruct (@build_query_in_values_not_marshalled example_host "status" Hf)
    as (_ & _ & He & Hi).
  split; [exact He | exact Hi].
Defined.

(** The filter does not compile to [AND NOT status:5..*]. *)
Lemma build_query_negated_gte_drops_and :
  ~ (forall H : Host,
       build_query [negated_gte_filter] [] = Val "AND NOT status:5..*").
Proof.
  intros A. specialize (A example_host). discriminate A.
Qed.

(** ** The value columns *)

Lemma value_column_unknown schema field :
  field ∉ map field_name schema -> _value_column schema field = 0.
Proof.
  induction schema as [|fd rest IH]; simpl; intros Hn; [reflexivity|].
  apply not_elem_of_cons in Hn as [Hne Hrest].
  destruct (String.eqb_spec (field_name fd) field) as [E|_].
  - congruence.
  - apply IH, Hrest.
Qed.

Lemma substring_all s : String.substring 0 (String.length s) s = s.
Proof. induction s as [|c s IH]; simpl; [reflexivity | now rewrite IH]. Qed.

Lemma clip_in_range len i : (0 <= i <= len)%Z -> Py.clip len i = Z.to_nat i.
Proof.
  intros Hi. unfold Py.clip.
  destruct (i <? 0)%Z eqn:E; [apply Z.ltb_lt in E; lia|].
  f_equal. lia.
Qed.

(** [sort_field[1:]] of a name that starts with a dash. *)
Lemma slice_after_dash s :
  Py.slice ("-" +:+ s) 1 (Z.of_nat (String.length ("-" +:+ s))) = s.
Proof.
  change ("-" +:+ s) with (String "-" s). unfold Py.slice.
  cbn [String.length]. rewrite !clip_in_range by lia.
  rewrite Nat2Z.id. change (Z.to_nat 1) with 1.
  cbn [String.substring Nat.sub]. rewrite Nat.sub_0_r. apply substring_all.
Qed.

(** The columns of a schema are numbered from the one it starts at. *)
Lemma build_schema_from_first fields content0 n content fd rest :
  build_schema_from fields content0 n = (content, fd :: rest) ->
  column fd = n.
Proof.
  revert content0. induction fields as [|[name fc] fields IH]; simpl;
    intros content0 E; [discriminate|].
  destruct (indexed fc).
  - destruct (build_schema_from fields _ (S n)) as [c sf].
    injection E as _ <- _. reflexivity.
  - eapply IH, E.
Qed.

(** C10: for a field name that is not in the schema, [_value_column]
    returns 0, and sorting by it, in either direction, sorts by value
    slot 0, which is the column [build_schema] gives the first field of a
    schema. *)
Theorem sort_by_unknown_field (schema : list field_dict) (field : string) :
  field ∉ map field_name schema ->
  _value_column schema field = 0
  /\ (Py.startswith "-" field = false ->
      _sorter schema [field] = [(0, false)])
  /\ _sorter schema ["-" +:+ field] = [(0, true)]
  /\ (forall fields content fd rest,
        build_schema fields = (content, fd :: rest) -> column fd = 0).
Proof.
  intros Hn. pose proof (value_column_unknown schema field Hn) as H0.
  split; [exact H0|]. split; [|split].
  - intros Hd. unfold _sorter. simpl. rewrite Hd, H0. reflexivity.
  - unfold _sorter. cbn [map].
    change (Py.startswith "-" ("-" +:+ field)) with (Py.startswith "" field).
    replace (Py.startswith "" field) with true by (destruct field; reflexivity).
    rewrite slice_after_dash, H0. reflexivity.
  - intros fields content fd rest E.
    eapply build_schema_from_first, E.
Qed.

Lemma sort_by_unknown_field_witness :
  ("author" ∉ map field_name example_schema)
  /\ _value_column example_schema "author" = 0
  /\ _sorter example_schema ["author"] = [(0, false)]
  /\ _sorter example_schema ["-author"] = [(0, true)].
Proof.
  assert (Hn : "author" ∉ map field_name example_schema).
  { vm_compute. intros Hin. repeat (apply elem_of_cons in Hin as [Hin|Hin];
      [discriminate Hin|]). apply elem_of_nil in Hin. exact Hin. }
  split; [exact Hn|].
  destruct (sort_by_unknown_field example_schema "author" Hn)
    as (Hc & Hs & Hd & _).
  split; [exact Hc|]. split; [exact (Hs eq_refl) | exact Hd].
Defined.

Lemma build_schema_from_columns fields content0 n :
  map column (snd (build_schema_from fields content0 n))
  = seq n (length (snd (build_schema_from fields content0 n)))
  /\ map field_name (snd (build_schema_from fields content0 n))
     = map fst (List.filter (fun p => indexed (snd p)) fields).
Proof.
  revert content0 n. induction fields as [|[name fc] fields IH];
    intros content0 n; [split; reflexivity|].
  cbn [build_schema_from List.filter snd]. destruct (indexed fc).
  - specialize (IH (if document fc then name else content0) (S n)).
    destruct (build_schema_from fields _ (S n)) as [c sf].
    cbn [snd map length seq fst column field_name] in IH |- *.
    destruct IH as [-> ->]. split; reflexivity.
  - apply IH.
Qed.

(** X8: [build_schema] keeps the indexed fields, in their order, and
    numbers their columns from 0 on. *)
Theorem build_schema_columns (fields : list (string * field_class)) :
  map column (snd (build_schema fields))
  = seq 0 (length (snd (build_schema fields)))
  /\ map field_name (snd (build_schema fields))
     = map fst (List.filter (fun p => indexed (snd p)) fields).
Proof. apply build_schema_from_columns. Qed.

(** ** The value range processor *)

Section RangeFacts.

Context `{Host}.

(** With the low bound alone left out, its place is taken by the lowest
    value of the type of the field. *)
Lemma range_of_open_low fd end_ :
  range_of fd EmptyString end_
  = match type fd with
    | TText => Val (column fd, "a", end_)
    | TLong =>
        e ← long_of_str end_;
        Val (column fd, _marshal_value (VInt (- maxint - 1)),
             _marshal_value (VInt e))
    | TFloat =>
        e ← float_of_str end_;
        Val (column fd, _marshal_value (VFloat neg_infinity),
             _marshal_value (VFloat e))
    | TDate | TDateTime => Val (column fd, "00010101000000", end_)
    | TBoolean => Val (column fd, EmptyString, end_)
    end.
Proof.
  unfold range_of. cbn [String.eqb]. destruct (type fd); cbn; try reflexivity.
  - destruct (long_of_str end_); reflexivity.
  - destruct (float_of_str end_); reflexivity.
Qed.

(** With the high bound [*] and a low bound given, the place of [*] is
    taken by the highest value of the type of the field. *)
Lemma range_of_open_high fd begin :
  begin <> EmptyString ->
  range_of fd begin "*"
  = match type fd with
    | TText => Val (column fd, begin, repeat_char "z" 100)
    | TLong =>
        b ← long_of_str begin;
        Val (column fd, _marshal_value (VInt b), _marshal_value (VInt maxint))
    | TFloat =>
        b ← float_of_str begin;
        Val (column fd, _marshal_value (VFloat b),
             _marshal_value (VFloat infinity))
    | TDate | TDateTime => Val (column fd, begin, "99990101000000")
    | TBoolean => Val (column fd, begin, "*")
    end.
Proof.
  intros Hb. unfold range_of.
  replace (begin =? EmptyString) with false
    by (symmetry; apply String.eqb_neq, Hb).
  cbn [String.eqb Ascii.eqb Bool.eqb]. destruct (type fd); cbn; try reflexivity.
  - destruct (long_of_str begin); reflexivity.
  - destruct (float_of_str begin); reflexivity.
Qed.

(** C3: for the range token [name:..*], open at both ends, on the text
    field [name], the processor puts the lowest text in place of the empty
    low bound and leaves the high bound [*] as it is; likewise for the date
    field [pub_date]; for the integer field [count] it hands [*] to
    [long], and raises what [long] raises. *)
Theorem range_open_at_both_ends_keeps_star :
  XHValueRangeProcessor_call range_schema "name:" "*" = Val (Some (0, "a", "*"))
  /\ XHValueRangeProcessor_call range_schema "pub_date:" "*"
     = Val (Some (1, "00010101000000", "*"))
  /\ (forall e, long_of_str "*" = Exc e ->
      XHValueRangeProcessor_call range_schema "count:" "*" = Exc e).
Proof.
  split; [reflexivity|]. split; [reflexivity|].
  intros e He.
  change (XHValueRangeProcessor_call range_schema "count:" "*")
    with (r ← range_of {| field_name := "count"; type := TLong;
                          multi_valued := false; column := 2 |}
                       EmptyString "*";
          Val (Some r)).
  rewrite range_of_open_low. cbn [type]. rewrite He. reflexivity.
Qed.

(** X2: with one end of a range left open, the lowest value of the type of
    the field takes the place of an empty low bound, and the highest one
    the place of the high bound [*] when the low bound is given; the bounds
    of integer and float fields are marshalled, those of text and date
    fields are not, and a boolean field has no such values. *)
Theorem range_open_at_one_end (fd : field_dict) :
  (forall end_,
     range_of fd EmptyString end_
     = match type fd with
       | TText => Val (column fd, "a", end_)
       | TLong =>
           e ← long_of_str end_;
           Val (column fd, _marshal_value (VInt (- maxint - 1)),
                _marshal_value (VInt e))
       | TFloat =>
           e ← float_of_str end_;
           Val (column fd, _marshal_value (VFloat neg_infinity),
                _marshal_value (VFloat e))
       | TDate | TDateTime => Val (column fd, "00010101000000", end_)
       | TBoolean => Val (column fd, EmptyString, end_)
       end)
  /\ (forall begin,
        begin <> EmptyString ->
        range_of fd begin "*"
        = match type fd with
          | TText => Val (column fd, begin, repeat_char "z" 100)
          | TLong =>
              b ← long_of_str begin;
              Val (column fd, _marshal_value (VInt b),
                   _marshal_value (VInt maxint))
          | TFloat =>
              b ← float_of_str begin;
              Val (column fd, _marshal_value (VFloat b),
                   _marshal_value (VFloat infinity))
          | TDate | TDateTime => Val (column fd, begin, "99990101000000")
          | TBoolean => Val (column fd, begin, "*")
          end).
Proof.
  split.
  - intros end_. apply range_of_open_low.
  - intros begin Hb. apply range_of_open_high, Hb.
Qed.

End RangeFacts.

(** On a 64-bit host, the token [count:..*] on the integer field ends with
    [ValueError], and [count:..7] and [count:3..*] give the two ends of the
    integers. *)
Example range_of_integers :
  @XHValueRangeProcessor_call example_host range_schema "count:" "*"
  = Exc ValueError
  /\ @XHValueRangeProcessor_call example_host range_schema "count:" "7"
     = Val (Some (2, "-9223372036854775808", "000000000007"))
  /\ @XHValueRangeProcessor_call example_host range_schema "count:3" "*"
     = Val (Some (2, "000000000003", "9223372036854775807")).
Proof. repeat split. Qed.

(** ** Date facets *)

(** C4: with a gap of two months, the range that follows December 2009 is
    January 2011, so the facet list from December 2009 to February 2011 has
    the two entries 2011-01-01 and 2009-12-01 and none for 2010; from
    November 2009 the month after the first range is 13, and the call ends
    with [ValueError]. *)
Theorem month_gap_of_two_skips_a_year (fuel : nat) :
  date_facet_list (S (S (S fuel))) [] "pub_date" from_december
  = Some (Val [("2011-01-01T00:00:00", 0%Z); ("2009-12-01T00:00:00", 0%Z)])
  /\ date_facet_list (S fuel) [] "pub_date" from_november
     = Some (Exc ValueError).
Proof. split; reflexivity. Qed.

(** X7: one month at a time from 2009-01-01 to 2009-03-01, the facet list
    is the entry of February, then the entry of January, and a result of
    2009-02-15 is counted in the first of them only. *)
Theorem date_facets_by_month (fuel : nat) :
  date_facet_list (S (S (S fuel))) [] "pub_date" first_months
  = Some (Val [("2009-02-01T00:00:00", 0%Z); ("2009-01-01T00:00:00", 0%Z)])
  /\ date_facet_list (S (S (S fuel))) [dated_result (VDate (Date 2009 2 15))]
       "pub_date" first_months
     = Some (Val [("2009-02-01T00:00:00", 1%Z); ("2009-01-01T00:00:00", 0%Z)]).
Proof. split; reflexivity. Qed.

(** The index [first_before] finds is that of the first start before the
    date. *)
Lemma first_before_find d facet_list starts k :
  starts_of facet_list starts ->
  first_before d facet_list k
  = Val (match list_find (fun start => DT.gtb d start = true) starts with
         | Some (n, _) => Some (k + n)
         | None => None
         end).
Proof.
  intros Hs. revert k. induction Hs as [|entry start l starts E _ IH];
    intros k; [reflexivity|].
  cbn [first_before list_find]. rewrite E. cbn [mbind res_bind].
  destruct (decide (DT.gtb d start = true)) as [Hg|Hg].
  - rewrite Hg. rewrite Nat.add_0_r. reflexivity.
  - apply not_true_is_false in Hg. rewrite Hg, IH.
    destruct (list_find _ starts) as [[n x]|]; cbn; [|reflexivity].
    do 2 f_equal. lia.
Qed.

(** X3: a result whose field holds a date or a datetime adds one to the
    count of the first entry of the facet list that starts before it, and
    to no other; when no entry starts before it, the list stays as it
    is. *)
Theorem tally_counts_first_match (date_facet : string)
  (facet_list : list (string * Z)) (starts : list datetime)
  (result : SearchResult) (a : attr) (d : datetime) :
  starts_of facet_list starts ->
  getattr result date_facet = Val a ->
  truthy a = true ->
  as_datetime a = Val d ->
  match list_find (fun start => DT.gtb d start = true) starts with
  | Some (n, _) =>
      exists label count,
        facet_list !! n = Some (label, count)
        /\ tally date_facet facet_list result
           = Val (<[n := (label, (count + 1)%Z)]> facet_list)
  | None => tally date_facet facet_list result = Val facet_list
  end.
Proof.
  intros Hs Ha Ht Hd. unfold tally. rewrite Ha. cbn [mbind res_bind].
  rewrite Ht, Hd. cbn [mbind res_bind].
  rewrite (first_before_find d facet_list starts 0 Hs).
  destruct (list_find _ starts) as [[n start]|] eqn:Ef; cbn [mbind res_bind];
    [|reflexivity].
  apply list_find_Some in Ef as (Hn & _ & _).
  destruct (Forall2_lookup_r _ _ _ _ _ Hs Hn) as ([label count] & Hl & _).
  exists label, count. cbn [Nat.add]. rewrite Hl. split; reflexivity.
Qed.

Lemma tally_counts_first_match_witness :
  exists starts,
    starts_of [("2009-02-01T00:00:00", 0%Z); ("2009-01-01T00:00:00", 0%Z)] starts
    /\ tally "pub_date"
         [("2009-02-01T00:00:00", 0%Z); ("2009-01-01T00:00:00", 0%Z)]
         (dated_result (VDate (Date 2009 1 15)))
       = Val [("2009-02-01T00:00:00", 0%Z); ("2009-01-01T00:00:00", 1%Z)].
Proof.
  exists [DateTime 2009 2 1 0 0 0 0; DateTime 2009 1 1 0 0 0 0].
  assert (Hs : starts_of
                 [("2009-02-01T00:00:00", 0%Z); ("2009-01-01T00:00:00", 0%Z)]
                 [DateTime 2009 2 1 0 0 0 0; DateTime 2009 1 1 0 0 0 0])
    by (repeat constructor).
  split; [exact Hs|].
  pose proof (tally_counts_first_match "pub_date" _ _
                (dated_result (VDate (Date 2009 1 15)))
                (AVal (VDate (Date 2009 1 15))) (DateTime 2009 1 15 0 0 0 0)
                Hs eq_refl eq_refl eq_refl) as Ht.
  cbn in Ht. destruct Ht as (label & count & Hl & Ht).
  injection Hl as <- <-. exact Ht.
Defined.

(** ** [search] *)

Section SearchFacts.

Context `{Host} `{Engine}.

Variable include_spelling : bool.

(** C8: a search for the empty query string returns the dictionary with
    the two keys [results] (empty) and [hits] (0) and nothing else, and
    leaves no event: the store is not opened, no match set is fetched. *)
Theorem search_of_empty_query (fuel : nat) (store : Store) (a : Args.t) :
  search include_spelling fuel store EmptyString a
  = ([], Some (Val {| results := []; hits := 0; facets := None;
                      spelling_suggestion := None |})).
Proof. destruct fuel; reflexivity. Qed.

(** Without highlighting, the results are the matches with their data. *)
Lemma results_for_plain database query_string matches :
  results_for database query_string false matches
  = Val (map (fun m => result_of m (data_model_data (m_document m))) matches).
Proof.
  induction matches as [|m rest IH]; [reflexivity|].
  cbn [results_for]. rewrite IH. reflexivity.
Qed.

(** A search with the default arguments opens the store, fetches one match
    set and returns. *)
Lemma search_defaults_run fuel database query_string :
  query_string <> EmptyString ->
  search include_spelling fuel (Some database) query_string Args.defaults
  = ([Opened false;
      Fetched (plain_query include_spelling query_string) None 0 DEFAULT_MAX_RESULTS],
     Some (Val {|
       results :=
         map (fun m => result_of m (data_model_data (m_document m)))
             (get_mset database (plain_query include_spelling query_string) None 0
                DEFAULT_MAX_RESULTS);
       hits := get_matches_estimated database (plain_query include_spelling query_string) None;
       facets := Some no_facets;
       spelling_suggestion :=
         Some (if negb (query_string =? "*") && include_spelling
               then Some (corrected_query_string database query_string)
               else None) |})).
Proof.
  intros Hq. apply String.eqb_neq in Hq.
  destruct fuel; unfold search, search_body; rewrite Hq;
    cbn -[get_mset get_matches_estimated _flags];
    rewrite results_for_plain; reflexivity.
Qed.

Lemma search_defaults_returns fuel database query_string :
  exists log r,
    search include_spelling fuel (Some database) query_string Args.defaults
    = (log, Some (Val r)).
Proof.
  destruct (String.eqb_spec query_string EmptyString) as [->|Hq].
  - destruct fuel; eexists _, _; reflexivity.
  - rewrite (search_defaults_run _ _ _ Hq). eauto.
Qed.

(** The dictionary [_do_query_facets] builds, and the events it leaves,
    when every sub-search returns. *)
Lemma query_facets_loop (self_search : string -> M response)
  (items : list (string * string)) (acc : gmap string (string * Z)) :
  (forall query, exists log r, self_search query = (log, Some (Val r))) ->
  for_each_M (fun facet_dict '(field, query) =>
                r ← self_search query;
                mret (<[field := (query, hits r)]> facet_dict))
             items acc
  = (concat (map (fun kv => fst (self_search kv.2)) items),
     Some (Val (foldl (fun d kv => <[kv.1 := (kv.2, hits_of (self_search kv.2))]> d)
                      acc items))).
Proof.
  intros Hself. revert acc.
  induction items as [|[field query] rest IH]; intros acc; [reflexivity|].
  destruct (Hself query) as (log & r & E).
  cbn [for_each_M map concat foldl fst snd].
  unfold hits_of at 1. rewrite E. cbn [fst snd].
  unfold mbind at 1, M_bind at 1. unfold mbind at 1, M_bind at 1.
  unfold mret at 1, M_ret at 1. rewrite app_nil_r.
  rewrite IH. reflexivity.
Qed.

Lemma foldl_insert_lookup {V : Type} (f : string -> V)
  (items : list (string * string)) (acc : gmap string V) (k : string) :
  NoDup items.*1 ->
  foldl (fun d kv => <[kv.1 := f kv.2]> d) acc items !! k
  = match (list_to_map items : gmap string string) !! k with
    | Some v => Some (f v)
    | None => acc !! k
    end.
Proof.
  revert acc. induction items as [|[k0 v0] rest IH]; intros acc Hnd.
  - reflexivity.
  - apply NoDup_cons in Hnd as [Hk0 Hnd].
    cbn [foldl list_to_map foldr fst snd]. rewrite (IH _ Hnd).
    destruct (decide (k0 = k)) as [->|Hne].
    + rewrite lookup_insert_eq.
      rewrite (not_elem_of_list_to_map_1 _ _ Hk0).
      rewrite lookup_insert_eq. reflexivity.
    + rewrite !(lookup_insert_ne _ k0 k) by exact Hne. reflexivity.
Qed.

Lemma query_facets_dict {V : Type} (f : string -> V)
  (query_facets : gmap string string) :
  foldl (fun d kv => <[kv.1 := f kv.2]> d) ∅ (map_to_list query_facets)
  = f <$> query_facets.
Proof.
  apply map_eq. intros k.
  rewrite foldl_insert_lookup by apply NoDup_fst_map_to_list.
  rewrite list_to_map_to_list, lookup_fmap, lookup_empty.
  destruct (query_facets !! k); reflexivity.
Qed.

Lemma do_query_facets_run (self_search : string -> M response)
  (query_facets : gmap string string) :
  (forall query, exists log r, self_search query = (log, Some (Val r))) ->
  _do_query_facets self_search query_facets
  = (concat (map (fun kv => fst (self_search kv.2)) (map_to_list query_facets)),
     Some (Val ((fun query => (query, hits_of (self_search query)))
                <$> query_facets))).
Proof.
  intros Hself. unfold _do_query_facets.
  rewrite (query_facets_loop _ _ _ Hself).
  rewrite (query_facets_dict (fun query => (query, hits_of (self_search query)))).
  reflexivity.
Qed.


End SearchFacts.



(** ** [clear] *)

Section ClearFacts.

Context `{Host} `{Engine}.

Variable include_spelling : bool.
Variable site_fields : list (string * field_class).

Lemma filter_true {A : Type} (p : A -> bool) (l : list A) :
  (forall x, p x = true) -> List.filter p l = l.
Proof.
  intros Hp. induction l as [|x l IH]; [reflexivity|].
  cbn [List.filter]. rewrite Hp, IH. reflexivity.
Qed.

(** The matches of [Query('')] are all the documents of the store. *)
Lemma all_matches_of_empty_term (db : Database) sorter :
  map m_docid (all_matches db (Q_term EmptyString) sorter)
  ≡ₚ (map_to_list (documents db)).*1.
Proof.
  unfold all_matches. rewrite ranked_perm.
  rewrite filter_true by (intros [i d]; reflexivity).
  rewrite map_map. erewrite map_ext; [reflexivity|].
  intros [i d]. reflexivity.
Qed.

(** Deleting documents that are there, each once, takes as many off the
    count. *)
Lemma size_after_deletes (ids : list positive) (db : Database) :
  NoDup ids ->
  (forall i, i ∈ ids -> is_Some (documents db !! i)) ->
  size (documents (fold_left (fun db i => delete_document i db) ids db))
  = size (documents db) - length ids.
Proof.
  revert db. induction ids as [|i ids IH]; intros db Hnd Hin.
  - cbn. lia.
  - apply NoDup_cons in Hnd as [Hi Hnd]. cbn [fold_left length].
    rewrite IH; [|exact Hnd|].
    + destruct (Hin i) as [d Hd]; [left|].
      cbn [delete_document documents].
      pose proof (map_size_delete_Some i (documents db) (mk_is_Some _ _ Hd)).
      lia.
    + intros j Hj. cbn [delete_document documents].
      rewrite lookup_delete_ne by (intros ->; contradiction).
      apply Hin. right. exact Hj.
Qed.

Lemma fold_left_delete_docid (ms : list Match) (db : Database) :
  fold_left (fun db m => delete_document (m_docid m) db) ms db
  = fold_left (fun db i => delete_document i db) (map m_docid ms) db.
Proof.
  revert db. induction ms as [|m ms IH]; intros db; [reflexivity|].
  cbn [fold_left map]. apply IH.
Qed.

(** C6: [clear()] with no models deletes the matches of one match set of
    at most [DEFAULT_MAX_RESULTS] documents: the store keeps its documents
    beyond that number, and a store of one document more than the limit is
    left with one document. *)
Theorem clear_all_stops_at_the_limit (store : Store) :
  exists database,
    clear include_spelling site_fields store [] = Val database
    /\ document_count (Some database)
       = document_count store - N.to_nat DEFAULT_MAX_RESULTS
    /\ (document_count store = S (N.to_nat DEFAULT_MAX_RESULTS) ->
        document_count (Some database) = 1).
Proof.
  eexists. split; [reflexivity|].
  set (db := _database_writable site_fields store).
  assert (Hcount : document_count store = size (documents db)).
  { subst db. unfold _database_writable.
    destruct (build_schema site_fields) as [content schema_fields].
    destruct store as [d|]; reflexivity. }
  set (ms := get_mset db (Q_term EmptyString) None 0 DEFAULT_MAX_RESULTS).
  assert (Hms : map m_docid ms
                = take (N.to_nat DEFAULT_MAX_RESULTS)
                       (map m_docid (all_matches db (Q_term EmptyString) None))).
  { subst ms. unfold get_mset. change (N.to_nat 0) with 0.
    rewrite drop_0. symmetry. apply firstn_map. }
  pose proof (all_matches_of_empty_term db None) as Hperm.
  assert (Hsize :
    document_count
      (Some (fold_left (fun db m => delete_document (m_docid m) db) ms db))
    = document_count store - N.to_nat DEFAULT_MAX_RESULTS).
  { unfold document_count at 1. cbn [_database].
    rewrite fold_left_delete_docid, size_after_deletes.
    - rewrite Hms, length_take, Hperm, length_fmap, length_map_to_list, Hcount.
      lia.
    - rewrite Hms. eapply sublist_NoDup; [|apply sublist_take].
      rewrite Hperm. apply NoDup_fst_map_to_list.
    - intros i Hi. rewrite Hms in Hi. apply subseteq_take in Hi.
      rewrite Hperm in Hi. apply list_elem_of_fmap in Hi as ([j d] & -> & Hd).
      apply elem_of_map_to_list in Hd. eauto. }
  split; [exact Hsize|]. intros Hone.
  etransitivity; [exact Hsize|]. rewrite Hone. lia.
Qed.

(** With models given, [clear] deletes the documents that carry the
    content type term of one of the models, and keeps the others. *)
Lemma clear_models_lookup (store : Store) (model : Model)
  (models : list Model) (i : positive) (d : Document) :
  exists database,
    clear include_spelling site_fields store (model :: models) = Val database
    /\ (documents database !! i = Some d
        <-> documents (_database_writable site_fields store) !! i = Some d
            /\ forall m, m ∈ model :: models ->
                 content_type_term (app_label m) (module_name m) ∉ terms d).
Proof.
  eexists. split; [reflexivity|].
  generalize (model :: models) as ms.
  generalize (_database_writable site_fields store) as db.
  intros db ms. revert db.
  induction ms as [|m ms IH]; intros db; cbn [fold_left].
  - split; [intros Hd; split; [exact Hd|]|intros [Hd _]; exact Hd].
    intros m Hm. apply elem_of_nil in Hm. contradiction.
  - rewrite IH. cbn [delete_document_term documents].
    rewrite map_lookup_filter_Some. cbn [snd].
    split.
    + intros [[Hd Hm] Hrest]. split; [exact Hd|].
      intros m' Hm'. apply elem_of_cons in Hm' as [->|Hm'];
        [exact Hm | apply Hrest, Hm'].
    + intros [Hd Hall]. split; [split; [exact Hd|]|].
      * apply Hall. left.
      * intros m' Hm'. apply Hall. right. exact Hm'.
Qed.

(** X4: [clear([model])] leaves exactly the documents of the store that do
    not carry the content type term of the model. *)
Theorem clear_one_model (store : Store) (model : Model) :
  exists database,
    clear include_spelling site_fields store [model] = Val database
    /\ forall i d,
         documents database !! i = Some d
         <-> documents (_database_writable site_fields store) !! i = Some d
             /\ content_type_term (app_label model) (module_name model)
                ∉ terms d.
Proof.
  eexists. split; [reflexivity|]. intros i d.
  destruct (clear_models_lookup store model [] i d) as (db & E & Hiff).
  injection E as <-. rewrite Hiff. split; intros [Hd Hm]; (split; [exact Hd|]).
  - apply Hm. left.
  - intros m Hin. apply list_elem_of_singleton in Hin as ->. exact Hm.
Qed.

End ClearFacts.

(** ** [more_like_this] *)

Section MoreLikeThisFacts.

Context `{Host} `{Engine}.

Variable include_spelling : bool.

(** A match of a match set is a document of the store that matches the
    query. *)
Lemma get_mset_sound (db : Database) (q : Query) sorter first maxitems m :
  m ∈ get_mset db q sorter first maxitems ->
  documents db !! m_docid m = Some (m_document m)
  /\ query_matches db (m_document m) q = true.
Proof.
  unfold get_mset, all_matches. intros Hm.
  apply subseteq_take, subseteq_drop in Hm.
  rewrite ranked_perm in Hm.
  apply list_elem_of_fmap in Hm as ([i d] & -> & Hd).
  apply list_elem_of_In, filter_In in Hd as [Hd Hq].
  apply list_elem_of_In, elem_of_map_to_list in Hd.
  split; [exact Hd | exact Hq].
Qed.

(** The decider rejects the terms that carry the content type prefix. *)
Lemma expansion_terms_not_content_type (db : Database) (identifier t : string) :
  t ∈ expansion_terms db identifier ->
  Py.startswith DOCUMENT_CT_TERM_PREFIX t = false.
Proof.
  unfold expansion_terms, get_eset. intros Ht.
  apply subseteq_take, list_elem_of_In, filter_In in Ht as [_ Hd].
  unfold XHExpandDecider in Hd.
  destruct (Py.startswith DOCUMENT_CT_TERM_PREFIX t); [discriminate Hd | reflexivity].
Qed.

(** The query of [more_like_this] matches no document that carries the
    identifier of the seed. *)
Lemma more_like_this_query_excludes (db : Database) (identifier : string)
  (additional : option string) :
  exists q,
    more_like_this_query include_spelling db identifier additional = Val q
    /\ forall d, query_matches db d q = true -> identifier ∉ terms d.
Proof.
  set (q0 := Q_op OP_AND_NOT
               [Q_op OP_OR (map Q_term (expansion_terms db identifier));
                Q_term identifier]).
  assert (Hq0 : forall d, query_matches db d q0 = true -> identifier ∉ terms d).
  { intros d Hq. cbn in Hq.
    apply andb_true_iff in Hq as [_ Hq]. apply negb_true_iff in Hq.
    apply orb_false_iff in Hq as [Hq _]. apply orb_false_iff in Hq as [_ Hq].
    apply bool_decide_eq_false in Hq. exact Hq. }
  unfold more_like_this_query. fold q0.
  destruct additional as [s|]; [|eauto].
  destruct (s =? EmptyString); [eauto|].
  cbn -[query_matches q0]. eexists. split; [reflexivity|].
  intros d Hq. cbn -[q0] in Hq. apply Hq0.
  apply andb_true_iff in Hq as [Hq _]. exact Hq.
Qed.


End MoreLikeThisFacts.

(** On the store of three entries, the entries like entry 1 are found
    through its term [foo]: entry 2, and not entry 1 itself. *)
Example more_like_this_entry_1 :
  match @more_like_this example_engine false example_store
          {| obj_app_label := "blog"; obj_module_name := "entry"; obj_pk := 1 |}
          None 0 DEFAULT_MAX_RESULTS with
  | Val r => map sr_pk (results r) = [2%Z]
  | Exc _ => False
  end.
Proof. vm_compute. reflexivity. Qed.

(** * Further properties *)

(** ** Field facets *)

Lemma count_value_total v l : total_count (count_value v l) = (total_count l + 1)%Z.
Proof.
  induction l as [|[k n] l IH]; [reflexivity|].
  cbn [count_value]. destruct (key_eqb k v).
  - unfold total_count. cbn. lia.
  - unfold total_count in *. cbn in *. lia.
Qed.

Lemma count_value_entries (P : attr -> Prop) v l :
  P v ->
  Forall (fun e => (0 < snd e)%Z /\ P (fst e)) l ->
  Forall (fun e => (0 < snd e)%Z /\ P (fst e)) (count_value v l).
Proof.
  intros Hv. induction 1 as [|[k n] l [Hn Hk] Hl IH]; cbn [count_value].
  - constructor; [split; [cbn; lia | exact Hv] | constructor].
  - destruct (key_eqb k v); (constructor; [|assumption]); cbn [fst snd] in *;
      (split; [lia|assumption]).
Qed.

Lemma field_facet_loop (P : attr -> Prop) results field acc l :
  for_each (fun facet_list result =>
              field_value ← getattr result field;
              if hashable field_value
              then Val (count_value field_value facet_list)
              else Exc TypeError) results acc = Val l ->
  (forall result v, result ∈ results -> getattr result field = Val v -> P v) ->
  Forall (fun e => (0 < snd e)%Z /\ P (fst e)) acc ->
  total_count l = (total_count acc + Z.of_nat (length results))%Z
  /\ Forall (fun e => (0 < snd e)%Z /\ P (fst e)) l.
Proof.
  revert acc. induction results as [|result results IH]; intros acc E HP Hacc.
  - injection E as <-. split; [cbn; lia | exact Hacc].
  - cbn [for_each] in E.
    destruct (getattr result field) as [v|e] eqn:Ev; [|discriminate E].
    cbn [mbind res_bind] in E.
    destruct (hashable v); [|discriminate E]. cbn [mbind res_bind] in E.
    apply IH in E as [Et Ef].
    + split; [|exact Ef]. rewrite Et, count_value_total. cbn [length]. lia.
    + intros r w Hr. apply HP. right. exact Hr.
    + apply count_value_entries; [|exact Hacc]. eapply HP; [left|exact Ev].
Qed.

(** X9: when [_do_field_facets] returns the facet list of a field, every
    result has been counted once: the counts add up to the number of the
    results, no entry has the count zero, and the key of every entry is
    the value some result holds in the field. *)
Theorem field_facets_count_every_result (results : list SearchResult)
  (field : string) (facet_list : list (attr * Z)) :
  field_facet_list results field = Val facet_list ->
  total_count facet_list = Z.of_nat (length results)
  /\ Forall (fun entry =>
               (0 < snd entry)%Z
               /\ exists result,
                    result ∈ results /\ getattr result field = Val (fst entry))
            facet_list.
Proof.
  intros E.
  apply (field_facet_loop
           (fun k => exists result,
                       result ∈ results /\ getattr result field = Val k))
    in E as [Et Ef].
  - split; [exact Et | exact Ef].
  - intros result v Hr Hv. exists result. split; assumption.
  - constructor.
Qed.

Lemma field_facets_count_every_result_witness :
  field_facet_list
    [kind_result (VText "a"); kind_result (VText "b"); kind_result (VText "a")]
    "kind"
  = Val [(AVal (VText "a"), 2%Z); (AVal (VText "b"), 1%Z)]
  /\ total_count [(AVal (VText "a"), 2%Z); (AVal (VText "b"), 1%Z)] = 3%Z.
Proof.
  assert (E : field_facet_list
                [kind_result (VText "a"); kind_result (VText "b");
                 kind_result (VText "a")] "kind"
              = Val [(AVal (VText "a"), 2%Z); (AVal (VText "b"), 1%Z)])
    by (vm_compute; reflexivity).
  split; [exact E|].
  exact (proj1 (field_facets_count_every_result _ _ _ E)).
Defined.

(** A result that lacks the field ends the faceting with [AttributeError],
    a result whose field holds a list with [TypeError]. *)
Lemma field_facets_errors (before after : list SearchResult)
  (result : SearchResult) (field : string) facet_list :
  field_facet_list before field = Val facet_list ->
  (sr_model_data result !! field = None ->
   field_facet_list (before ++ result :: after) field = Exc AttributeError)
  /\ (forall items, sr_model_data result !! field = Some (ASeq items) ->
      field_facet_list (before ++ result :: after) field = Exc TypeError).
Proof.
  unfold field_facet_list. generalize (@nil (attr * Z)) as acc.
  induction before as [|r before IH]; intros acc E.
  - split; [intros Hn | intros items Hs]; cbn [app for_each]; unfold getattr;
      [rewrite Hn | rewrite Hs]; reflexivity.
  - cbn [app for_each] in E |- *.
    destruct (getattr r field) as [v|e]; [|discriminate E].
    cbn [mbind res_bind] in E |- *.
    destruct (hashable v); [|discriminate E]. cbn [mbind res_bind] in E |- *.
    apply IH, E.
Qed.

(** ** [_query] and the flags of the parser *)

Section QueryFacts.

Context `{Host} `{Engine}.

Variable include_spelling : bool.

(** [_query] returns when the query string is not [*], or when there is
    no narrowing. *)
Lemma query_returns database query_string narrow_queries boost :
  query_string <> "*" \/ narrow_queries = None \/ narrow_queries = Some [] ->
  exists query spelling,
    _query include_spelling database query_string narrow_queries boost
    = Val (query, spelling).
Proof.
  intros Hc. unfold _query.
  destruct narrow_queries as [[|n ns]|]; cbn [mbind res_bind]; eauto.
  destruct Hc as [Hq|[Hn|Hn]]; try discriminate Hn.
  apply String.eqb_neq in Hq. rewrite Hq. cbn. eauto.
Qed.


End QueryFacts.

Lemma upper_append a b : Py.upper (a +:+ b) = Py.upper a +:+ Py.upper b.
Proof.
  induction a as [|c a IH]; [reflexivity|].
  change (String c a +:+ b) with (String c (a +:+ b)).
  cbn [Py.upper]. rewrite IH. reflexivity.
Qed.

Lemma prefix_append s t : String.prefix s (s +:+ t) = true.
Proof.
  induction s as [|c s IH]; [destruct t; reflexivity|].
  change (String c s +:+ t) with (String c (s +:+ t)).
  cbn [String.prefix]. destruct (ascii_dec c c); [exact IH | contradiction].
Qed.

Lemma contains_str_here sub t : Py.contains_str sub (sub +:+ t) = true.
Proof.
  destruct (sub +:+ t) eqn:E; cbn [Py.contains_str]; rewrite <- E, prefix_append;
    reflexivity.
Qed.

Lemma contains_str_append sub a b :
  Py.contains_str sub b = true -> Py.contains_str sub (a +:+ b) = true.
Proof.
  intros Hb. induction a as [|c a IH]; [exact Hb|].
  change (String c a +:+ b) with (String c (a +:+ b)).
  cbn [Py.contains_str]. rewrite IH. apply orb_true_r.
Qed.

Lemma contains_str_inside sub a b :
  Py.contains_str sub (a +:+ sub +:+ b) = true.
Proof. apply contains_str_append, contains_str_here. Qed.

Lemma contains_elem c s :
  Py.contains c s = true <-> exists a b, s = a +:+ String c b.
Proof.
  induction s as [|x s IH]; cbn [Py.contains].
  - split; [discriminate|]. intros ([|y a] & b & E); discriminate E.
  - rewrite orb_true_iff, IH. split.
    + intros [E|(a & b & ->)].
      * apply Ascii.eqb_eq in E as ->. exists EmptyString, s. reflexivity.
      * exists (String x a), b. reflexivity.
    + intros ([|y a] & b & E); injection E as -> ->.
      * left. apply Ascii.eqb_refl.
      * right. eauto.
Qed.

(** X11: the flags [_flags] hands to the parser: the four basic ones
    always; the wildcard flag exactly when the query string holds a star;
    the spelling flag exactly when spelling is included; and the pure-NOT
    flag whenever the letters of [not] occur in the query string, in any
    case and also inside a word. *)
Theorem flags_of_a_query_string (include_spelling : bool) (query_string : string) :
  [FLAG_PARTIAL; FLAG_PHRASE; FLAG_BOOLEAN; FLAG_LOVEHATE]
    ⊆ _flags include_spelling query_string
  /\ (FLAG_WILDCARD ∈ _flags include_spelling query_string
      <-> exists a b, query_string = a +:+ "*" +:+ b)
  /\ (FLAG_SPELLING_CORRECTION ∈ _flags include_spelling query_string
      <-> include_spelling = true)
  /\ (forall a word b,
        query_string = a +:+ word +:+ b -> Py.upper word = "NOT" ->
        FLAG_PURE_NOT ∈ _flags include_spelling query_string).
Proof.
  unfold _flags. split; [|split; [|split]].
  - intros f Hf. apply elem_of_app. left. exact Hf.
  - rewrite <- (contains_elem "*" query_string).
    destruct (Py.contains "*" query_string);
      destruct (Py.contains_str "NOT" (Py.upper query_string));
      destruct include_spelling; cbn; split; intros Hx; try reflexivity;
      try discriminate Hx;
      repeat (apply elem_of_cons in Hx as [Hx|Hx]; [discriminate Hx|]);
      try (apply elem_of_nil in Hx; contradiction);
      repeat first [apply list_elem_of_here | apply list_elem_of_further].
  - destruct (Py.contains "*" query_string);
      destruct (Py.contains_str "NOT" (Py.upper query_string));
      destruct include_spelling; cbn; split; intros Hx; try reflexivity;
      try discriminate Hx;
      repeat (apply elem_of_cons in Hx as [Hx|Hx]; [discriminate Hx|]);
      try (apply elem_of_nil in Hx; contradiction);
      repeat first [apply list_elem_of_here | apply list_elem_of_further].
  - intros a word b -> Hw.
    rewrite !upper_append, Hw, contains_str_inside.
    destruct (Py.contains "*" _); destruct include_spelling; cbn;
      repeat first [apply list_elem_of_here | apply list_elem_of_further].
Qed.

(** ** Highlighting *)

Section HighlightFacts.

Context `{Host}.

Lemma highlight_loop_not_text content terms :
  is_text content = false ->
  for_each (fun content term =>
              if (term =? "AND") || (term =? "OR") then Val content
              else
                match content with
                | AVal (VText s) =>
                    Val (AVal (VText (re_sub_ignorecase term
                                        ("<em>" +:+ term +:+ "</em>") s)))
                | _ => Exc TypeError
                end) terms content
  = match List.filter (fun term => negb ((term =? "AND") || (term =? "OR")))
            terms with
    | [] => Val content
    | _ => Exc TypeError
    end.
Proof.
  intros Hc. induction terms as [|term terms IH]; [reflexivity|].
  cbn [for_each List.filter].
  destruct ((term =? "AND") || (term =? "OR")); cbn [negb mbind res_bind].
  - exact IH.
  - destruct content as [|[]| |]; try reflexivity. discriminate Hc.
Qed.

Lemma highlight_loop_text s terms :
  for_each (fun content term =>
              if (term =? "AND") || (term =? "OR") then Val content
              else
                match content with
                | AVal (VText s) =>
                    Val (AVal (VText (re_sub_ignorecase term
                                        ("<em>" +:+ term +:+ "</em>") s)))
                | _ => Exc TypeError
                end) terms (AVal (VText s))
  = Val (AVal (VText
      (fold_left (fun s term =>
                    re_sub_ignorecase term ("<em>" +:+ term +:+ "</em>") s)
         (List.filter (fun term => negb ((term =? "AND") || (term =? "OR")))
            terms) s))).
Proof.
  revert s. induction terms as [|term terms IH]; intros s; [reflexivity|].
  cbn [for_each List.filter].
  destruct ((term =? "AND") || (term =? "OR")); cbn [negb mbind res_bind fold_left];
    apply IH.
Qed.

(** [_do_highlight] on a text wraps the terms one after the other; on
    anything else it raises as soon as there is a term. *)
Lemma highlight_of_content (content : attr) (text : string) :
  _do_highlight content text
  = match content with
    | AVal (VText s) => Val (AVal (VText (highlighted text s)))
    | _ =>
        match highlighted_terms text with
        | [] => Val content
        | _ => Exc TypeError
        end
    end.
Proof.
  unfold _do_highlight, highlighted, highlighted_terms.
  destruct content as [|[]| |];
    try (apply highlight_loop_not_text; reflexivity).
  apply highlight_loop_text.
Qed.

Lemma highlighted_terms_nonempty text :
  highlighted_terms text <> [] -> text <> EmptyString.
Proof. intros Hn ->. apply Hn. reflexivity. Qed.

Lemma result_for_not_text database query_string m :
  is_text (content_of database m) = false ->
  highlighted_terms query_string <> [] ->
  result_for database query_string true m = Exc TypeError.
Proof.
  intros Hc Ht. unfold result_for.
  assert (Hq : (0 <? String.length query_string)%nat = true).
  { apply highlighted_terms_nonempty in Ht. destruct query_string;
      [contradiction | reflexivity]. }
  rewrite Hq. cbn [andb]. fold (content_of database m).
  rewrite highlight_of_content.
  destruct (content_of database m) as [|[]| |]; try discriminate Hc;
    destruct (highlighted_terms query_string); try contradiction; reflexivity.
Qed.

Lemma results_for_raises database query_string highlight matches e :
  results_for database query_string highlight matches = Exc e -> e = TypeError.
Proof.
  induction matches as [|m matches IH]; [discriminate|].
  cbn [results_for]. destruct (result_for database query_string highlight m) as [r|e']
    eqn:Er.
  - cbn [mbind res_bind]. destruct (results_for _ _ _ matches) as [rs|e'];
      [discriminate|].
    cbn [mbind res_bind]. intros E. injection E as <-. apply IH. reflexivity.
  - cbn [mbind res_bind]. intros E. injection E as <-.
    unfold result_for in Er. destruct (highlight && _); [|discriminate Er].
    fold (content_of database m) in Er. rewrite highlight_of_content in Er.
    destruct (content_of database m) as [|[]| |];
      destruct (highlighted_terms query_string); try discriminate Er;
      cbn [mbind res_bind] in Er; injection Er as <-; reflexivity.
Qed.

Lemma results_for_not_text database query_string matches m :
  m ∈ matches ->
  is_text (content_of database m) = false ->
  highlighted_terms query_string <> [] ->
  results_for database query_string true matches = Exc TypeError.
Proof.
  intros Hm Hc Ht. induction matches as [|x matches IH];
    [apply elem_of_nil in Hm; contradiction|].
  cbn [results_for]. apply elem_of_cons in Hm as [<-|Hm].
  - rewrite (result_for_not_text _ _ _ Hc Ht). reflexivity.
  - destruct (result_for database query_string true x) as [r|e] eqn:Er.
    + cbn [mbind res_bind]. rewrite (IH Hm). reflexivity.
    + cbn [mbind res_bind]. f_equal.
      assert (Hx : results_for database query_string true [x] = Exc e)
        by (cbn [results_for]; rewrite Er; reflexivity).
      apply results_for_raises in Hx. exact Hx.
Qed.


End HighlightFacts.

(** ** Date facets: the loop and the tally *)

Lemma date_ranges_stuck fuel gap_type gap_value date_range end_date facet_list :
  next_range gap_type gap_value date_range = Val date_range ->
  DT.ltb date_range end_date = true ->
  date_ranges fuel gap_type gap_value date_range end_date facet_list = None.
Proof.
  intros Hn Hl. revert facet_list.
  induction fuel as [|fuel IH]; intros facet_list; [reflexivity|].
  cbn [date_ranges]. rewrite Hl, Hn. apply IH.
Qed.

(** X13: when the step does not move the date, the loop of
    [_do_date_facets] does not end, whatever the fuel: so it is when
    [gap_by] is none of the six units (or is missing), and when [gap_by] is
    [year] with a [gap_amount] of 0, the start date being before the end
    date. *)
Theorem date_facets_without_a_step (fuel : nat) (results : list SearchResult)
  (date_facet : string) (params : facet_params) :
  DT.ltb (start_date params) (end_date params) = true ->
  gap_by params = gap_other
  \/ (gap_by params = gap_year /\ gap_amount params = Some 0%Z
      /\ DT.valid (start_date params) = true) ->
  date_facet_list fuel results date_facet params = None
  /\ _do_date_facets fuel results {[ date_facet := params ]} = None.
Proof.
  intros Hl Hg.
  assert (E : date_facet_list fuel results date_facet params = None).
  { unfold date_facet_list. rewrite date_ranges_stuck; [reflexivity| |exact Hl].
    destruct Hg as [->|(-> & -> & Hv)]; [reflexivity|].
    cbn [next_range default]. unfold DT.replace_year, DT.replace_month_year.
    rewrite Z.add_0_r. unfold DT.checked.
    destruct (start_date params); cbn in Hv |- *. rewrite Hv. reflexivity. }
  split; [exact E|].
  unfold _do_date_facets. rewrite map_to_list_singleton.
  cbn [date_facets_from]. rewrite E. reflexivity.
Qed.

Lemma date_facets_without_a_step_witness :
  DT.ltb (start_date without_unit) (end_date without_unit) = true
  /\ date_facet_list 5 [] "pub_date" without_unit = None.
Proof.
  split; [reflexivity|].
  exact (proj1 (date_facets_without_a_step 5 [] "pub_date" without_unit
                  eq_refl (or_introl eq_refl))).
Defined.

Lemma total_cons {K : Type} (entry : K * Z) (l : list (K * Z)) :
  total_count (entry :: l) = (snd entry + total_count l)%Z.
Proof. reflexivity. Qed.

Lemma total_insert (l : list (string * Z)) n label count :
  l !! n = Some (label, count) ->
  total_count (<[n := (label, (count + 1)%Z)]> l) = (total_count l + 1)%Z.
Proof.
  revert n. induction l as [|[k c] l IH]; intros [|n] E; try discriminate E.
  - injection E as -> ->.
    change (<[0 := (label, (count + 1)%Z)]> ((label, count) :: l))
      with ((label, (count + 1)%Z) :: l).
    rewrite !total_cons. cbn [snd]. lia.
  - cbn in E. apply IH in E.
    change (<[S n := (label, (count + 1)%Z)]> ((k, c) :: l))
      with ((k, c) :: <[n := (label, (count + 1)%Z)]> l).
    rewrite !total_cons, E. lia.
Qed.

Lemma labels_insert (l : list (string * Z)) n label count :
  l !! n = Some (label, count) ->
  (<[n := (label, (count + 1)%Z)]> l).*1 = l.*1.
Proof.
  intros E. rewrite list_fmap_insert. apply list_insert_id.
  rewrite list_lookup_fmap, E. reflexivity.
Qed.

Lemma counts_insert (l : list (string * Z)) n label count :
  l !! n = Some (label, count) ->
  Forall2 (fun before after => (snd before <= snd after)%Z) l
          (<[n := (label, (count + 1)%Z)]> l).
Proof.
  revert n. induction l as [|[k c] l IH]; intros [|n] E; try discriminate E.
  - injection E as -> ->. constructor; [cbn; lia|].
    apply Forall2_same_length_lookup_2; [reflexivity|].
    intros i x y Hx Hy. rewrite Hx in Hy. injection Hy as ->. lia.
  - cbn in E. constructor; [cbn; lia | apply IH, E].
Qed.

Lemma tally_step date_facet l result l' :
  tally date_facet l result = Val l' ->
  l'.*1 = l.*1
  /\ (total_count l <= total_count l' <= total_count l + 1)%Z
  /\ Forall2 (fun before after => (snd before <= snd after)%Z) l l'.
Proof.
  unfold tally. intros E.
  assert (Hsame : l.*1 = l.*1
                  /\ (total_count l <= total_count l <= total_count l + 1)%Z
                  /\ Forall2 (fun before after => (snd before <= snd after)%Z) l l).
  { split; [reflexivity|]. split; [lia|].
    apply Forall2_same_length_lookup_2; [reflexivity|].
    intros i x y Hx Hy. rewrite Hx in Hy. injection Hy as ->. lia. }
  destruct (getattr result date_facet) as [a|e]; [|discriminate E].
  cbn [mbind res_bind] in E.
  destruct (truthy a); [|injection E as <-; exact Hsame].
  destruct (as_datetime a) as [d|e]; [|discriminate E].
  cbn [mbind res_bind] in E.
  destruct (first_before d l 0) as [[n|]|e]; cbn [mbind res_bind] in E;
    [| injection E as <-; exact Hsame | discriminate E].
  destruct (l !! n) as [[label count]|] eqn:En; [|discriminate E].
  injection E as <-.
  split; [apply (labels_insert _ _ _ _ En)|].
  split; [rewrite (total_insert _ _ _ _ En); lia|].
  apply (counts_insert _ _ _ _ En).
Qed.

Lemma tally_loop date_facet results l l' :
  for_each (tally date_facet) results l = Val l' ->
  l'.*1 = l.*1
  /\ (total_count l <= total_count l' <= total_count l + Z.of_nat (length results))%Z
  /\ Forall2 (fun before after => (snd before <= snd after)%Z) l l'.
Proof.
  revert l. induction results as [|result results IH]; intros l E.
  - injection E as <-. split; [reflexivity|]. split; [cbn [length]; lia|].
    apply Forall2_same_length_lookup_2; [reflexivity|].
    intros i x y Hx Hy. rewrite Hx in Hy. injection Hy as ->. lia.
  - cbn [for_each] in E.
    destruct (tally date_facet l result) as [l1|e] eqn:E1; [|discriminate E].
    cbn [mbind res_bind] in E.
    apply tally_step in E1 as (Hl1 & Ht1 & Hc1).
    apply IH in E as (Hl & Ht & Hc).
    split; [congruence|]. split; [cbn [length]; lia|].
    eapply Forall2_trans; [|exact Hc1|exact Hc].
    intros x y z Hxy Hyz. cbn in *. lia.
Qed.

Lemma date_ranges_zero fuel gap_type gap_value date_range end_date acc l :
  date_ranges fuel gap_type gap_value date_range end_date acc = Some (Val l) ->
  Forall (fun e => snd e = 0%Z) acc -> Forall (fun e => snd e = 0%Z) l.
Proof.
  revert date_range acc. induction fuel as [|fuel IH]; intros date_range acc E Hacc;
    [discriminate E|].
  cbn [date_ranges] in E. destruct (DT.ltb date_range end_date).
  - destruct (next_range gap_type gap_value date_range) as [d|e];
      [|discriminate E].
    eapply IH; [exact E|]. apply Forall_app. split; [exact Hacc|].
    constructor; [reflexivity|constructor].
  - injection E as <-. exact Hacc.
Qed.

Lemma insert_desc_zero x l :
  snd x = 0%Z -> Forall (fun e => snd e = 0%Z) l ->
  Forall (fun e => snd e = 0%Z) (insert_desc x l).
Proof.
  intros Hx. induction 1 as [|y l Hy Hl IH]; cbn [insert_desc].
  - constructor; [exact Hx|constructor].
  - destruct (String.ltb (fst y) (fst x)); repeat constructor; assumption.
Qed.

Lemma sorted_desc_zero l :
  Forall (fun e => snd e = 0%Z) l -> Forall (fun e => snd e = 0%Z) (sorted_desc l).
Proof.
  unfold sorted_desc. intros Hl.
  assert (Hacc : Forall (fun e : string * Z => snd e = 0%Z) []) by constructor.
  revert Hacc. generalize (@nil (string * Z)) as acc.
  induction Hl as [|x l Hx Hl IH]; intros acc Hacc; [exact Hacc|].
  cbn [fold_left]. apply IH, insert_desc_zero; assumption.
Qed.

Lemma total_zero (l : list (string * Z)) :
  Forall (fun e => snd e = 0%Z) l -> total_count l = 0%Z.
Proof.
  induction 1 as [|x l Hx Hl IH]; [reflexivity|].
  rewrite total_cons. lia.
Qed.

(** X14: the results change nothing but the counts of a date facet list:
    its labels, and their order, are those of the list for no result,
    whose counts are all zero; no count is negative, and the counts add up
    to at most the number of the results, each result being counted once
    at most. *)
Theorem date_facets_count_each_result_once (fuel : nat)
  (results : list SearchResult) (date_facet : string) (params : facet_params)
  (facet_list : list (string * Z)) :
  date_facet_list fuel results date_facet params = Some (Val facet_list) ->
  exists empty_list,
    date_facet_list fuel [] date_facet params = Some (Val empty_list)
    /\ facet_list.*1 = empty_list.*1
    /\ Forall (fun entry => snd entry = 0%Z) empty_list
    /\ Forall (fun entry => (0 <= snd entry)%Z) facet_list
    /\ (total_count facet_list <= Z.of_nat (length results))%Z.
Proof.
  unfold date_facet_list. intros E.
  destruct (date_ranges fuel _ _ _ _ []) as [[l|e]|] eqn:Er; try discriminate E.
  injection E as E. exists (sorted_desc l). cbn [for_each].
  apply date_ranges_zero in Er; [|constructor].
  apply sorted_desc_zero in Er.
  apply tally_loop in E as (Hl & Ht & Hc).
  split; [reflexivity|]. split; [exact Hl|]. split; [exact Er|].
  rewrite (total_zero _ Er) in Ht. split; [|lia].
  apply Forall_lookup. intros i [label count] Hi.
  destruct (Forall2_lookup_r _ _ _ _ _ Hc Hi) as ([l0 c0] & H0 & Hle).
  rewrite Forall_lookup in Er. specialize (Er _ _ H0). cbn in *. lia.
Qed.

Lemma date_facets_count_each_result_once_witness :
  date_facet_list 3 [dated_result (VDate (Date 2009 2 15))] "pub_date"
    first_months
  = Some (Val [("2009-02-01T00:00:00", 1%Z); ("2009-01-01T00:00:00", 0%Z)])
  /\ (total_count [("2009-02-01T00:00:00", 1%Z); ("2009-01-01T00:00:00", 0%Z)]
      <= 1)%Z.
Proof.
  assert (E : date_facet_list 3 [dated_result (VDate (Date 2009 2 15))]
                "pub_date" first_months
              = Some (Val [("2009-02-01T00:00:00", 1%Z);
                           ("2009-01-01T00:00:00", 0%Z)]))
    by (vm_compute; reflexivity).
  split; [exact E|].
  destruct (date_facets_count_each_result_once _ _ _ _ _ E)
    as (empty_list & _ & _ & _ & _ & Ht).
  exact Ht.
Defined.

(** ** The range token *)

Lemma string_cons_append c s t : String c s +:+ t = String c (s +:+ t).
Proof. reflexivity. Qed.

Lemma string_length_append s t :
  String.length (s +:+ t) = String.length s + String.length t.
Proof.
  induction s as [|c s IH]; [reflexivity|].
  rewrite string_cons_append. cbn [String.length]. rewrite IH. reflexivity.
Qed.

Lemma find_from_append c f rest i :
  Py.contains c f = false ->
  Py.find_from c (f +:+ String c rest) i = (i + Z.of_nat (String.length f))%Z.
Proof.
  revert i. induction f as [|a f IH]; intros i Hc.
  - change (EmptyString +:+ String c rest) with (String c rest).
    cbn [Py.find_from String.length]. rewrite Ascii.eqb_refl. lia.
  - rewrite string_cons_append. cbn [Py.contains] in Hc.
    apply orb_false_iff in Hc as [Ha Hc].
    cbn [Py.find_from String.length]. rewrite Ha, IH by exact Hc. lia.
Qed.

Lemma find_from_missing c s i :
  Py.contains c s = false -> Py.find_from c s i = (-1)%Z.
Proof.
  revert i. induction s as [|a s IH]; intros i Hc; [reflexivity|].
  cbn [Py.contains] in Hc. apply orb_false_iff in Hc as [Ha Hc].
  cbn [Py.find_from]. rewrite Ha. apply IH, Hc.
Qed.

Lemma substring_prefix s t :
  String.substring 0 (String.length s) (s +:+ t) = s.
Proof.
  induction s as [|c s IH].
  - cbn [String.length]. change (EmptyString +:+ t) with t. destruct t; reflexivity.
  - rewrite string_cons_append. cbn [String.length String.substring].
    rewrite IH. reflexivity.
Qed.

Lemma substring_suffix s t :
  String.substring (String.length s) (String.length t) (s +:+ t) = t.
Proof.
  induction s as [|c s IH].
  - change (EmptyString +:+ t) with t. cbn [String.length].
    induction t as [|a t IHt]; [reflexivity|].
    cbn [String.length String.substring]. rewrite IHt. reflexivity.
  - rewrite string_cons_append. cbn [String.length String.substring]. exact IH.
Qed.

Lemma slice_prefix s t :
  Py.slice (s +:+ t) 0 (Z.of_nat (String.length s)) = s.
Proof.
  unfold Py.slice. rewrite string_length_append.
  rewrite !clip_in_range by lia. rewrite Nat2Z.id. change (Z.to_nat 0) with 0.
  rewrite Nat.sub_0_r. apply substring_prefix.
Qed.

Lemma slice_suffix s t :
  Py.slice (s +:+ t) (Z.of_nat (String.length s))
    (Z.of_nat (String.length (s +:+ t))) = t.
Proof.
  unfold Py.slice. rewrite string_length_append.
  rewrite !clip_in_range by lia. rewrite !Nat2Z.id.
  replace (String.length s + String.length t - String.length s)
    with (String.length t) by lia.
  apply substring_suffix.
Qed.

Section RangeTokenFacts.

Context `{Host}.

Lemma range_call_split schema f lo hi :
  Py.contains ":"%char f = false ->
  XHValueRangeProcessor_call schema (f +:+ ":" +:+ lo) hi
  = range_lookup schema f lo hi.
Proof.
  intros Hf. unfold XHValueRangeProcessor_call, Py.find.
  change (f +:+ ":" +:+ lo) with (f +:+ String ":" lo).
  rewrite find_from_append by exact Hf. rewrite Z.add_0_l.
  rewrite slice_prefix.
  replace (f +:+ String ":" lo) with ((f +:+ ":") +:+ lo) at 1 2.
  2: { clear. induction f as [|c f IH]; [reflexivity|].
       rewrite !string_cons_append, IH. reflexivity. }
  replace (Z.of_nat (String.length f) + 1)%Z
    with (Z.of_nat (String.length (f +:+ ":"))).
  2: { rewrite string_length_append. cbn [String.length]. lia. }
  rewrite slice_suffix. reflexivity.
Qed.

Lemma range_lookup_missing schema f lo hi :
  f ∉ map field_name schema -> range_lookup schema f lo hi = Val None.
Proof.
  induction schema as [|fd rest IH]; intros Hn; [reflexivity|].
  cbn [map] in Hn. apply not_elem_of_cons in Hn as [Hne Hn].
  cbn [range_lookup].
  destruct (String.eqb_spec (field_name fd) f) as [E|_]; [congruence|].
  apply IH, Hn.
Qed.

Lemma range_lookup_first before fd after lo hi :
  field_name fd ∉ map field_name before ->
  range_lookup (before ++ fd :: after) (field_name fd) lo hi
  = (r ← range_of fd lo hi; Val (Some r)).
Proof.
  induction before as [|x before IH]; intros Hn.
  - cbn [app range_lookup]. rewrite String.eqb_refl. reflexivity.
  - cbn [map] in Hn. apply not_elem_of_cons in Hn as [Hne Hn].
    cbn [app range_lookup].
    destruct (String.eqb_spec (field_name x) (field_name fd)) as [E|_];
      [congruence|].
    apply IH, Hn.
Qed.

(** X15: [XHValueRangeProcessor.__call__] splits [begin] at its first
    colon into the field name and the low bound: for a name that is not in
    the schema it returns [None] and raises nothing; otherwise the range is
    that of the first entry of the schema with this name, for the low bound
    after the colon. *)
Theorem range_token_is_split_at_the_first_colon (schema : list field_dict)
  (f lo hi : string) :
  Py.contains ":"%char f = false ->
  (f ∉ map field_name schema ->
   XHValueRangeProcessor_call schema (f +:+ ":" +:+ lo) hi = Val None)
  /\ (forall before fd after,
        schema = (before ++ fd :: after)%list ->
        field_name fd = f ->
        f ∉ map field_name before ->
        XHValueRangeProcessor_call schema (f +:+ ":" +:+ lo) hi
        = (r ← range_of fd lo hi; Val (Some r))).
Proof.
  intros Hf. rewrite (range_call_split schema f lo hi Hf). split.
  - apply range_lookup_missing.
  - intros before fd after -> <- Hn. apply range_lookup_first, Hn.
Qed.

End RangeTokenFacts.

Lemma range_token_is_split_at_the_first_colon_witness :
  Py.contains ":"%char "name" = false
  /\ @XHValueRangeProcessor_call example_host range_schema "name:b" "*"
     = Val (Some (0, "b", repeat_char "z" 100)).
Proof.
  split; [reflexivity|].
  etransitivity.
  - exact (proj2 (@range_token_is_split_at_the_first_colon example_host
                    range_schema "name" "b" "*" eq_refl)
             [] _ _ eq_refl eq_refl (not_elem_of_nil _)).
  - reflexivity.
Defined.


Lemma value_column_lookup schema n k name :
  map column schema = seq n (length schema) ->
  NoDup (map field_name schema) ->
  map field_name schema !! k = Some name ->
  _value_column schema name = n + k.
Proof.
  revert n k. induction schema as [|fd rest IH]; intros n k Hc Hnd Hk;
    [discriminate Hk|].
  cbn [map length seq] in Hc. injection Hc as Hc0 Hc.
  cbn [map] in Hnd. apply NoDup_cons in Hnd as [Hfd Hnd].
  cbn [_value_column]. destruct k as [|k].
  - cbn in Hk. injection Hk as <-. rewrite String.eqb_refl. lia.
  - cbn in Hk.
    destruct (String.eqb_spec (field_name fd) name) as [E|_].
    + exfalso. apply Hfd. rewrite E. eapply list_elem_of_lookup_2, Hk.
    + rewrite (IH (S n) k Hc Hnd Hk). lia.
Qed.

(** X16: under the schema [build_schema] makes of fields with distinct
    names, [_value_column] of the [k]-th indexed field is [k], and
    [_sorter] sorts by this column, reversed when the name comes with a
    dash. *)
Theorem value_column_of_an_indexed_field (fields : list (string * field_class))
  (k : nat) (name : string) :
  NoDup (map fst fields) ->
  map fst (List.filter (fun p => indexed (snd p)) fields) !! k = Some name ->
  _value_column (snd (build_schema fields)) name = k
  /\ _sorter (snd (build_schema fields)) ["-" +:+ name] = [(k, true)]
  /\ (Py.startswith "-" name = false ->
      _sorter (snd (build_schema fields)) [name] = [(k, false)]).
Proof.
  intros Hnd Hk.
  destruct (build_schema_from_columns fields EmptyString 0) as [Hc Hn].
  fold (build_schema fields) in Hc, Hn.
  assert (Hcol : _value_column (snd (build_schema fields)) name = k).
  { rewrite (value_column_lookup _ 0 k name Hc); [reflexivity| |].
    - rewrite Hn. clear - Hnd. induction fields as [|[x fc] fields IH];
        [constructor|].
      cbn [map fst] in Hnd. apply NoDup_cons in Hnd as [Hx Hnd].
      cbn [List.filter snd]. destruct (indexed fc); [|apply IH, Hnd].
      cbn [map fst]. apply NoDup_cons. split; [|apply IH, Hnd].
      intros Hin. apply Hx. apply list_elem_of_fmap in Hin as ([y fy] & -> & Hy).
      apply list_elem_of_In, filter_In in Hy as [Hy _].
      apply list_elem_of_fmap. exists (y, fy). split; [reflexivity|].
      apply list_elem_of_In, Hy.
    - rewrite Hn. exact Hk. }
  split; [exact Hcol|]. split.
  - unfold _sorter. cbn [map].
    change (Py.startswith "-" ("-" +:+ name)) with (Py.startswith "" name).
    replace (Py.startswith "" name) with true by (destruct name; reflexivity).
    rewrite slice_after_dash, Hcol. reflexivity.
  - intros Hd. unfold _sorter. cbn [map]. rewrite Hd, Hcol. reflexivity.
Qed.

Lemma value_column_of_an_indexed_field_witness :
  NoDup (map fst example_fields)
  /\ _value_column (snd (build_schema example_fields)) "pub_date" = 1
  /\ _sorter (snd (build_schema example_fields)) ["-pub_date"] = [(1, true)].
Proof.
  assert (Hnd : NoDup (map fst example_fields))
    by (apply (bool_decide_unpack _); vm_compute; exact I).
  split; [exact Hnd|].
  destruct (value_column_of_an_indexed_field example_fields 1 "pub_date" Hnd
              eq_refl) as (Hc & Hs & _).
  split; [exact Hc | exact Hs].
Defined.

(** ** What [build_query] raises, and a chain of filters *)

Section CompilerErrors.

Context `{Host}.

Lemma chunk_strings_of_text chunks :
  all_text chunks -> exists strings, chunk_strings chunks = Val strings.
Proof.
  induction 1 as [|[s|v] chunks Hc Hcs [strings IH]]; [eexists; reflexivity| |].
  - cbn [chunk_strings]. rewrite IH. eexists. reflexivity.
  - contradiction.
Qed.

Lemma chunk_strings_raises chunks e :
  chunk_strings chunks = Exc e -> e = TypeError.
Proof.
  induction chunks as [|[s|v] chunks IH]; cbn [chunk_strings]; intros E.
  - discriminate E.
  - destruct (chunk_strings chunks); [discriminate E|].
    cbn in E. injection E as <-. apply IH. reflexivity.
  - injection E as <-. reflexivity.
Qed.

Lemma all_text_app a b : all_text a -> all_text b -> all_text (a ++ b).
Proof. intros Ha Hb. apply Forall_app. split; assumption. Qed.

Lemma connectors_text (the_filter : QueryFilter) :
  all_text ((if is_and the_filter then [CStr "AND"] else [])
            ++ (if is_or the_filter then [CStr "OR"] else [])
            ++ (if is_not the_filter && (field the_filter =? "content")
                then [CStr "NOT"] else [])).
Proof.
  destruct (is_and the_filter), (is_or the_filter),
    (is_not the_filter && (field the_filter =? "content"));
    repeat constructor.
Qed.

(** The chunks of a filter on a scalar. *)
Lemma filter_chunks_of_scalar the_filter v :
  value the_filter = Scalar v ->
  exists chunks,
    filter_chunks the_filter = Val chunks /\ all_text chunks /\ chunks <> [].
Proof.
  intros Hv. unfold filter_chunks. rewrite Hv.
  cbn [marshal_filter_value has_space].
  pose proof (connectors_text the_filter) as Hc.
  set (connectors := (_ ++ _ ++ _)%list) in *. clearbody connectors.
  assert (Hq : exists s,
            (if Py.contains " " (_marshal_value v)
             then quote (QStr (_marshal_value v))
             else Val (QStr (_marshal_value v))) = Val (QStr s)).
  { destruct (Py.contains " " (_marshal_value v)); cbn [quote]; eauto. }
  destruct Hq as [s ->]. cbn [mbind res_bind].
  destruct (field the_filter =? "content").
  - eexists. split; [reflexivity|]. split.
    + apply all_text_app; [exact Hc | repeat constructor].
    + intros E. apply app_eq_nil in E as [_ E]. discriminate E.
  - assert (Hneg : all_text (if is_not the_filter then [CStr "AND"] else []))
      by (destruct (is_not the_filter); repeat constructor).
    destruct (filter_type the_filter), (is_not the_filter);
      cbn [filter_types mbind res_bind qvalue_str];
      (eexists; split; [reflexivity|]; split;
       [ repeat apply all_text_app; try exact Hc; repeat constructor
       | intros E; apply app_eq_nil in E as [_ E];
         apply app_eq_nil in E as [_ E]; discriminate E ]).
Qed.

Lemma filter_chunks_raises the_filter e :
  filter_chunks the_filter = Exc e ->
  e = TypeError /\ is_sequence (value the_filter) = true.
Proof.
  intros E. destruct (value the_filter) as [v|items|items] eqn:Hv.
  - destruct (filter_chunks_of_scalar the_filter v Hv) as (chunks & Ec & _).
    rewrite Ec in E. discriminate E.
  - exfalso. revert E. unfold filter_chunks. rewrite Hv.
    cbn [marshal_filter_value has_space].
    destruct (existsb is_space items); cbn [quote mbind res_bind];
      destruct (field the_filter =? "content"); try discriminate;
      destruct (filter_type the_filter), (is_not the_filter); discriminate.
  - split; [|reflexivity]. revert E. unfold filter_chunks. rewrite Hv.
    cbn [marshal_filter_value has_space].
    destruct (existsb is_space items).
    + destruct items as [|item [|item' items]]; cbn [quote mbind res_bind];
        try (intros E; injection E as <-; reflexivity).
      destruct (field the_filter =? "content"); try discriminate;
        destruct (filter_type the_filter), (is_not the_filter); discriminate.
    + cbn [mbind res_bind].
      destruct (field the_filter =? "content"); try discriminate;
        destruct (filter_type the_filter), (is_not the_filter); discriminate.
Qed.

Lemma filter_loop_raises filters acc e :
  for_each (fun chunks the_filter =>
              new ← filter_chunks the_filter; Val (chunks ++ new)%list)
           filters acc = Exc e ->
  e = TypeError
  /\ exists the_filter,
       the_filter ∈ filters /\ is_sequence (value the_filter) = true.
Proof.
  revert acc. induction filters as [|f filters IH]; intros acc E;
    [discriminate E|].
  cbn [for_each] in E.
  destruct (filter_chunks f) as [new|e'] eqn:Ef.
  - cbn [mbind res_bind] in E. apply IH in E as (-> & g & Hg & Hs).
    split; [reflexivity|]. exists g. split; [right; exact Hg | exact Hs].
  - cbn in E. injection E as <-. apply filter_chunks_raises in Ef as [-> Hs].
    split; [reflexivity|]. exists f. split; [left | exact Hs].
Qed.

Lemma filter_chunks_nonempty the_filter chunks :
  filter_chunks the_filter = Val chunks -> chunks <> [].
Proof.
  unfold filter_chunks.
  set (connectors := (_ ++ _ ++ _)%list). clearbody connectors.
  destruct (if has_space _ then _ else _) as [value|e]; [|discriminate].
  cbn [mbind res_bind].
  destruct (field the_filter =? "content").
  - intros E. injection E as <-. intros E.
    apply app_eq_nil in E as [_ E]. discriminate E.
  - destruct (filter_type the_filter), (is_not the_filter);
      cbn [filter_types mbind res_bind];
      intros E; injection E as <-; intros E;
      apply app_eq_nil in E as [_ E]; try (apply app_eq_nil in E as [_ E]);
      discriminate E.
Qed.

Lemma filter_loop_nonempty filters acc chunks :
  for_each (fun chunks the_filter =>
              new ← filter_chunks the_filter; Val (chunks ++ new)%list)
           filters acc = Val chunks ->
  acc <> [] \/ filters <> [] -> chunks <> [].
Proof.
  revert acc. induction filters as [|f filters IH]; intros acc E Hne.
  - injection E as <-. destruct Hne as [Hne|Hne]; [exact Hne | congruence].
  - cbn [for_each] in E.
    destruct (filter_chunks f) as [new|e] eqn:Ef; [|discriminate E].
    cbn [mbind res_bind] in E. apply (IH _ E). left.
    apply filter_chunks_nonempty in Ef. intros Ea.
    apply app_eq_nil in Ea as [_ Ea]. contradiction.
Qed.

Lemma filter_loop_of_scalars filters acc :
  Forall (fun f => is_sequence (value f) = false) filters ->
  all_text acc ->
  exists chunks,
    for_each (fun chunks the_filter =>
                new ← filter_chunks the_filter; Val (chunks ++ new)%list)
             filters acc = Val chunks
    /\ all_text chunks.
Proof.
  intros Hf. revert acc. induction Hf as [|f filters Hs Hf IH]; intros acc Hacc.
  - exists acc. split; [reflexivity | exact Hacc].
  - destruct (value f) as [v|items|items] eqn:Hv; try discriminate Hs.
    destruct (filter_chunks_of_scalar f v Hv) as (new & En & Hn & Hne).
    cbn [for_each]. rewrite En. cbn [mbind res_bind].
    apply IH, all_text_app; assumption.
Qed.

Lemma all_text_tail first rest : all_text (first :: rest) -> all_text rest.
Proof. intros Ha. apply Forall_inv_tail in Ha. exact Ha. Qed.


End CompilerErrors.

Section CompilerChain.

Context `{Host}.

Lemma joined_filter_chunks with_or f v :
  f <> "content" -> Py.contains " "%char v = false ->
  filter_chunks (joined_filter with_or f v)
  = Val [CStr (connector_text with_or); CStr (f +:+ ":" +:+ v)].
Proof.
  intros Hf Hv. unfold filter_chunks, joined_filter.
  cbn [field filter_type value is_and is_or is_not marshal_filter_value
       _marshal_value has_space].
  rewrite (not_content_eqb f Hf), Hv. destruct with_or; reflexivity.
Qed.

Lemma chain_loop chain acc :
  Forall (fun '(_, f, v) => f <> "content" /\ Py.contains " "%char v = false)
    chain ->
  for_each (fun chunks the_filter =>
              new ← filter_chunks the_filter; Val (chunks ++ new)%list)
           (chain_filters chain) acc
  = Val (acc ++ map CStr (chain_words chain))%list.
Proof.
  intros Hc. revert acc.
  induction Hc as [|[[with_or f] v] chain [Hf Hv] Hc IH]; intros acc.
  - cbn. rewrite app_nil_r. reflexivity.
  - cbn [chain_filters map for_each]. rewrite (joined_filter_chunks _ _ _ Hf Hv).
    cbn [mbind res_bind]. fold (chain_filters chain). rewrite IH.
    rewrite <- app_assoc. reflexivity.
Qed.

Lemma chunk_strings_text words : chunk_strings (map CStr words) = Val words.
Proof.
  induction words as [|w words IH]; [reflexivity|].
  cbn [map chunk_strings]. rewrite IH. reflexivity.
Qed.


End CompilerChain.



(** ** [update], [remove] *)

Lemma lowest_docid_elem ids i : lowest_docid ids = Some i -> i ∈ ids.
Proof.
  destruct ids as [|j rest]; [discriminate|]. cbn [lowest_docid].
  intros E. injection E as <-.
  induction rest as [|k rest IH]; [left|].
  cbn [foldr]. destruct (Pos.min_spec k (foldr Pos.min j rest)) as [[_ ->]|[_ ->]].
  - right. left.
  - apply elem_of_cons in IH as [->|IH]; [left|]. right. right. exact IH.
Qed.

Section ReplaceFacts.

Context `{Indexer}.

(** The id [replace_document] writes to is one no document without the
    term has. *)
Lemma replace_docid_free term database :
  filter (fun kv : positive * Document => term ∉ terms kv.2) (documents database)
  !! default (new_docid database)
       (lowest_docid
          (map_to_list (filter (fun kv : positive * Document => term ∈ terms kv.2)
                          (documents database))).*1)
  = None.
Proof.
  destruct (lowest_docid _) as [i|] eqn:E; cbn [default].
  - apply lowest_docid_elem, list_elem_of_fmap in E as ([j d] & -> & Hd).
    apply elem_of_map_to_list, map_lookup_filter_Some in Hd as [Hd Ht].
    apply map_lookup_filter_None. right. intros d' Hd' Hn.
    cbn in *. rewrite Hd in Hd'. injection Hd' as <-. contradiction.
  - apply map_lookup_filter_None. left. apply new_docid_fresh.
Qed.

Lemma replace_document_lookup term document database j d :
  term ∈ terms document ->
  documents (replace_document term document database) !! j = Some d
  <-> (d = document
       /\ j = default (new_docid database)
                (lowest_docid
                   (map_to_list
                      (filter (fun kv : positive * Document => term ∈ terms kv.2)
                         (documents database))).*1))
      \/ (documents database !! j = Some d /\ term ∉ terms d).
Proof.
  intros Ht. unfold replace_document. cbn [documents].
  pose proof (replace_docid_free term database) as Hfree.
  set (i := default _ _) in *. clearbody i.
  destruct (decide (i = j)) as [->|Hne].
  - rewrite lookup_insert_eq. split.
    + intros E. injection E as <-. left. split; reflexivity.
    + intros [[-> _]|[Hd Hn]]; [reflexivity|].
      exfalso. assert (Hx : filter (fun kv : positive * Document => term ∉ terms kv.2)
                   (documents database) !! j = Some d)
        by (apply map_lookup_filter_Some; split; assumption).
      rewrite Hfree in Hx. discriminate Hx.
  - rewrite lookup_insert_ne by exact Hne. rewrite map_lookup_filter_Some. cbn.
    split; [intros Hd; right; exact Hd|].
    intros [[_ ->]|Hd]; [contradiction | exact Hd].
Qed.

End ReplaceFacts.

Lemma identifier_starts_with_Q app module pk :
  Py.startswith "Q" (get_identifier app module pk) = true.
Proof.
  unfold get_identifier, Py.startswith, DOCUMENT_ID_TERM_PREFIX.
  change ("Q" +:+ app +:+ "." +:+ module +:+ "." +:+ Py.str_int pk)
    with (String "Q" (app +:+ "." +:+ module +:+ "." +:+ Py.str_int pk)).
  cbn [String.prefix]. destruct (ascii_dec "Q" "Q"); [|contradiction].
  destruct (app +:+ _); reflexivity.
Qed.

Lemma content_type_term_not_Q app module :
  Py.startswith "Q" (content_type_term app module) = false.
Proof. reflexivity. Qed.


Section UpdateFacts.

Context `{Host} `{Indexer}.

Variable site_fields : list (string * field_class).

Lemma field_prefix_starts_with_X name :
  Py.startswith DOCUMENT_CUSTOM_TERM_PREFIX
    (DOCUMENT_CUSTOM_TERM_PREFIX +:+ Py.upper name) = true.
Proof.
  unfold Py.startswith, DOCUMENT_CUSTOM_TERM_PREFIX.
  change ("X" +:+ Py.upper name) with (String "X" (Py.upper name)).
  cbn [String.prefix]. destruct (ascii_dec "X" "X"); [|contradiction].
  destruct (Py.upper name); reflexivity.
Qed.

Lemma index_fields_terms schema data ts vs ts' vs' t :
  index_fields schema data ts vs = Some (ts', vs') ->
  t ∈ ts' ->
  t ∈ ts
  \/ exists text prefix,
       (prefix = EmptyString
        \/ Py.startswith DOCUMENT_CUSTOM_TERM_PREFIX prefix = true)
       /\ t ∈ index_text text prefix.
Proof.
  revert ts vs. induction schema as [|fd schema IH]; intros ts vs E Ht.
  - injection E as <- <-. left. exact Ht.
  - cbn [index_fields] in E. destruct (data !! field_name fd) as [value|].
    + destruct (force_unicode value) as [text|]; [|discriminate E].
      cbn [mbind option_bind] in E.
      destruct (IH _ _ E Ht) as [Hin|Hg]; [|right; exact Hg].
      apply elem_of_union in Hin as [Hin|Hin].
      * apply elem_of_union in Hin as [Hin|Hin]; [left; exact Hin|].
        right. apply elem_of_list_to_set in Hin.
        exists text, EmptyString. split; [left; reflexivity | exact Hin].
      * right. apply elem_of_list_to_set in Hin.
        exists text, (DOCUMENT_CUSTOM_TERM_PREFIX +:+ Py.upper (field_name fd)).
        split; [right; apply field_prefix_starts_with_X | exact Hin].
    + apply (IH _ _ E Ht).
Qed.

(** What the document of an object holds. *)
Lemma document_for_holds schema p d :
  document_for schema p = Some d ->
  identifier_of (obj p) ∈ terms d
  /\ content_type_term (obj_app_label (obj p)) (obj_module_name (obj p)) ∈ terms d
  /\ data_app_label d = obj_app_label (obj p)
  /\ data_module_name d = obj_module_name (obj p)
  /\ data_pk d = obj_pk (obj p)
  /\ data_model_data d = model_data p
  /\ (forall t, t ∈ terms d ->
        t = identifier_of (obj p)
        \/ t = content_type_term (obj_app_label (obj p)) (obj_module_name (obj p))
        \/ exists text prefix,
             (prefix = EmptyString
              \/ Py.startswith DOCUMENT_CUSTOM_TERM_PREFIX prefix = true)
             /\ t ∈ index_text text prefix).
Proof.
  unfold document_for. intros E.
  destruct (index_fields schema (model_data p) ∅ ∅) as [[ts vs]|] eqn:Ei;
    [|discriminate E].
  cbn [mbind option_bind] in E. injection E as <-. cbn [terms data_app_label
    data_module_name data_pk data_model_data].
  split; [unfold identifier_of; set_solver|]. split; [set_solver|].
  do 4 (split; [reflexivity|]).
  intros t Ht. apply elem_of_union in Ht as [Ht|Ht].
  - apply elem_of_union in Ht as [Ht|Ht].
    + right. right.
      destruct (index_fields_terms _ _ _ _ _ _ t Ei Ht) as [Hin|Hg];
        [set_solver | exact Hg].
    + left. apply elem_of_singleton in Ht. exact Ht.
  - right. left. apply elem_of_singleton in Ht. exact Ht.
Qed.

(** The document of an object does not carry the identifier of another
    one, when the term generator makes no term that starts with [Q]. *)
Lemma document_for_other schema p d o :
  no_identifier_terms ->
  document_for schema p = Some d ->
  identifier_of o <> identifier_of (obj p) ->
  identifier_of o ∉ terms d.
Proof.
  intros Hg Ed Hne Hin.
  apply document_for_holds in Ed as (_ & _ & _ & _ & _ & _ & Ht).
  destruct (Ht _ Hin) as [E|[E|(text & prefix & Hpre & Hi)]].
  - contradiction.
  - pose proof (identifier_starts_with_Q (obj_app_label o) (obj_module_name o)
                  (obj_pk o)) as Hq.
    fold (identifier_of o) in Hq. rewrite E in Hq.
    rewrite content_type_term_not_Q in Hq. discriminate Hq.
  - apply (Hg _ _ _ Hpre) in Hi.
    pose proof (identifier_starts_with_Q (obj_app_label o) (obj_module_name o)
                  (obj_pk o)) as Hq.
    fold (identifier_of o) in Hq. unfold DOCUMENT_ID_TERM_PREFIX in Hi.
    congruence.
Qed.

Lemma update_from_spec objs database :
  no_identifier_terms ->
  NoDup (map (fun p => identifier_of (obj p)) objs) ->
  Forall (fun p => is_Some (document_for (schema database) p)) objs ->
  exists database',
    update_from objs database = (database', false)
    /\ schema database' = schema database
    /\ content_field_name database' = content_field_name database
    /\ (forall j d, documents database' !! j = Some d ->
          (exists p, p ∈ objs /\ document_for (schema database) p = Some d)
          \/ (documents database !! j = Some d
              /\ forall p, p ∈ objs -> identifier_of (obj p) ∉ terms d))
    /\ (forall p, p ∈ objs ->
          exists j d, document_for (schema database) p = Some d
                      /\ documents database' !! j = Some d)
    /\ (forall j d, documents database !! j = Some d ->
          (forall p, p ∈ objs -> identifier_of (obj p) ∉ terms d) ->
          documents database' !! j = Some d)
    /\ (forall p j j' d d', p ∈ objs ->
          documents database' !! j = Some d ->
          documents database' !! j' = Some d' ->
          identifier_of (obj p) ∈ terms d ->
          identifier_of (obj p) ∈ terms d' ->
          j = j').
Proof.
  intros Hg. revert database.
  induction objs as [|p rest IH]; intros database Hnd Hall.
  - exists database. split; [reflexivity|]. do 2 (split; [reflexivity|]).
    split; [|split; [|split]].
    + intros j d Hd. right. split; [exact Hd|]. intros p Hp.
      apply elem_of_nil in Hp. contradiction.
    + intros p Hp. apply elem_of_nil in Hp. contradiction.
    + intros j d Hd _. exact Hd.
    + intros p j j' d d' Hp. apply elem_of_nil in Hp. contradiction.
  - cbn [map] in Hnd. apply NoDup_cons in Hnd as [Hp Hnd].
    apply Forall_cons in Hall as [[dp Edp] Hall].
    cbn [update_from]. rewrite Edp. fold (identifier_of (obj p)).
    set (db1 := replace_document (identifier_of (obj p)) dp database).
    assert (Hs1 : schema db1 = schema database) by reflexivity.
    destruct (IH db1 Hnd) as (db' & Eu & Hs & Hc & P1 & P2 & P3 & P4);
      [rewrite Hs1; exact Hall|].
    rewrite Hs1 in P1, P2.
    pose proof (document_for_holds _ _ _ Edp) as (Hidp & _).
    assert (Hlook := fun j d =>
      replace_document_lookup (identifier_of (obj p)) dp database j d Hidp).
    fold db1 in Hlook.
    assert (Hrest_p : forall q, q ∈ rest -> identifier_of (obj q) ∉ terms dp).
    { intros q Hq. apply (document_for_other _ p dp (obj q) Hg Edp).
      intros E. apply Hp. rewrite <- E.
      apply list_elem_of_fmap. exists q. split; [reflexivity | exact Hq]. }
    assert (Hp_rest : forall q dq, q ∈ rest ->
              document_for (schema database) q = Some dq ->
              identifier_of (obj p) ∉ terms dq).
    { intros q dq Hq Edq. apply (document_for_other _ q dq (obj p) Hg Edq).
      intros E. apply Hp. rewrite E.
      apply list_elem_of_fmap. exists q. split; [reflexivity | exact Hq]. }
    exists db'. split; [exact Eu|]. split; [congruence|]. split; [exact Hc|].
    split; [|split; [|split]].
    + intros j d Hd. destruct (P1 j d Hd) as [(q & Hq & Eq)|[Hd1 Hn]].
      * left. exists q. split; [right; exact Hq | exact Eq].
      * apply Hlook in Hd1 as [[-> _]|[Hd0 Hnp]].
        -- left. exists p. split; [left | exact Edp].
        -- right. split; [exact Hd0|]. intros q Hq.
           apply elem_of_cons in Hq as [->|Hq]; [exact Hnp | apply Hn, Hq].
    + intros q Hq. apply elem_of_cons in Hq as [->|Hq].
      * eexists _, dp. split; [exact Edp|]. apply (P3 _ dp).
        -- apply Hlook. left. split; reflexivity.
        -- exact Hrest_p.
      * apply P2, Hq.
    + intros j d Hd Hn. apply P3.
      * apply Hlook. right. split; [exact Hd|]. apply Hn. left.
      * intros q Hq. apply Hn. right. exact Hq.
    + intros q j j' d d' Hq Hd Hd' Ht Ht'.
      apply elem_of_cons in Hq as [->|Hq]; [|apply (P4 q j j' d d' Hq); assumption].
      assert (Hone : forall k dk, documents db' !! k = Some dk ->
                identifier_of (obj p) ∈ terms dk ->
                k = default (new_docid database)
                      (lowest_docid
                         (map_to_list
                            (filter (fun kv : positive * Document =>
                                       identifier_of (obj p) ∈ terms kv.2)
                               (documents database))).*1)).
      { intros k dk Hk Hin. destruct (P1 k dk Hk) as [(q & Hq & Eq)|[Hk1 _]].
        - exfalso. apply (Hp_rest q dk Hq Eq). exact Hin.
        - apply Hlook in Hk1 as [[_ ->]|[_ Hn]]; [reflexivity | contradiction]. }
      rewrite (Hone j d Hd Ht), (Hone j' d' Hd' Ht'). reflexivity.
Qed.

Lemma database_writable_documents store :
  documents (_database_writable site_fields store) = documents_of store.
Proof.
  unfold _database_writable. destruct (build_schema site_fields).
  destruct store; reflexivity.
Qed.

Lemma database_writable_schema store :
  schema (_database_writable site_fields store) = snd (build_schema site_fields).
Proof. unfold _database_writable. destruct (build_schema site_fields). reflexivity. Qed.

Lemma force_unicode_decodable p f value :
  decodable p -> model_data p !! f = Some value -> is_Some (force_unicode value).
Proof.
  intros Hp Hv. destruct value as [|[]| |]; cbn [force_unicode]; eauto.
  rewrite (Hp f s Hv). eauto.
Qed.

Lemma index_fields_decodable schema p ts vs :
  decodable p -> is_Some (index_fields schema (model_data p) ts vs).
Proof.
  intros Hp. revert ts vs. induction schema as [|fd schema IH]; intros ts vs;
    [eauto|].
  cbn [index_fields]. destruct (model_data p !! field_name fd) as [value|] eqn:Ev;
    [|apply IH].
  destruct (force_unicode_decodable p _ value Hp Ev) as [text ->].
  cbn [mbind option_bind]. apply IH.
Qed.

Lemma document_for_decodable schema p :
  decodable p -> is_Some (document_for schema p).
Proof.
  intros Hp. unfold document_for.
  destruct (index_fields_decodable schema p ∅ ∅ Hp) as [[ts vs] ->].
  cbn [mbind option_bind]. eauto.
Qed.

(** X19: [update] is an insert-or-replace by identifier.  For objects of
    distinct identifiers whose texts can be decoded, and a term generator
    that makes no term starting like an identifier, [update] reports no
    failure, and afterwards each object has exactly one document that
    carries its identifier term; this document carries its content type
    term and holds its data; and the documents that carry none of the
    identifiers are those the store had. *)
Theorem update_writes_one_document_for_each_object (store : Store)
  (iterable : list Prepared) :
  no_identifier_terms ->
  NoDup (map (fun p => identifier_of (obj p)) iterable) ->
  Forall decodable iterable ->
  exists database,
    update site_fields store iterable = (database, false)
    /\ (forall p, p ∈ iterable ->
          exists j d,
            documents database !! j = Some d
            /\ identifier_of (obj p) ∈ terms d
            /\ content_type_term (obj_app_label (obj p)) (obj_module_name (obj p))
               ∈ terms d
            /\ data_app_label d = obj_app_label (obj p)
            /\ data_module_name d = obj_module_name (obj p)
            /\ data_pk d = obj_pk (obj p)
            /\ data_model_data d = model_data p
            /\ forall j' d',
                 documents database !! j' = Some d' ->
                 identifier_of (obj p) ∈ terms d' -> j' = j)
    /\ (forall j d,
          (forall p, p ∈ iterable -> identifier_of (obj p) ∉ terms d) ->
          documents database !! j = Some d <-> documents_of store !! j = Some d).
Proof.
  intros Hg Hnd Hdec. unfold update.
  destruct (update_from_spec iterable (_database_writable site_fields store)
              Hg Hnd) as (db' & Eu & _ & _ & P1 & P2 & P3 & P4).
  { eapply Forall_impl; [exact Hdec|]. intros p Hp.
    apply document_for_decodable, Hp. }
  rewrite database_writable_documents in P1, P3.
  exists db'. split; [exact Eu|]. split.
  - intros p Hp. destruct (P2 p Hp) as (j & d & Ed & Hd).
    pose proof (document_for_holds _ _ _ Ed) as (Hi & Hc & Ha & Hm & Hk & Hdata & _).
    exists j, d. do 7 (split; [assumption|]).
    intros j' d' Hd' Hin'. apply (P4 p j' j d' d Hp Hd' Hd Hin' Hi).
  - intros j d Hn. split.
    + intros Hd. destruct (P1 j d Hd) as [(p & Hp & Ed)|[Hd0 _]]; [|exact Hd0].
      exfalso. apply (Hn p Hp). apply (document_for_holds _ _ _ Ed).
    + intros Hd. apply (P3 j d Hd Hn).
Qed.

Lemma update_from_app before after database :
  update_from (before ++ after) database
  = (if snd (update_from before database) then update_from before database
     else update_from after (fst (update_from before database))).
Proof.
  revert database. induction before as [|p before IH]; intros database;
    [reflexivity|].
  cbn [app update_from]. destruct (document_for (schema database) p);
    [apply IH | reflexivity].
Qed.

Lemma update_from_decodable objs database :
  Forall decodable objs -> snd (update_from objs database) = false.
Proof.
  intros Hd. revert database. induction Hd as [|p objs Hp Hd IH]; intros database;
    [reflexivity|].
  cbn [update_from].
  destruct (document_for_decodable (schema database) p Hp) as [d ->]. apply IH.
Qed.

Lemma index_fields_undecodable schema data ts vs fd s :
  fd ∈ schema ->
  data !! field_name fd = Some (AVal (VText s)) ->
  decodes s = false ->
  index_fields schema data ts vs = None.
Proof.
  intros Hfd Hv Hs. revert ts vs.
  induction schema as [|x schema IH]; intros ts vs;
    [apply elem_of_nil in Hfd; contradiction|].
  cbn [index_fields]. apply elem_of_cons in Hfd as [->|Hfd].
  - rewrite Hv. cbn [force_unicode]. rewrite Hs. reflexivity.
  - destruct (data !! field_name x) as [value|]; [|apply IH, Hfd].
    destruct (force_unicode value); [|reflexivity].
    cbn [mbind option_bind]. apply IH, Hfd.
Qed.

(** X20: when the data of an object holds, under an indexed field, a text
    that cannot be decoded, [update] stops there without raising: it
    leaves the store as the objects before this one leave it, and neither
    this object nor any after it is written. *)
Theorem update_stops_at_a_text_it_cannot_decode (store : Store)
  (before after : list Prepared) (p : Prepared) (f s : string) :
  Forall decodable before ->
  f ∈ map fst (List.filter (fun field => indexed (snd field)) site_fields) ->
  model_data p !! f = Some (AVal (VText s)) ->
  decodes s = false ->
  update site_fields store (before ++ p :: after)
  = (fst (update site_fields store before), true).
Proof.
  intros Hb Hf Hv Hs. unfold update. rewrite update_from_app.
  rewrite (update_from_decodable before _ Hb).
  set (db1 := fst (update_from before _)).
  cbn [update_from].
  assert (Hschema : schema db1 = snd (build_schema site_fields)).
  { subst db1. rewrite <- (database_writable_schema store).
    generalize (_database_writable site_fields store) as db.
    clear. induction before as [|q before IH]; intros db; [reflexivity|].
    cbn [update_from]. destruct (document_for (schema db) q); [|reflexivity].
    rewrite IH. reflexivity. }
  destruct (build_schema_from_columns site_fields EmptyString 0) as [_ Hn].
  fold (build_schema site_fields) in Hn. rewrite <- Hn, <- Hschema in Hf.
  apply list_elem_of_fmap in Hf as (fd & -> & Hfd).
  unfold document_for.
  rewrite (index_fields_undecodable _ _ _ _ fd s Hfd Hv Hs). reflexivity.
Qed.

Lemma update_from_Forall (P : Document -> Prop) objs database :
  (forall p d, document_for (schema database) p = Some d -> P d) ->
  (forall i d, documents database !! i = Some d -> P d) ->
  forall i d, documents (fst (update_from objs database)) !! i = Some d -> P d.
Proof.
  intros Hnew. revert database Hnew.
  induction objs as [|p objs IH]; intros database Hnew Hold; [exact Hold|].
  cbn [update_from]. destruct (document_for (schema database) p) as [dp|] eqn:Edp;
    [|exact Hold].
  apply IH; [exact Hnew|].
  intros i d Hd.
  pose proof (document_for_holds _ _ _ Edp) as (Hidp & _).
  apply (replace_document_lookup _ dp database i d Hidp) in Hd
    as [[-> _]|[Hd _]]; [apply (Hnew p), Edp | apply (Hold i), Hd].
Qed.


Lemma index_fields_values schema data ts vs ts' vs' :
  index_fields schema data ts vs = Some (ts', vs') ->
  NoDup (map column schema) ->
  (forall fd value,
     fd ∈ schema -> data !! field_name fd = Some value ->
     vs' !! column fd = value_text value)
  /\ (forall c,
        (forall fd, fd ∈ schema -> column fd = c -> data !! field_name fd = None) ->
        vs' !! c = vs !! c).
Proof.
  revert ts vs. induction schema as [|x schema IH]; intros ts vs E Hnd.
  - injection E as <- <-. split; [|reflexivity].
    intros fd value Hfd. apply elem_of_nil in Hfd. contradiction.
  - cbn [map] in Hnd. apply NoDup_cons in Hnd as [Hx Hnd].
    cbn [index_fields] in E.
    assert (Hfree : forall fd, fd ∈ schema -> column fd <> column x).
    { intros fd Hfd Ec. apply Hx. rewrite <- Ec.
      apply list_elem_of_fmap. exists fd. split; [reflexivity | exact Hfd]. }
    destruct (data !! field_name x) as [value|] eqn:Ev.
    + destruct (force_unicode value) as [text|] eqn:Et; [|discriminate E].
      cbn [mbind option_bind] in E.
      destruct (IH _ _ E Hnd) as [Hin Hout]. split.
      * intros fd v Hfd Hv. apply elem_of_cons in Hfd as [->|Hfd];
          [|apply (Hin fd v Hfd Hv)].
        rewrite Hout.
        -- rewrite lookup_insert_eq. rewrite Ev in Hv. injection Hv as <-.
           unfold value_text. rewrite Et. reflexivity.
        -- intros fd Hfd Ec. exfalso. apply (Hfree fd Hfd Ec).
      * intros c Hc. rewrite Hout.
        -- apply lookup_insert_ne. intros Ec.
           specialize (Hc x ltac:(left) Ec). congruence.
        -- intros fd Hfd. apply Hc. right. exact Hfd.
    + destruct (IH _ _ E Hnd) as [Hin Hout]. split.
      * intros fd v Hfd Hv. apply elem_of_cons in Hfd as [->|Hfd];
          [congruence | apply (Hin fd v Hfd Hv)].
      * intros c Hc. apply Hout. intros fd Hfd. apply Hc. right. exact Hfd.
Qed.

Lemma indexed_names_NoDup (fields : list (string * field_class)) :
  NoDup (map fst fields) ->
  NoDup (map fst (List.filter (fun p => indexed (snd p)) fields)).
Proof.
  induction fields as [|[x fc] fields IH]; intros Hnd; [constructor|].
  cbn [map fst] in Hnd. apply NoDup_cons in Hnd as [Hx Hnd].
  cbn [List.filter snd]. destruct (indexed fc); [|apply IH, Hnd].
  cbn [map fst]. apply NoDup_cons. split; [|apply IH, Hnd].
  intros Hin. apply Hx. apply list_elem_of_fmap in Hin as ([y fy] & -> & Hy).
  apply list_elem_of_In, filter_In in Hy as [Hy _].
  apply list_elem_of_fmap. exists (y, fy). split; [reflexivity|].
  apply list_elem_of_In, Hy.
Qed.

(** The value slots of the document of an object, under the schema of
    the site. *)
Lemma document_for_values p d k f :
  NoDup (map fst site_fields) ->
  document_for (snd (build_schema site_fields)) p = Some d ->
  map fst (List.filter (fun field => indexed (snd field)) site_fields) !! k
  = Some f ->
  _value_column (snd (build_schema site_fields)) f = k
  /\ values d !! k = model_data p !! f ≫= value_text.
Proof.
  intros Hnd Ed Hk.
  destruct (build_schema_from_columns site_fields EmptyString 0) as [Hc Hn].
  fold (build_schema site_fields) in Hc, Hn.
  set (schema := snd (build_schema site_fields)) in *.
  assert (Hnames : NoDup (map field_name schema))
    by (rewrite Hn; apply indexed_names_NoDup, Hnd).
  assert (Hcol : _value_column schema f = k).
  { rewrite (value_column_lookup schema 0 k f Hc Hnames); [reflexivity|].
    rewrite Hn. exact Hk. }
  split; [exact Hcol|].
  rewrite <- Hn in Hk. apply list_lookup_fmap_Some in Hk as (fd & -> & Hfd).
  assert (Hcfd : column fd = k).
  { assert (Hx : map column schema !! k = Some (column fd))
      by (rewrite list_lookup_fmap, Hfd; reflexivity).
    rewrite Hc in Hx. apply lookup_seq in Hx as [Hx _]. exact Hx. }
  unfold document_for in Ed.
  destruct (index_fields schema (model_data p) ∅ ∅) as [[ts vs]|] eqn:Ei;
    [|discriminate Ed].
  cbn [mbind option_bind] in Ed. injection Ed as <-. cbn [values].
  assert (Hndc : NoDup (map column schema)) by (rewrite Hc; apply NoDup_seq).
  destruct (index_fields_values _ _ _ _ _ _ Ei Hndc) as [Hin Hout].
  destruct (model_data p !! field_name fd) as [value|] eqn:Ev; cbn [mbind option_bind].
  - rewrite <- Hcfd. apply Hin; [eapply list_elem_of_lookup_2, Hfd | exact Ev].
  - rewrite Hout; [apply lookup_empty|].
    intros fd' Hfd' Ec.
    assert (fd' = fd); [|congruence].
    apply list_elem_of_lookup in Hfd' as [k' Hk'].
    assert (Hx : map column schema !! k' = Some (column fd'))
      by (rewrite list_lookup_fmap, Hk'; reflexivity).
    rewrite Hc in Hx. apply lookup_seq in Hx as [Hx _]. cbn in Hx.
    assert (k' = k) by lia. subst k'. congruence.
Qed.

(** X22: the value slot [_sorter] reads for an indexed field is the one
    [update] fills for it: after [update] of an object, its document holds
    in the column of the [k]-th indexed field, which is [k], the marshalled
    value of that field, and nothing when the data has no such field. *)
Theorem update_fills_the_value_slots (store : Store) (p : Prepared)
  (k : nat) (f : string) :
  NoDup (map fst site_fields) ->
  decodable p ->
  map fst (List.filter (fun field => indexed (snd field)) site_fields) !! k
  = Some f ->
  exists database,
    update site_fields store [p] = (database, false)
    /\ _value_column (schema database) f = k
    /\ forall j d,
         documents database !! j = Some d ->
         identifier_of (obj p) ∈ terms d ->
         values d !! k = model_data p !! f ≫= value_text.
Proof.
  intros Hnd Hp Hk. unfold update. cbn [update_from].
  rewrite database_writable_schema.
  destruct (document_for_decodable (snd (build_schema site_fields)) p Hp)
    as [dp Edp].
  rewrite Edp. eexists. split; [reflexivity|].
  destruct (document_for_values p dp k f Hnd Edp Hk) as [Hcol Hval].
  cbn [schema replace_document]. rewrite database_writable_schema.
  split; [exact Hcol|].
  intros j d Hd Hin.
  pose proof (document_for_holds _ _ _ Edp) as (Hidp & _).
  apply (replace_document_lookup _ dp _ j d Hidp) in Hd as [[-> _]|[_ Hn]];
    [exact Hval | contradiction].
Qed.

Lemma filter_without_insert (term : string) (i : positive) (d : Document)
  (m : gmap positive Document) :
  term ∈ terms d ->
  filter (fun kv : positive * Document => term ∉ terms kv.2) m !! i = None ->
  filter (fun kv : positive * Document => term ∉ terms kv.2)
    (<[i := d]> (filter (fun kv : positive * Document => term ∉ terms kv.2) m))
  = filter (fun kv : positive * Document => term ∉ terms kv.2) m.
Proof.
  intros Ht Hi. apply map_eq. intros j. apply option_eq. intros x.
  rewrite !map_lookup_filter_Some. cbn [snd].
  destruct (decide (i = j)) as [->|Hne].
  - rewrite lookup_insert_eq. split.
    + intros [E Hn]. injection E as <-. contradiction.
    + intros [Hx Hn]. exfalso.
      assert (Hs : filter (fun kv : positive * Document => term ∉ terms kv.2) m !! j
                   = Some x)
        by (apply map_lookup_filter_Some; split; assumption).
      congruence.
  - rewrite lookup_insert_ne by exact Hne. rewrite map_lookup_filter_Some. cbn [snd].
    tauto.
Qed.

Lemma filter_with_insert (term : string) (i : positive) (d : Document)
  (m : gmap positive Document) :
  term ∈ terms d ->
  filter (fun kv : positive * Document => term ∈ terms kv.2)
    (<[i := d]> (filter (fun kv : positive * Document => term ∉ terms kv.2) m))
  = {[ i := d ]}.
Proof.
  intros Ht. apply map_eq. intros j. apply option_eq. intros x.
  rewrite map_lookup_filter_Some, lookup_singleton_Some. cbn [snd].
  destruct (decide (i = j)) as [->|Hne].
  - rewrite lookup_insert_eq. split.
    + intros [E _]. injection E as <-. split; reflexivity.
    + intros [_ <-]. split; [reflexivity | exact Ht].
  - rewrite lookup_insert_ne by exact Hne. rewrite map_lookup_filter_Some. cbn [snd].
    split; [intros [[_ Hn] Hy]; contradiction | intros [E _]; contradiction].
Qed.

(** X23: updating the store with an object a second time changes
    nothing, and [remove] of the object after its [update] leaves the
    documents of the store that do not carry its identifier, which is what
    [remove] leaves without the [update]. *)
Theorem update_again_and_remove (store : Store) (p : Prepared) :
  decodable p ->
  exists database,
    update site_fields store [p] = (database, false)
    /\ update site_fields (Some database) [p] = (database, false)
    /\ documents (remove site_fields (Some database) (obj p))
       = filter (fun kv => identifier_of (obj p) ∉ terms kv.2) (documents_of store)
    /\ documents (remove site_fields (Some database) (obj p))
       = documents (remove site_fields store (obj p)).
Proof.
  intros Hp. unfold update, remove. cbn [update_from].
  rewrite !database_writable_schema.
  destruct (document_for_decodable (snd (build_schema site_fields)) p Hp)
    as [dp Edp].
  rewrite Edp. fold (identifier_of (obj p)).
  pose proof (document_for_holds _ _ _ Edp) as (Hidp & _).
  set (db0 := _database_writable site_fields store).
  set (db1 := replace_document (identifier_of (obj p)) dp db0).
  pose proof (replace_docid_free (identifier_of (obj p)) db0) as Hfree.
  assert (Hdocs1 : documents (_database_writable site_fields (Some db1))
                   = documents db1) by apply database_writable_documents.
  assert (Hremove :
    documents (delete_document_term (identifier_of (obj p))
                 (_database_writable site_fields (Some db1)))
    = filter (fun kv => identifier_of (obj p) ∉ terms kv.2) (documents db0)).
  { cbn [delete_document_term documents]. rewrite Hdocs1.
    apply (filter_without_insert _ _ dp _ Hidp Hfree). }
  exists db1. split; [reflexivity|]. split; [|split].
  - rewrite database_writable_schema, Edp. f_equal.
    unfold replace_document at 1. rewrite Hdocs1.
    assert (Hd1 : documents db1
                  = <[default (new_docid db0)
                        (lowest_docid
                           (map_to_list
                              (filter (fun kv : positive * Document =>
                                         identifier_of (obj p) ∈ terms kv.2)
                                 (documents db0))).*1) := dp]>
                      (filter (fun kv : positive * Document =>
                                 identifier_of (obj p) ∉ terms kv.2)
                         (documents db0))) by reflexivity.
    rewrite Hd1 at 1 2.
    rewrite (filter_without_insert _ _ dp _ Hidp Hfree).
    rewrite (filter_with_insert _ _ dp _ Hidp).
    rewrite map_to_list_singleton. cbn [fmap list_fmap fst lowest_docid foldr default].
    subst db1. unfold replace_document, db0, _database_writable.
    destruct (build_schema site_fields). reflexivity.
  - rewrite Hremove. subst db0. rewrite database_writable_documents. reflexivity.
  - rewrite Hremove. reflexivity.
Qed.

End UpdateFacts.

(** The example indexer makes no term that starts with [Q]: a word in
    lower case does not, nor does a term after a prefix that starts with
    [X]. *)
Lemma lower_char_not_Q c : lower_char c <> "Q"%char.
Proof.
  destruct c as [[] [] [] [] [] [] [] []]; vm_compute; discriminate.
Qed.

Lemma example_indexer_no_identifier_terms : @no_identifier_terms example_indexer.
Proof.
  intros text prefix t Hp Hin. cbn [index_text example_indexer] in Hin.
  apply list_elem_of_fmap in Hin as (word & -> & _).
  unfold Py.startswith, DOCUMENT_ID_TERM_PREFIX.
  destruct Hp as [->|Hp].
  - change (EmptyString +:+ lower word) with (lower word).
    destruct word as [|c word]; [reflexivity|].
    cbn [lower String.prefix].
    destruct (ascii_dec "Q" (lower_char c)) as [E|_]; [|reflexivity].
    exfalso. apply (lower_char_not_Q c). symmetry. exact E.
  - destruct prefix as [|a prefix]; [discriminate Hp|].
    unfold Py.startswith, DOCUMENT_CUSTOM_TERM_PREFIX in Hp.
    cbn [String.prefix] in Hp.
    destruct (ascii_dec "X" a) as [<-|_]; [|discriminate Hp].
    reflexivity.
Qed.

Lemma example_entry_decodable pk title :
  @decodes example_indexer title = true ->
  @decodable example_indexer (example_entry pk title).
Proof.
  intros Ht f s E. unfold example_entry in E. cbn [model_data] in E.
  apply lookup_singleton_Some in E as [_ E]. injection E as <-. exact Ht.
Qed.

Lemma update_writes_one_document_for_each_object_witness :
  exists database j d,
    @update example_host example_indexer example_fields example_store
      [example_entry 1 "Hello"; example_entry 4 "World"]
    = (database, false)
    /\ documents database !! j = Some d
    /\ data_pk d = 4%Z
    /\ data_model_data d = model_data (example_entry 4 "World").
Proof.
  destruct (@update_writes_one_document_for_each_object example_host
              example_indexer example_fields example_store
              [example_entry 1 "Hello"; example_entry 4 "World"])
    as (database & Eu & Hobj & _).
  - exact example_indexer_no_identifier_terms.
  - apply (bool_decide_unpack _). vm_compute. exact I.
  - repeat constructor; apply example_entry_decodable; reflexivity.
  - destruct (Hobj (example_entry 4 "World")) as (j & d & Hd & _ & _ & _ & _ & Hpk & Hdata & _).
    + right. left.
    + exists database, j, d. repeat split; assumption.
Defined.

Lemma update_stops_at_a_text_it_cannot_decode_witness :
  @update example_host example_indexer example_fields example_store
    ([example_entry 1 "Hello"]
     ++ example_entry 2 undecodable_text :: [example_entry 3 "x"])
  = (fst (@update example_host example_indexer example_fields example_store
            [example_entry 1 "Hello"]), true).
Proof.
  apply (@update_stops_at_a_text_it_cannot_decode example_host example_indexer
           example_fields example_store [example_entry 1 "Hello"]
           [example_entry 3 "x"] (example_entry 2 undecodable_text) "title"
           undecodable_text).
  - repeat constructor. apply example_entry_decodable. reflexivity.
  - left.
  - reflexivity.
  - reflexivity.
Defined.


Lemma update_fills_the_value_slots_witness :
  exists database,
    @update example_host example_indexer example_fields None
      [example_entry 1 "Hello"] = (database, false)
    /\ _value_column (schema database) "title" = 0.
Proof.
  destruct (@update_fills_the_value_slots example_host example_indexer
              example_fields None (example_entry 1 "Hello") 0 "title")
    as (database & Eu & Hc & _).
  - apply (bool_decide_unpack _). vm_compute. exact I.
  - apply example_entry_decodable. reflexivity.
  - reflexivity.
  - exists database. split; assumption.
Defined.

Lemma update_again_and_remove_witness :
  exists database,
    @update example_host example_indexer example_fields example_store
      [example_entry 1 "Hello"] = (database, false)
    /\ @update example_host example_indexer example_fields (Some database)
         [example_entry 1 "Hello"] = (database, false).
Proof.
  destruct (@update_again_and_remove example_host example_indexer example_fields
              example_store (example_entry 1 "Hello"))
    as (database & Eu & Eagain & _).
  - apply example_entry_decodable. reflexivity.
  - exists database. split; assumption.
Defined.


(** ** The window of a search, [run] and [run_mlt] *)

Lemma M_bind_returns {A B : Type} (m : M A) (k : A -> M B) log b :
  (m ≫= k) = (log, Some (Val b)) ->
  exists log1 a log2,
    m = (log1, Some (Val a)) /\ k a = (log2, Some (Val b))
    /\ log = (log1 ++ log2)%list.
Proof.
  destruct m as [log1 [[a|e]|]]; unfold mbind, M_bind; try discriminate.
  destruct (k a) as [log2 r] eqn:Ek. intros E. injection E as <- ->.
  exists log1, a, log2. split; [reflexivity|]. split; [exact Ek|reflexivity].
Qed.

Section SearchShape.

Context `{Host} `{Engine}.

Variable include_spelling : bool.

Lemma results_for_matches database query_string highlight matches rs :
  results_for database query_string highlight matches = Val rs ->
  Forall2 result_of_match rs matches.
Proof.
  revert rs. induction matches as [|m matches IH]; intros rs E.
  - injection E as <-. constructor.
  - cbn [results_for] in E.
    destruct (result_for database query_string highlight m) as [r|e] eqn:Er;
      [|discriminate E].
    cbn [mbind res_bind] in E.
    destruct (results_for database query_string highlight matches) as [rs'|e];
      [|discriminate E].
    cbn [mbind res_bind] in E. injection E as <-.
    constructor; [|apply IH; reflexivity].
    unfold result_for in Er.
    destruct (if highlight && _ then _ else _) as [data|e]; [|discriminate Er].
    cbn [mbind res_bind] in Er. injection Er as <-.
    repeat split.
Qed.

Lemma search_unfold fuel store query_string a :
  search include_spelling fuel store query_string a
  = search_body include_spelling
      (match fuel with
       | O => fun _ => out_of_fuel
       | S fuel => fun query => search include_spelling fuel store query Args.defaults
       end) fuel store query_string a.
Proof. destruct fuel; reflexivity. Qed.

(** The results of a search that returns. *)
Lemma search_window (fuel : nat)
  (database : Database) (query_string : string) (a : Args.t)
  (log : list event) (r : response) :
  query_string <> EmptyString ->
  search include_spelling fuel (Some database) query_string a
  = (log, Some (Val r)) ->
  exists query spelling,
    _query include_spelling database query_string (Args.narrow_queries a)
      (Args.boost a) = Val (query, spelling)
    /\ let sorter :=
         match Args.sort_by a with
         | None | Some [] => None
         | Some sort_by => Some (_sorter (schema database) sort_by)
         end in
       Forall2 result_of_match (results r)
         (take (N.to_nat (Args.end_offset a))
            (drop (N.to_nat (Args.start_offset a))
               (all_matches database query sorter)))
       /\ hits r = get_matches_estimated database query sorter
       /\ is_Some (facets r)
       /\ spelling_suggestion r = Some spelling.
Proof.
  intros Hq Hrun. apply String.eqb_neq in Hq.
  rewrite search_unfold in Hrun. unfold search_body in Hrun. rewrite Hq in Hrun.
  apply M_bind_returns in Hrun as (l1 & [] & l2 & _ & Hrun & ->).
  apply M_bind_returns in Hrun as (l3 & [] & l4 & _ & Hrun & ->).
  apply M_bind_returns in Hrun as (l5 & db & l6 & Hdb & Hrun & ->).
  injection Hdb as <- <-.
  apply M_bind_returns in Hrun as (l7 & [query spelling] & l8 & Hqy & Hrun & ->).
  unfold lift in Hqy. injection Hqy as <- Hqy.
  exists query, spelling. split; [exact Hqy|]. cbn zeta.
  apply M_bind_returns in Hrun as (l9 & [] & l10 & _ & Hrun & ->).
  apply M_bind_returns in Hrun as (l11 & rs & l12 & Hrs & Hrun & ->).
  unfold lift in Hrs. injection Hrs as <- Hrs.
  apply results_for_matches in Hrs.
  apply M_bind_returns in Hrun as (l13 & fs & l14 & _ & Hrun & ->).
  apply M_bind_returns in Hrun as (l15 & ds & l16 & _ & Hrun & ->).
  apply M_bind_returns in Hrun as (l17 & qs & l18 & _ & Hrun & ->).
  unfold mret, M_ret in Hrun. injection Hrun as <- <-.
  cbn [results hits facets spelling_suggestion].
  split; [exact Hrs|]. split; [reflexivity|]. split; [eauto | reflexivity].
Qed.


End SearchShape.



Section RunFacts.

Context `{Host} `{Engine}.

Variable include_spelling : bool.

Lemma kwargs_offsets q first last :
  (0 <= SearchQuery.start_offset q)%Z ->
  SearchQuery.start_offset q = first ->
  SearchQuery.end_offset q = Some last ->
  (first <= last)%Z ->
  exists a,
    SearchQuery.kwargs q = Some a
    /\ Args.start_offset a = Z.to_N first
    /\ Args.end_offset a = Z.to_N (last - first)
    /\ Args.sort_by a = SearchQuery.nonempty (SearchQuery.order_by q)
    /\ Args.narrow_queries a = SearchQuery.nonempty (SearchQuery.narrow_queries q)
    /\ Args.boost a = SearchQuery.nonempty_dict (SearchQuery.boost q).
Proof.
  intros Hz Hs He Hle. unfold SearchQuery.kwargs, SearchQuery.items, doccount.
  rewrite He, Hs.
  destruct (first <? 0)%Z eqn:E1; [apply Z.ltb_lt in E1; lia|].
  destruct (last - first <? 0)%Z eqn:E2; [apply Z.ltb_lt in E2; lia|].
  cbn [mbind option_bind]. eexists. split; [reflexivity|]. repeat split.
Qed.


(** X26: a query with narrow queries and neither filters nor models
    compiles to [*], and its [run] ends with [NameError], no match set
    being fetched. *)
Theorem run_without_filters_and_narrowed (fuel : nat) (database : Database)
  (q : SearchQuery.t) (a : Args.t) (narrow_query : string)
  (narrow_queries : list string) :
  SearchQuery.query_filters q = [] ->
  SearchQuery.models q = [] ->
  SearchQuery.narrow_queries q = narrow_query :: narrow_queries ->
  SearchQuery.kwargs q = Some a ->
  exists log,
    run include_spelling fuel (Some database) q = Some (log, Some (Exc NameError))
    /\ fetched log = [].
Proof.
  intros Hf Hm Hn Ha. unfold run. rewrite Ha, Hf, Hm. cbn [mbind option_bind].
  assert (Hnarrow : Args.narrow_queries a = Some (narrow_query :: narrow_queries)).
  { revert Ha. unfold SearchQuery.kwargs.
    destruct (doccount _); [|discriminate]. cbn [mbind option_bind].
    destruct (SearchQuery.items q); [|discriminate]. cbn [mbind option_bind].
    intros E. injection E as <-. cbn [Args.narrow_queries]. rewrite Hn.
    reflexivity. }
  change (build_query [] []) with (Val "*").
  unfold lift. unfold mbind at 1, M_bind at 1.
  rewrite search_unfold. unfold search_body. rewrite Hnarrow.
  destruct (Args.query_facets a); eexists; split; reflexivity.
Qed.

End RunFacts.


Lemma run_without_filters_and_narrowed_witness :
  exists log,
    @run example_host example_engine false 1 (Some example_database)
      (example_run_query [] 1 ["bar"])
    = Some (log, Some (Exc NameError)).
Proof.
  edestruct (@run_without_filters_and_narrowed example_host example_engine false 1
               example_database (example_run_query [] 1 ["bar"])
               {| Args.sort_by := None; Args.start_offset := 0;
                  Args.end_offset := 1; Args.highlight := false;
                  Args.facets := None; Args.date_facets := None;
                  Args.query_facets := None;
                  Args.narrow_queries := Some ["bar"];
                  Args.boost := None |} "bar" [])
    as (log & E & _);
    [reflexivity | reflexivity | reflexivity | vm_compute; reflexivity |].
  exists log. exact E.
Defined.


Section RunMltFacts.

Context `{Host} `{Engine}.

Variable include_spelling : bool.

Lemma more_like_this_results database instance additional first maxitems r :
  more_like_this include_spelling (Some database) instance additional first
    maxitems = Val r ->
  length (results r) <= N.to_nat maxitems
  /\ (indexed_by_identifier database ->
      forall result, result ∈ results r ->
        ~ (sr_app_label result = obj_app_label instance
           /\ sr_module_name result = obj_module_name instance
           /\ sr_pk result = obj_pk instance)).
Proof.
  unfold more_like_this. cbn [_database mbind res_bind].
  set (identifier := get_identifier _ _ _).
  destruct (more_like_this_query_excludes include_spelling database identifier
              additional) as (query & -> & Hq).
  cbn [mbind res_bind]. intros E. injection E as <-. cbn [results]. split.
  - rewrite length_map. unfold get_mset. rewrite length_take. lia.
  - intros Hinv result Hr (Ha & Hm & Hp).
    apply list_elem_of_fmap in Hr as (m & -> & Hin).
    apply get_mset_sound in Hin as [Hd Hmatch].
    apply (Hq _ Hmatch). specialize (Hinv _ _ Hd).
    cbn [result_of sr_app_label sr_module_name sr_pk] in Ha, Hm, Hp.
    rewrite Ha, Hm, Hp in Hinv. exact Hinv.
Qed.

(** X27: [run_mlt] for a query without an instance, or not set up for
    more-like-this, ends with [NameError], the exception it means to raise
    not being imported.  With an instance, it returns at most
    [end_offset - start_offset] results, and, every document of the store
    carrying the identifier of its own entity, none of them is the
    instance itself. *)
Theorem run_mlt_needs_an_instance (store : Store) (q : SearchQuery.t) :
  (SearchQuery._more_like_this q = false \/ SearchQuery._mlt_instance q = None ->
   run_mlt include_spelling store q = Some (Exc NameError))
  /\ (forall database instance rs hit_count,
        store = Some database ->
        SearchQuery._more_like_this q = true ->
        SearchQuery._mlt_instance q = Some instance ->
        run_mlt include_spelling store q = Some (Val (rs, hit_count)) ->
        (forall last, SearchQuery.end_offset q = Some last ->
           (Z.of_nat (length rs) <= last - SearchQuery.start_offset q)%Z)
        /\ (indexed_by_identifier database ->
            forall result, result ∈ rs ->
              ~ (sr_app_label result = obj_app_label instance
                 /\ sr_module_name result = obj_module_name instance
                 /\ sr_pk result = obj_pk instance))).
Proof.
  split.
  - unfold run_mlt. intros [->| ->]; [reflexivity|].
    destruct (SearchQuery._more_like_this q); reflexivity.
  - intros database instance rs hit_count -> Hm Hi. unfold run_mlt.
    rewrite Hm, Hi.
    destruct (doccount (SearchQuery.start_offset q)) as [first|]; [|discriminate].
    cbn [mbind option_bind].
    destruct (SearchQuery.items q) as [maxitems|] eqn:Ei; [|discriminate].
    cbn [mbind option_bind].
    destruct (build_query _ _) as [additional|e]; [|discriminate].
    cbn [mbind res_bind].
    destruct (more_like_this _ _ _ _ _ _) as [r|e] eqn:Er; [|discriminate].
    cbn [mbind res_bind]. intros E. injection E as <- <-.
    apply more_like_this_results in Er as [Hlen Hseed].
    split; [|exact Hseed].
    intros last Hl. unfold SearchQuery.items, doccount in Ei. rewrite Hl in Ei.
    destruct (last - SearchQuery.start_offset q <? 0)%Z eqn:En; [discriminate Ei|].
    injection Ei as <-. apply Z.ltb_ge in En. lia.
Qed.

End RunMltFacts.

Section MissingStore.

Context `{Host} `{Engine} `{Indexer}.

Variable include_spelling : bool.
Variable site_fields : list (string * field_class).

(** X28: after [delete_index] there is no store: [document_count] is 0,
    a search for a query string that is not empty and [more_like_this]
    raise [DatabaseOpeningError] without fetching anything, while [clear],
    [remove] and [update] make the store anew: [clear] and [remove] leave
    it empty, with the schema of the site, and [update] of one object
    leaves one document. *)
Theorem after_delete_index (store : Store) :
  document_count (delete_index store) = 0
  /\ (forall fuel query_string a,
        query_string <> EmptyString ->
        snd (search include_spelling fuel (delete_index store) query_string a)
        = Some (Exc DatabaseOpeningError)
        /\ fetched (fst (search include_spelling fuel (delete_index store)
                           query_string a)) = [])
  /\ (forall instance additional first maxitems,
        more_like_this include_spelling (delete_index store) instance additional
          first maxitems = Exc DatabaseOpeningError)
  /\ (forall models,
        exists database,
          clear include_spelling site_fields (delete_index store) models
          = Val database
          /\ documents database = ∅
          /\ schema database = snd (build_schema site_fields))
  /\ (forall o,
        documents (remove site_fields (delete_index store) o) = ∅)
  /\ (forall p, decodable p ->
        exists database j d,
          update site_fields (delete_index store) [p] = (database, false)
          /\ documents database = {[ j := d ]}
          /\ data_pk d = obj_pk (obj p)
          /\ document_count (Some database) = 1).
Proof.
  unfold delete_index. split; [reflexivity|]. split; [|split; [|split; [|split]]].
  - intros fuel query_string a Hq. apply String.eqb_neq in Hq.
    rewrite search_unfold. unfold search_body. rewrite Hq.
    destruct (Args.query_facets a); split; reflexivity.
  - reflexivity.
  - intros models. unfold clear.
    assert (Hd : documents (_database_writable site_fields None) = ∅)
      by (unfold _database_writable; destruct (build_schema site_fields);
          reflexivity).
    assert (Hs : schema (_database_writable site_fields None)
                 = snd (build_schema site_fields))
      by (unfold _database_writable; destruct (build_schema site_fields);
          reflexivity).
    destruct models as [|model models].
    + cbn [_query String.eqb Ascii.eqb Bool.eqb negb andb mbind res_bind].
      eexists. split; [reflexivity|].
      unfold get_mset, all_matches. rewrite Hd, map_to_list_empty. cbn [List.filter map].
      assert (Hr : forall db q s, ranked db q s [] = [])
        by (intros db q s; apply Permutation_nil_r, ranked_perm).
      rewrite Hr. rewrite drop_nil, take_nil. cbn [fold_left].
      split; [exact Hd | exact Hs].
    + eexists. split; [reflexivity|].
      generalize (model :: models) as ms. intros ms.
      assert (Hgen : forall db, documents db = ∅ ->
                schema db = snd (build_schema site_fields) ->
                documents (fold_left
                   (fun db m => delete_document_term
                                  (content_type_term (app_label m) (module_name m)) db)
                   ms db) = ∅
                /\ schema (fold_left
                   (fun db m => delete_document_term
                                  (content_type_term (app_label m) (module_name m)) db)
                   ms db) = snd (build_schema site_fields)).
      { induction ms as [|m ms IH]; intros db Hdb Hsb; [split; assumption|].
        cbn [fold_left]. apply IH; [|exact Hsb].
        cbn [delete_document_term documents]. rewrite Hdb. apply map_filter_empty. }
      apply Hgen; assumption.
  - intros o. unfold remove. cbn [delete_document_term documents].
    unfold _database_writable. destruct (build_schema site_fields).
    cbn [documents]. apply map_filter_empty.
  - intros p Hp. unfold update. cbn [update_from].
    destruct (document_for_decodable
                (schema (_database_writable site_fields None)) p Hp) as [d Ed].
    rewrite Ed.
    pose proof (document_for_holds _ _ _ Ed) as (_ & _ & _ & _ & Hpk & _).
    set (db1 := replace_document _ d _).
    assert (Hd : documents (_database_writable site_fields None) = ∅)
      by (unfold _database_writable; destruct (build_schema site_fields);
          reflexivity).
    assert (Hd1 : documents db1
                  = {[ new_docid (_database_writable site_fields None) := d ]}).
    { subst db1. cbn [replace_document documents].
      rewrite Hd, !map_filter_empty, map_to_list_empty. cbn [fmap list_fmap
        lowest_docid default]. apply insert_empty. }
    exists db1, (new_docid (_database_writable site_fields None)), d.
    split; [reflexivity|]. split; [exact Hd1|]. split; [exact Hpk|].
    unfold document_count. cbn [_database]. rewrite Hd1. apply map_size_singleton.
Qed.

End MissingStore.

(** ** [clear] after [update] *)

Section ClearModels.

Context `{Engine}.

Variable include_spelling : bool.
Variable site_fields : list (string * field_class).

(** X29: in a store whose documents carry the content type term of
    their entity, as [update] writes them, [clear] with models leaves no
    document of an entity of one of the models, and keeps every document
    that carries the content type term of none of them. *)
Theorem clear_removes_the_entities_of_the_models (database : Database)
  (model : Model) (models : list Model) :
  indexed_by_content_type database ->
  exists cleared,
    clear include_spelling site_fields (Some database) (model :: models)
    = Val cleared
    /\ (forall i d, documents cleared !! i = Some d ->
          documents database !! i = Some d
          /\ forall m, m ∈ model :: models ->
               ~ (data_app_label d = app_label m
                  /\ data_module_name d = module_name m))
    /\ (forall i d, documents database !! i = Some d ->
          (forall m, m ∈ model :: models ->
             content_type_term (app_label m) (module_name m) ∉ terms d) ->
          documents cleared !! i = Some d).
Proof.
  intros Hinv.
  assert (Hdocs : documents (_database_writable site_fields (Some database))
                  = documents database)
    by (unfold _database_writable; destruct (build_schema site_fields);
        reflexivity).
  eexists. split; [reflexivity|]. split.
  - intros i d Hd.
    destruct (clear_models_lookup include_spelling site_fields (Some database)
                model models i d) as (db & E & Hiff).
    injection E as <-. apply Hiff in Hd as [Hd Hn]. rewrite Hdocs in Hd.
    split; [exact Hd|]. intros m Hm [Ha Hmod]. apply (Hn m Hm).
    specialize (Hinv i d Hd). rewrite Ha, Hmod in Hinv. exact Hinv.
  - intros i d Hd Hn.
    destruct (clear_models_lookup include_spelling site_fields (Some database)
                model models i d) as (db & E & Hiff).
    injection E as <-. apply Hiff. rewrite Hdocs. split; assumption.
Qed.

End ClearModels.

Lemma clear_removes_the_entities_of_the_models_witness :
  indexed_by_content_type example_database
  /\ exists cleared,
       @clear example_engine false example_fields (Some example_database)
         [{| app_label := "blog"; module_name := "entry" |}] = Val cleared
       /\ forall i d, documents cleared !! i = Some d ->
            documents example_database !! i = Some d.
Proof.
  assert (Hinv : indexed_by_content_type example_database).
  { assert (Hall : map_Forall
                     (fun _ d =>
                        content_type_term (data_app_label d) (data_module_name d)
                          ∈ terms d)
                     (documents example_database))
      by (apply (bool_decide_unpack _); vm_compute; exact I).
    intros i d Hd. exact (Hall i d Hd). }
  split; [exact Hinv|].
  destruct (@clear_removes_the_entities_of_the_models example_engine false
              example_fields example_database
              {| app_label := "blog"; module_name := "entry" |} [] Hinv)
    as (cleared & E & Hkept & _).
  exists cleared. split; [exact E|].
  intros i d Hd. apply (Hkept i d Hd).
Defined.


